(** * CarBookingService: the entity store, the car catalog, the booking
    ledger and the availability query, embedded from the Python sources
    under [src/app], with the properties of the specification. *)

From Stdlib Require Import String Ascii.
From Stdlib Require Import ZArith QArith List Bool Lia.
Import ListNotations.
Open Scope Z_scope.

(** * Python dictionaries with integer keys

    [InMemoryDatabase._storage] is a [Dict[int, T]].  A Python dict iterates
    in insertion order, assigning to a key that is present keeps its
    position, and a key occurs once: an association list, updated in
    place or extended at the end. *)

Section Dict.
Variable V : Type.

Definition dict := list (Z * V).

Definition keys (d : dict) : list Z := map fst d.

(** [list(d.values())] *)
Definition values (d : dict) : list V := map snd d.

(** [d.get(k)] *)
Fixpoint dict_get (k : Z) (d : dict) : option V :=
  match d with
  | [] => None
  | (k', v) :: d' => if k' =? k then Some v else dict_get k d'
  end.

(** [k in d] *)
Definition dict_mem (k : Z) (d : dict) : bool :=
  match dict_get k d with Some _ => true | None => false end.

(** [d[k] = v] *)
Fixpoint dict_set (k : Z) (v : V) (d : dict) : dict :=
  match d with
  | [] => [(k, v)]
  | (k', v') :: d' =>
      if k' =? k then (k', v) :: d' else (k', v') :: dict_set k v d'
  end.

(** [del d[k]] (the callers test [k in d] first) *)
Fixpoint dict_del (k : Z) (d : dict) : dict :=
  match d with
  | [] => []
  | (k', v') :: d' => if k' =? k then d' else (k', v') :: dict_del k d'
  end.

End Dict.

Arguments dict_get {V} k d.
Arguments dict_mem {V} k d.
Arguments dict_set {V} k v d.
Arguments dict_del {V} k d.
Arguments keys {V} d.
Arguments values {V} d.

(** [a; a+1; ...], [n] numbers *)
Fixpoint count_from (a : Z) (n : nat) : list Z :=
  match n with
  | O => []
  | S n' => a :: count_from (a + 1) n'
  end.

(** * Items of a store

    [InMemoryDatabase] is generic in its item type and asks [hasattr(item,
    'id')] before it reads or writes [item.id].  The three domain models
    all declare [id: Optional[int] = None]. *)

Class Entity (T : Type) := {
  hasattr_id : T -> bool;
  get_id : T -> option Z;
  set_id : Z -> T -> T;
  get_set_id : forall k x, get_id (set_id k x) = Some k;
  hasattr_set_id : forall k x, hasattr_id (set_id k x) = hasattr_id x
}.

(** * src/app/repositories/database.py *)

Module InMemoryDatabase.

Record t (T : Type) := mk { _storage : dict T; _next_id : Z }.
Arguments mk {T} _ _.
Arguments _storage {T} _.
Arguments _next_id {T} _.

(** [raise ValueError(f"Item with id {item.id} already exists")] *)
Inductive ValueError := ItemAlreadyExists (item_id : Z).

Section Methods.
Context {T : Type} `{Entity T}.

(** [__init__] *)
Definition init : t T := mk [] 1.

(** [create]: the result and the store afterwards; when the call raises,
    nothing has been written.  The three arms are the [if]/[elif] chain:
    an item whose [id] is [None] takes the counter, an item with an [id]
    of its own is refused when the key is taken and stored under it
    otherwise, an item without an [id] attribute is stored under the
    counter as it is. *)
Definition create (self : t T) (item : T) : (ValueError + T) * t T :=
  match hasattr_id item, get_id item with
  | true, None =>
      let item' := set_id (_next_id self) item in
      (inr item',
       mk (dict_set (_next_id self) item' (_storage self)) (_next_id self + 1))
  | true, Some k =>
      if dict_mem k (_storage self)
      then (inl (ItemAlreadyExists k), self)
      else (inr item, mk (dict_set k item (_storage self)) (_next_id self))
  | false, _ =>
      (inr item,
       mk (dict_set (_next_id self) item (_storage self)) (_next_id self + 1))
  end.

Definition get_by_id (self : t T) (item_id : Z) : option T :=
  dict_get item_id (_storage self).

Definition get_all (self : t T) : list T := values (_storage self).

(** [update]: [None] when the key is absent.  Otherwise the code writes
    [item.id = item_id] on the object it was handed and stores that
    object.  Items are values here, so the store afterwards is the one of
    the code whenever the object handed over is not also the object
    stored under another key; the handlers hand over the fresh copy that
    [model_copy] made. *)
Definition update (self : t T) (item_id : Z) (item : T) : option T * t T :=
  if negb (dict_mem item_id (_storage self)) then (None, self)
  else
    let item' := if hasattr_id item then set_id item_id item else item in
    (Some item', mk (dict_set item_id item' (_storage self)) (_next_id self)).

Definition delete (self : t T) (item_id : Z) : bool * t T :=
  if dict_mem item_id (_storage self)
  then (true, mk (dict_del item_id (_storage self)) (_next_id self))
  else (false, self).

Definition exists_ (self : t T) (item_id : Z) : bool :=
  dict_mem item_id (_storage self).

Definition clear (self : t T) : t T := mk [] 1.

(** ** Sequences of [create] and [delete] calls *)

Inductive op := Create (item : T) | Delete (item_id : Z).

(** What a call did: [Created item] holds the item that [create]
    returned, so that the identity of a stored item is read off the item
    itself. *)
Inductive event :=
| Created (item : T)
| Raised (e : ValueError)
| Deleted (item_id : Z) (removed : bool).

Definition step (self : t T) (o : op) : t T * event :=
  match o with
  | Create item =>
      let '(r, self') := create self item in
      (self', match r with
              | inl e => Raised e
              | inr item' => Created item'
              end)
  | Delete k => let '(b, self') := delete self k in (self', Deleted k b)
  end.

Fixpoint run (self : t T) (ops : list op) : t T * list event :=
  match ops with
  | [] => (self, [])
  | o :: ops' =>
      let '(self1, e) := step self o in
      let '(self2, es) := run self1 ops' in
      (self2, e :: es)
  end.

(** The identities of the items that the calls of a run returned, in the
    order of the calls: [item.id] of each returned item. *)
Fixpoint created_ids (es : list event) : list Z :=
  match es with
  | [] => []
  | Created item :: es' =>
      match get_id item with
      | Some k => k :: created_ids es'
      | None => created_ids es'
      end
  | _ :: es' => created_ids es'
  end.

Definition is_create (o : op) : bool :=
  match o with
  | Create _ => true
  | Delete _ => false
  end.

(** The keys are distinct and an item that has an [id] carries the key it
    is stored under. *)
Definition wf (self : t T) : Prop :=
  NoDup (keys (_storage self)) /\
  forall k v, In (k, v) (_storage self) ->
              hasattr_id v = true -> get_id v = Some k.

(** No key has reached the counter yet (true of a store that was only
    handed items without an identity). *)
Definition below_next (self : t T) : Prop :=
  forall k, In k (keys (_storage self)) -> k < _next_id self.

End Methods.
End InMemoryDatabase.

(** * Values of the Python runtime

    A [datetime] is a point of a total order; the integer is its day
    number ([date.toordinal]) times 1440 plus the minute of the day.  The
    datetimes of a run are taken to be of one kind (all naive, as in the
    tests), so that any two compare, and tests and examples use whole
    minutes.  Python raises [TypeError] when a naive datetime is compared
    with an aware one; that outcome has no term here, so a statement that
    a handler which compares datetimes answers, or lists its outcomes,
    speaks of runs whose datetimes are of one kind.  A [float] is only
    stored, copied and compared with zero: rationals stand for it. *)

Definition datetime := Z.

Definition is_leap (y : Z) : bool :=
  ((y mod 4 =? 0) && negb (y mod 100 =? 0)) || (y mod 400 =? 0).

Definition days_before_year (y : Z) : Z :=
  (y - 1) * 365 + (y - 1) / 4 - (y - 1) / 100 + (y - 1) / 400.

Definition days_before_month (y m : Z) : Z :=
  nth (Z.to_nat (m - 1)) [0; 31; 59; 90; 120; 151; 181; 212; 243; 273; 304; 334] 0
  + (if (2 <? m) && is_leap y then 1 else 0).

(** [datetime(year, month, day, hour, minute)] *)
Definition mk_datetime (year month day hour minute : Z) : datetime :=
  ((days_before_year year + days_before_month year month + day) * 24 + hour) * 60
  + minute.

Definition float := Q.

(** [Field(..., gt=0)] on a float *)
Definition float_gt_zero (x : float) : bool := 0 <? Qnum x.

(** [Field(..., min_length=1)] and [min_length=17, max_length=17] *)
Definition min_length_1 (s : string) : bool := negb (String.eqb s EmptyString).

Definition length_17 (s : string) : bool := Nat.eqb (String.length s) 17.

(** The pattern [^[^@]+@[^@]+\.[^@]+$]: one [@], something before it, and
    after it a dot that is neither the first nor the last character. *)
Definition at_sign : ascii := Ascii.ascii_of_nat 64.
Definition dot : ascii := Ascii.ascii_of_nat 46.

Fixpoint count_at (s : string) : nat :=
  match s with
  | EmptyString => O
  | String c s' => ((if Ascii.eqb c at_sign then 1 else 0) + count_at s')%nat
  end.

Fixpoint after_at (s : string) : string :=
  match s with
  | EmptyString => EmptyString
  | String c s' => if Ascii.eqb c at_sign then s' else after_at s'
  end.

Fixpoint dot_before_last (s : string) : bool :=
  match s with
  | String c ((String _ _) as s') => Ascii.eqb c dot || dot_before_last s'
  | _ => false
  end.

Definition email_pattern (s : string) : bool :=
  Nat.eqb (count_at s) 1 &&
  match s with
  | EmptyString => false
  | String c _ => negb (Ascii.eqb c at_sign)
  end &&
  match after_at s with
  | EmptyString => false
  | String _ rest => dot_before_last rest
  end.

(** * src/app/domain/models.py *)

Inductive CarStatus := AVAILABLE | MAINTENANCE.

Definition CarStatus_eqb (a b : CarStatus) : bool :=
  match a, b with
  | AVAILABLE, AVAILABLE | MAINTENANCE, MAINTENANCE => true
  | _, _ => false
  end.

Module Dealer.
Record t := mk { id : option Z; name : string; location : option string }.

Definition with_id (k : Z) (d : t) : t := mk (Some k) (name d) (location d).
End Dealer.

(** A stored [Car].  Construction validates the declared types, but
    [model_copy(update=...)] does not, so every attribute that [CarUpdate]
    can carry may hold [None] at run time; [id] is [None] until the store
    assigns it. *)
Module Car.
Record t := mk {
  id : option Z;
  brand : option string;
  model : option string;
  year : option Z;
  color : option string;
  daily_price : option float;
  vin : option string;
  status : option CarStatus;
  dealer_id : option Z
}.

Definition with_id (k : Z) (c : t) : t :=
  mk (Some k) (brand c) (model c) (year c) (color c) (daily_price c) (vin c)
     (status c) (dealer_id c).

(** The field declarations of the model: what [Car(...)] checks.
    [today_year] is [date.today().year] when the module was imported. *)
Definition validate (today_year : Z) (c : t) : bool :=
  match brand c, model c, year c, color c, daily_price c, vin c, status c,
        dealer_id c with
  | Some _, Some _, Some y, Some _, Some p, Some v, Some _, Some d =>
      (1900 <? y) && (y <=? today_year + 1) && float_gt_zero p &&
      length_17 v && (0 <? d)
  | _, _, _, _, _, _, _, _ => false
  end.
End Car.

Module Booking.
Record t := mk {
  id : option Z;
  car_id : Z;
  customer_name : string;
  customer_email : string;
  start_datetime : datetime;
  end_datetime : datetime
}.

Definition with_id (k : Z) (b : t) : t :=
  mk (Some k) (car_id b) (customer_name b) (customer_email b)
     (start_datetime b) (end_datetime b).

(** Field constraints, then [validate_datetimes] ([mode='after']). *)
Definition validate (b : t) : bool :=
  min_length_1 (customer_name b) && email_pattern (customer_email b) &&
  negb (end_datetime b <=? start_datetime b).
End Booking.

#[global] Instance Dealer_Entity : Entity Dealer.t :=
  {| hasattr_id := fun _ => true;
     get_id := Dealer.id;
     set_id := Dealer.with_id;
     get_set_id := fun _ _ => eq_refl;
     hasattr_set_id := fun _ _ => eq_refl |}.

#[global] Instance Car_Entity : Entity Car.t :=
  {| hasattr_id := fun _ => true;
     get_id := Car.id;
     set_id := Car.with_id;
     get_set_id := fun _ _ => eq_refl;
     hasattr_set_id := fun _ _ => eq_refl |}.

#[global] Instance Booking_Entity : Entity Booking.t :=
  {| hasattr_id := fun _ => true;
     get_id := Booking.id;
     set_id := Booking.with_id;
     get_set_id := fun _ _ => eq_refl;
     hasattr_set_id := fun _ _ => eq_refl |}.

(** * src/app/schemas/car.py *)

Module CarCreate.
Record t := mk {
  brand : string;
  model : string;
  year : Z;
  color : string;
  daily_price : float;
  vin : string;
  status : CarStatus;
  dealer_id : Z
}.

Definition validate (today_year : Z) (d : t) : bool :=
  min_length_1 (brand d) && min_length_1 (model d) &&
  (1900 <? year d) && (year d <=? today_year + 1) &&
  min_length_1 (color d) && float_gt_zero (daily_price d) &&
  length_17 (vin d) && (0 <? dealer_id d).

(** The keyword arguments of [Car], from [car_data.model_dump()], before
    validation *)
Definition to_car (d : t) : Car.t :=
  Car.mk None (Some (brand d)) (Some (model d)) (Some (year d)) (Some (color d))
         (Some (daily_price d)) (Some (vin d)) (Some (status d))
         (Some (dealer_id d)).
End CarCreate.

(** A field of a partial payload: left out of the request body, or
    supplied with the value [null] or with a value.  An attribute that
    was left out reads as its default, [None]. *)
Inductive supplied (A : Type) := Unset | Null | Value (a : A).
Arguments Unset {A}.
Arguments Null {A}.
Arguments Value {A} a.

(** [car_data.<field>] *)
Definition attr {A} (f : supplied A) : option A :=
  match f with Value a => Some a | _ => None end.

(** Whether [model_dump(exclude_unset=True)] has the field's key *)
Definition is_set {A} (f : supplied A) : bool :=
  match f with Unset => false | _ => true end.

(** A field constraint holds of [None] and of a value that meets it. *)
Definition opt_ok {A} (p : A -> bool) (f : supplied A) : bool :=
  match f with Value a => p a | _ => true end.

Module CarUpdate.
Record t := mk {
  brand : supplied string;
  model : supplied string;
  year : supplied Z;
  color : supplied string;
  daily_price : supplied float;
  vin : supplied string;
  status : supplied CarStatus;
  dealer_id : supplied Z
}.

Definition validate (today_year : Z) (d : t) : bool :=
  opt_ok min_length_1 (brand d) && opt_ok min_length_1 (model d) &&
  opt_ok (fun y => (1900 <? y) && (y <=? today_year + 1)) (year d) &&
  opt_ok min_length_1 (color d) && opt_ok float_gt_zero (daily_price d) &&
  opt_ok length_17 (vin d) && opt_ok (fun k => 0 <? k) (dealer_id d).

(** The empty payload [{}] *)
Definition empty : t := mk Unset Unset Unset Unset Unset Unset Unset Unset.
End CarUpdate.

(** One entry of [existing_car.model_copy(update=update_data)]: a key of
    [update_data] replaces the attribute, with whatever it holds. *)
Definition override {A} (old : option A) (f : supplied A) : option A :=
  match f with Unset => old | Null => None | Value a => Some a end.

(** [existing_car.model_copy(update=car_data.model_dump(exclude_unset=True))] *)
Definition model_copy (existing_car : Car.t) (car_data : CarUpdate.t) : Car.t :=
  Car.mk (Car.id existing_car)
         (override (Car.brand existing_car) (CarUpdate.brand car_data))
         (override (Car.model existing_car) (CarUpdate.model car_data))
         (override (Car.year existing_car) (CarUpdate.year car_data))
         (override (Car.color existing_car) (CarUpdate.color car_data))
         (override (Car.daily_price existing_car) (CarUpdate.daily_price car_data))
         (override (Car.vin existing_car) (CarUpdate.vin car_data))
         (override (Car.status existing_car) (CarUpdate.status car_data))
         (override (Car.dealer_id existing_car) (CarUpdate.dealer_id car_data)).

Module CarResponse.
Record t := mk {
  id : Z;
  brand : string;
  model : string;
  year : Z;
  color : string;
  daily_price : float;
  vin : string;
  status : CarStatus;
  dealer_id : Z
}.

(** [CarResponse.model_validate(car)]: every field is required and none
    is [Optional], so an attribute holding [None] fails validation. *)
Definition model_validate (c : Car.t) : option t :=
  match Car.id c, Car.brand c, Car.model c, Car.year c, Car.color c,
        Car.daily_price c, Car.vin c, Car.status c, Car.dealer_id c with
  | Some i, Some b, Some m, Some y, Some co, Some p, Some v, Some s, Some d =>
      Some (mk i b m y co p v s d)
  | _, _, _, _, _, _, _, _, _ => None
  end.
End CarResponse.

(** * src/app/schemas/booking.py *)

Module BookingCreate.
Record t := mk {
  car_id : Z;
  customer_name : string;
  customer_email : string;
  start_datetime : datetime;
  end_datetime : datetime
}.

(** [validate_datetimes]: raises when [end_datetime <= start_datetime] *)
Definition validate_datetimes (d : t) : bool :=
  negb (end_datetime d <=? start_datetime d).

Definition validate (d : t) : bool :=
  (0 <? car_id d) && min_length_1 (customer_name d) &&
  email_pattern (customer_email d) && validate_datetimes d.

(** The keyword arguments of [Booking], from [booking_data.model_dump()],
    before validation *)
Definition to_booking (d : t) : Booking.t :=
  Booking.mk None (car_id d) (customer_name d) (customer_email d)
             (start_datetime d) (end_datetime d).
End BookingCreate.

Module BookingResponse.
Record t := mk {
  id : Z;
  car_id : Z;
  customer_name : string;
  customer_email : string;
  start_datetime : datetime;
  end_datetime : datetime
}.

Definition model_validate (b : Booking.t) : option t :=
  match Booking.id b with
  | Some i =>
      Some (mk i (Booking.car_id b) (Booking.customer_name b)
               (Booking.customer_email b) (Booking.start_datetime b)
               (Booking.end_datetime b))
  | None => None
  end.
End BookingResponse.

(** * The accumulating loop

    [out = []], then [for x in items: if keep(x): out.append(x)]. *)

Definition collect {A} (keep : A -> bool) (items : list A) : list A :=
  fold_left (fun out x => if keep x then out ++ [x] else out) items [].

(** * Truth values of optional arguments

    [if x:] on an [Optional[int]] is false for [None] and for [0]; on an
    [Optional[str]] it is false for [None] and for the empty string. *)

Definition truthy_int (x : option Z) : bool :=
  match x with Some k => negb (k =? 0) | None => false end.

Definition truthy_str (x : option string) : bool :=
  match x with Some s => negb (String.eqb s EmptyString) | None => false end.

Definition is_some {A} (x : option A) : bool :=
  match x with Some _ => true | None => false end.

(** [==] on optional integers and optional strings *)
Definition opt_int_eqb (x y : option Z) : bool :=
  match x, y with
  | Some a, Some b => a =? b
  | None, None => true
  | _, _ => false
  end.

Definition opt_str_eqb (x y : option string) : bool :=
  match x, y with
  | Some a, Some b => String.eqb a b
  | None, None => true
  | _, _ => false
  end.

(** * src/app/repositories/dealer_repository.py *)

Module DealerRepository.
Definition t := InMemoryDatabase.t Dealer.t.

Definition create (self : t) (dealer : Dealer.t) := InMemoryDatabase.create self dealer.

Definition get_by_id (self : t) (dealer_id : Z) : option Dealer.t :=
  InMemoryDatabase.get_by_id self dealer_id.

Definition get_all (self : t) : list Dealer.t := InMemoryDatabase.get_all self.
End DealerRepository.

(** * src/app/repositories/car_repository.py *)

Module CarRepository.
Definition t := InMemoryDatabase.t Car.t.

Definition create (self : t) (car : Car.t) := InMemoryDatabase.create self car.

Definition get_by_id (self : t) (car_id : Z) : option Car.t :=
  InMemoryDatabase.get_by_id self car_id.

Definition get_all (self : t) : list Car.t := InMemoryDatabase.get_all self.

Definition update (self : t) (car_id : Z) (car : Car.t) :=
  InMemoryDatabase.update self car_id car.

Definition delete (self : t) (car_id : Z) := InMemoryDatabase.delete self car_id.

(** The first car, in iteration order, with [car.vin == vin] *)
Definition get_by_vin (self : t) (vin : string) : option Car.t :=
  find (fun car => opt_str_eqb (Car.vin car) (Some vin)) (get_all self).
End CarRepository.

(** * src/app/repositories/booking_repository.py *)

Module BookingRepository.
Definition t := InMemoryDatabase.t Booking.t.

Definition create (self : t) (booking : Booking.t) :=
  InMemoryDatabase.create self booking.

Definition get_by_id (self : t) (booking_id : Z) : option Booking.t :=
  InMemoryDatabase.get_by_id self booking_id.

Definition get_all (self : t) : list Booking.t := InMemoryDatabase.get_all self.

Definition get_by_car_id (self : t) (car_id : Z) : list Booking.t :=
  filter (fun booking => Booking.car_id booking =? car_id) (get_all self).

(** The test applied to one booking inside the loop of
    [get_by_datetime_range], by the [if]/[elif] chain on the two bounds. *)
Definition in_datetime_range (start_datetime end_datetime : option datetime)
    (booking : Booking.t) : bool :=
  match start_datetime, end_datetime with
  | Some s, Some e =>
      (Booking.start_datetime booking <? e) && (Booking.end_datetime booking >? s)
  | Some s, None => Booking.start_datetime booking >=? s
  | None, Some e => Booking.end_datetime booking <=? e
  | None, None => false
  end.

Definition get_by_datetime_range (self : t)
    (start_datetime end_datetime : option datetime) : list Booking.t :=
  let bookings := get_all self in
  match start_datetime, end_datetime with
  | None, None => bookings
  | _, _ => collect (in_datetime_range start_datetime end_datetime) bookings
  end.

(** The loop of [has_conflicting_booking] over [car_bookings]: [continue]
    on the excluded booking, [return True] on the first overlap. *)
Fixpoint scan_conflicts (car_bookings : list Booking.t)
    (start_datetime end_datetime : datetime)
    (exclude_booking_id : option Z) : bool :=
  match car_bookings with
  | [] => false
  | booking :: rest =>
      if truthy_int exclude_booking_id
         && opt_int_eqb (Booking.id booking) exclude_booking_id
      then scan_conflicts rest start_datetime end_datetime exclude_booking_id
      else if negb ((end_datetime <=? Booking.start_datetime booking)
                    || (start_datetime >=? Booking.end_datetime booking))
      then true
      else scan_conflicts rest start_datetime end_datetime exclude_booking_id
  end.

Definition has_conflicting_booking (self : t) (car_id : Z)
    (start_datetime end_datetime : datetime)
    (exclude_booking_id : option Z) : bool :=
  scan_conflicts (get_by_car_id self car_id) start_datetime end_datetime
                 exclude_booking_id.

Definition delete (self : t) (booking_id : Z) :=
  InMemoryDatabase.delete self booking_id.
End BookingRepository.

(** * The process state and the failures of a request

    [main.py] creates the three stores at import time and seeds one
    dealer.  A handler either returns, or raises an [HTTPException] with
    a status code and a message, or lets another exception escape (the
    framework answers 500); a body that does not build the declared
    request schema is refused before the handler runs (422). *)

Record State := mkState {
  car_repo : CarRepository.t;
  booking_repo : BookingRepository.t;
  dealer_repo : DealerRepository.t
}.

Definition initial_dealer : Dealer.t :=
  Dealer.mk None "Oscar Mobility Main"%string (Some "Munich, Germany"%string).

Definition initial_state : State :=
  let dealer_db : DealerRepository.t := InMemoryDatabase.init in
  mkState InMemoryDatabase.init InMemoryDatabase.init
          match DealerRepository.get_all dealer_db with
          | [] => snd (DealerRepository.create dealer_db initial_dealer)
          | _ :: _ => dealer_db
          end.

(** The message of an [HTTPException], with the values its f-string
    prints. *)
Inductive Detail :=
| DealerNotFound (dealer_id : Z)
| CarVinExists (vin : string)
| CarNotFound (car_id : Z)
| CarHasBookings (car_id : Z) (count : nat)
| CarNotAvailable (car_id : Z) (status : CarStatus)
| CarAlreadyBooked (car_id : Z)
| EndNotAfterStart
| BookingNotFound (booking_id : Z).

Inductive PyError :=
| ValidationError
| AttributeError
| StoreError (e : InMemoryDatabase.ValueError).

Inductive Failure :=
| HTTPException (status_code : Z) (detail : Detail)
| RequestValidationError
| Unhandled (e : PyError).

Definition HTTP_400_BAD_REQUEST : Z := 400.
Definition HTTP_404_NOT_FOUND : Z := 404.

Definition result (A : Type) : Type := (Failure + A)%type.

(** [[Response.model_validate(x) for x in items]]: the first item that
    fails validation raises. *)
Fixpoint validate_each {A B} (f : A -> option B) (items : list A) : option (list B) :=
  match items with
  | [] => Some []
  | x :: rest =>
      match f x, validate_each f rest with
      | Some y, Some ys => Some (y :: ys)
      | _, _ => None
      end
  end.

Definition respond {A B} (f : A -> option B) (x : A) : result B :=
  match f x with
  | Some y => inr y
  | None => inl (Unhandled ValidationError)
  end.

(** * src/app/api/cars.py and src/app/api/bookings.py

    Every handler maps the state before the request to its result and
    the state after it.  [today_year] is the year the schema modules read
    from [date.today()] when they were imported. *)

Section Api.
Variable today_year : Z.

Definition create_car (st : State) (car_data : CarCreate.t)
  : result CarResponse.t * State :=
  if negb (CarCreate.validate today_year car_data)
  then (inl RequestValidationError, st)
  else
    match DealerRepository.get_by_id (dealer_repo st) (CarCreate.dealer_id car_data) with
    | None =>
        (inl (HTTPException HTTP_404_NOT_FOUND
                (DealerNotFound (CarCreate.dealer_id car_data))), st)
    | Some _ =>
        match CarRepository.get_by_vin (car_repo st) (CarCreate.vin car_data) with
        | Some _ =>
            (inl (HTTPException HTTP_400_BAD_REQUEST
                    (CarVinExists (CarCreate.vin car_data))), st)
        | None =>
            let car := CarCreate.to_car car_data in
            if negb (Car.validate today_year car)
            then (inl (Unhandled ValidationError), st)
            else
              match CarRepository.create (car_repo st) car with
              | (inl e, _) => (inl (Unhandled (StoreError e)), st)
              | (inr created_car, cars) =>
                  (respond CarResponse.model_validate created_car,
                   mkState cars (booking_repo st) (dealer_repo st))
              end
        end
    end.

Definition get_cars (st : State) : result (list CarResponse.t) * State :=
  (respond (validate_each CarResponse.model_validate)
           (CarRepository.get_all (car_repo st)), st).

Definition get_car (st : State) (car_id : Z) : result CarResponse.t * State :=
  match CarRepository.get_by_id (car_repo st) car_id with
  | None => (inl (HTTPException HTTP_404_NOT_FOUND (CarNotFound car_id)), st)
  | Some car => (respond CarResponse.model_validate car, st)
  end.

(** The two guards of [update_car]: the payload names a dealer other than
    the car's, and the payload names a VIN other than the car's. *)
Definition dealer_changes (existing_car : Car.t) (car_data : CarUpdate.t) : bool :=
  truthy_int (attr (CarUpdate.dealer_id car_data))
  && negb (opt_int_eqb (attr (CarUpdate.dealer_id car_data))
                       (Car.dealer_id existing_car)).

Definition vin_changes (existing_car : Car.t) (car_data : CarUpdate.t) : bool :=
  truthy_str (attr (CarUpdate.vin car_data))
  && negb (opt_str_eqb (attr (CarUpdate.vin car_data)) (Car.vin existing_car)).

(** The dealer check of [update_car]: the message to raise, if any. *)
Definition check_dealer (st : State) (existing_car : Car.t) (car_data : CarUpdate.t)
  : option Detail :=
  if dealer_changes existing_car car_data
  then match attr (CarUpdate.dealer_id car_data) with
       | Some d =>
           match DealerRepository.get_by_id (dealer_repo st) d with
           | None => Some (DealerNotFound d)
           | Some _ => None
           end
       | None => None
       end
  else None.

(** The VIN check of [update_car]: the message to raise, if any. *)
Definition check_vin (st : State) (existing_car : Car.t) (car_data : CarUpdate.t)
  : option Detail :=
  if vin_changes existing_car car_data
  then match attr (CarUpdate.vin car_data) with
       | Some v =>
           match CarRepository.get_by_vin (car_repo st) v with
           | Some _ => Some (CarVinExists v)
           | None => None
           end
       | None => None
       end
  else None.

Definition update_car (st : State) (car_id : Z) (car_data : CarUpdate.t)
  : result CarResponse.t * State :=
  if negb (CarUpdate.validate today_year car_data)
  then (inl RequestValidationError, st)
  else
    match CarRepository.get_by_id (car_repo st) car_id with
    | None => (inl (HTTPException HTTP_404_NOT_FOUND (CarNotFound car_id)), st)
    | Some existing_car =>
        match check_dealer st existing_car car_data with
        | Some detail => (inl (HTTPException HTTP_404_NOT_FOUND detail), st)
        | None =>
            match check_vin st existing_car car_data with
            | Some detail => (inl (HTTPException HTTP_400_BAD_REQUEST detail), st)
            | None =>
                let updated_car := model_copy existing_car car_data in
                let '(updated_car, cars) :=
                  CarRepository.update (car_repo st) car_id updated_car in
                (match updated_car with
                 | Some car => respond CarResponse.model_validate car
                 | None => inl (Unhandled ValidationError)
                 end,
                 mkState cars (booking_repo st) (dealer_repo st))
            end
        end
    end.

Definition delete_car (st : State) (car_id : Z) : result unit * State :=
  match CarRepository.get_by_id (car_repo st) car_id with
  | None => (inl (HTTPException HTTP_404_NOT_FOUND (CarNotFound car_id)), st)
  | Some _ =>
      match BookingRepository.get_by_car_id (booking_repo st) car_id with
      | (_ :: _) as bookings =>
          (inl (HTTPException HTTP_400_BAD_REQUEST
                  (CarHasBookings car_id (length bookings))), st)
      | [] =>
          (inr tt,
           mkState (snd (CarRepository.delete (car_repo st) car_id))
                   (booking_repo st) (dealer_repo st))
      end
  end.

Definition create_booking (st : State) (booking_data : BookingCreate.t)
  : result BookingResponse.t * State :=
  if negb (BookingCreate.validate booking_data)
  then (inl RequestValidationError, st)
  else
    let car_id := BookingCreate.car_id booking_data in
    match CarRepository.get_by_id (car_repo st) car_id with
    | None => (inl (HTTPException HTTP_404_NOT_FOUND (CarNotFound car_id)), st)
    | Some car =>
        match Car.status car with
        | None => (inl (Unhandled AttributeError), st)
        | Some MAINTENANCE =>
            (inl (HTTPException HTTP_400_BAD_REQUEST
                    (CarNotAvailable car_id MAINTENANCE)), st)
        | Some AVAILABLE =>
            if BookingRepository.has_conflicting_booking (booking_repo st) car_id
                 (BookingCreate.start_datetime booking_data)
                 (BookingCreate.end_datetime booking_data) None
            then (inl (HTTPException HTTP_400_BAD_REQUEST (CarAlreadyBooked car_id)), st)
            else
              let booking := BookingCreate.to_booking booking_data in
              if negb (Booking.validate booking)
              then (inl (Unhandled ValidationError), st)
              else
                match BookingRepository.create (booking_repo st) booking with
                | (inl e, _) => (inl (Unhandled (StoreError e)), st)
                | (inr created_booking, bookings) =>
                    (respond BookingResponse.model_validate created_booking,
                     mkState (car_repo st) bookings (dealer_repo st))
                end
        end
    end.

(** The bookings [get_bookings] selects, before they are turned into
    responses.  [datetime_ids] is the set of the [id]s of the bookings
    in the date range. *)
Definition selected_bookings (st : State) (car_id : option Z)
    (start_datetime end_datetime : option datetime) : list Booking.t :=
  let bookings :=
    match truthy_int car_id, car_id with
    | true, Some k => BookingRepository.get_by_car_id (booking_repo st) k
    | _, _ => BookingRepository.get_all (booking_repo st)
    end in
  if is_some start_datetime || is_some end_datetime
  then
    let datetime_filtered :=
      BookingRepository.get_by_datetime_range (booking_repo st)
        start_datetime end_datetime in
    if truthy_int car_id
    then
      let datetime_ids := map Booking.id datetime_filtered in
      filter (fun b => existsb (opt_int_eqb (Booking.id b)) datetime_ids) bookings
    else datetime_filtered
  else bookings.

Definition get_bookings (st : State) (car_id : option Z)
    (start_datetime end_datetime : option datetime)
  : result (list BookingResponse.t) * State :=
  (respond (validate_each BookingResponse.model_validate)
           (selected_bookings st car_id start_datetime end_datetime), st).

(** The test of the loop of [get_available_cars] on one car.  [car.id] is
    handed to [has_conflicting_booking] as it is; no booking has a
    [car_id] equal to [None], so a car without an identity has no
    conflict. *)
Definition is_available (st : State) (start_datetime end_datetime : datetime)
    (car : Car.t) : bool :=
  match Car.status car with
  | Some AVAILABLE =>
      negb match Car.id car with
           | Some k =>
               BookingRepository.has_conflicting_booking (booking_repo st) k
                 start_datetime end_datetime None
           | None => false
           end
  | _ => false
  end.

Definition get_available_cars (st : State) (start_datetime end_datetime : datetime)
  : result (list CarResponse.t) * State :=
  if end_datetime <=? start_datetime
  then (inl (HTTPException HTTP_400_BAD_REQUEST EndNotAfterStart), st)
  else
    let cars := CarRepository.get_all (car_repo st) in
    let available_cars := collect (is_available st start_datetime end_datetime) cars in
    (respond (validate_each CarResponse.model_validate) available_cars, st).

Definition get_booking (st : State) (booking_id : Z)
  : result BookingResponse.t * State :=
  match BookingRepository.get_by_id (booking_repo st) booking_id with
  | None => (inl (HTTPException HTTP_404_NOT_FOUND (BookingNotFound booking_id)), st)
  | Some booking => (respond BookingResponse.model_validate booking, st)
  end.

Definition delete_booking (st : State) (booking_id : Z) : result unit * State :=
  match BookingRepository.get_by_id (booking_repo st) booking_id with
  | None => (inl (HTTPException HTTP_404_NOT_FOUND (BookingNotFound booking_id)), st)
  | Some _ =>
      (inr tt,
       mkState (car_repo st)
               (snd (BookingRepository.delete (booking_repo st) booking_id))
               (dealer_repo st))
  end.

(** ** Requests and the states they reach *)

Inductive Request :=
| POST_cars (car_data : CarCreate.t)
| GET_cars
| GET_car (car_id : Z)
| PUT_car (car_id : Z) (car_data : CarUpdate.t)
| DELETE_car (car_id : Z)
| POST_bookings (booking_data : BookingCreate.t)
| GET_bookings (car_id : option Z) (start_datetime end_datetime : option datetime)
| GET_available_cars (start_datetime end_datetime : datetime)
| GET_booking (booking_id : Z)
| DELETE_booking (booking_id : Z).

(** The state after a request *)
Definition handle (st : State) (r : Request) : State :=
  match r with
  | POST_cars d => snd (create_car st d)
  | GET_cars => snd (get_cars st)
  | GET_car k => snd (get_car st k)
  | PUT_car k d => snd (update_car st k d)
  | DELETE_car k => snd (delete_car st k)
  | POST_bookings d => snd (create_booking st d)
  | GET_bookings c s e => snd (get_bookings st c s e)
  | GET_available_cars s e => snd (get_available_cars st s e)
  | GET_booking k => snd (get_booking st k)
  | DELETE_booking k => snd (delete_booking st k)
  end.

Definition serve (st : State) (rs : list Request) : State := fold_left handle rs st.

Inductive reachable : State -> Prop :=
| reachable_init : reachable initial_state
| reachable_step st r : reachable st -> reachable (handle st r).

End Api.

(** * Vocabulary of the statements and example states *)

(** The VINs the cars of a list hold, in order; a car whose [vin] is
    [None] holds none. *)
Definition held_vins (cars : list Car.t) : list string :=
  flat_map (fun car => match Car.vin car with Some v => [v] | None => [] end) cars.

(** The bookings of the tests: A, B and C on car 1. *)
Definition booking_A : Booking.t :=
  Booking.mk None 1 "John Doe" "john.doe@example.com"
             (mk_datetime 2024 1 15 10 0) (mk_datetime 2024 1 20 14 0).

Definition booking_B : Booking.t :=
  Booking.mk None 1 "Jane Smith" "jane.smith@example.com"
             (mk_datetime 2024 2 1 10 0) (mk_datetime 2024 2 5 14 0).

Definition booking_C : Booking.t :=
  Booking.mk None 1 "Bob Wilson" "bob.wilson@example.com"
             (mk_datetime 2024 1 18 10 0) (mk_datetime 2024 1 22 14 0).

Definition create_all (bookings : list Booking.t) : BookingRepository.t :=
  fold_left (fun db b => snd (BookingRepository.create db b)) bookings
            InMemoryDatabase.init.

Definition ledger_ABC : BookingRepository.t :=
  create_all [booking_A; booking_B; booking_C].

(** A ledger whose only booking was created with the identity [0]. *)
Definition ledger_zero : BookingRepository.t :=
  create_all [Booking.with_id 0 booking_A].

Definition ledger_A : BookingRepository.t := create_all [booking_A].

(** The fields a [CarUpdate] payload can carry, how the payload carries
    one, and the attribute of a car under that name. *)
Inductive CarField :=
| F_brand | F_model | F_year | F_color | F_daily_price | F_vin | F_status
| F_dealer_id.

Inductive presence := Absent | SuppliedNull | SuppliedValue.

Definition presence_of {A} (f : supplied A) : presence :=
  match f with Unset => Absent | Null => SuppliedNull | Value _ => SuppliedValue end.

Definition payload_field (f : CarField) (d : CarUpdate.t) : presence :=
  match f with
  | F_brand => presence_of (CarUpdate.brand d)
  | F_model => presence_of (CarUpdate.model d)
  | F_year => presence_of (CarUpdate.year d)
  | F_color => presence_of (CarUpdate.color d)
  | F_daily_price => presence_of (CarUpdate.daily_price d)
  | F_vin => presence_of (CarUpdate.vin d)
  | F_status => presence_of (CarUpdate.status d)
  | F_dealer_id => presence_of (CarUpdate.dealer_id d)
  end.

Inductive attr_value :=
| StrValue (o : option string)
| IntValue (o : option Z)
| FloatValue (o : option float)
| StatusValue (o : option CarStatus).

Definition car_field (f : CarField) (c : Car.t) : attr_value :=
  match f with
  | F_brand => StrValue (Car.brand c)
  | F_model => StrValue (Car.model c)
  | F_year => IntValue (Car.year c)
  | F_color => StrValue (Car.color c)
  | F_daily_price => FloatValue (Car.daily_price c)
  | F_vin => StrValue (Car.vin c)
  | F_status => StatusValue (Car.status c)
  | F_dealer_id => IntValue (Car.dealer_id c)
  end.

Definition holds_none (v : attr_value) : bool :=
  match v with
  | StrValue None | IntValue None | FloatValue None | StatusValue None => true
  | _ => false
  end.

(** The car and the bookings of the tests, as request bodies, and the
    year the examples run in. *)
Definition example_year : Z := 2026.

Definition camry : CarCreate.t :=
  CarCreate.mk "Toyota" "Camry" 2023 "Blue" (35000 # 1)%Q "1HGBH41JXMN109186"
               AVAILABLE 1.

Definition accord : CarCreate.t :=
  CarCreate.mk "Honda" "Accord" 2024 "Red" (32000 # 1)%Q "2HGBH41JXMN109187"
               AVAILABLE 1.

Definition booking_request_A : BookingCreate.t :=
  BookingCreate.mk 1 "John Doe" "john.doe@example.com"
                   (mk_datetime 2024 1 15 10 0) (mk_datetime 2024 1 20 14 0).

(** The bodies [{"status": null}] and [{"color": null}] *)
Definition status_null : CarUpdate.t :=
  CarUpdate.mk Unset Unset Unset Unset Unset Unset Null Unset.

Definition color_null : CarUpdate.t :=
  CarUpdate.mk Unset Unset Unset Null Unset Unset Unset Unset.

(** One car in the catalog *)
Definition state_camry : State := serve example_year initial_state [POST_cars camry].

(** One car, then [PUT /cars/1] with [{"status": null}] *)
Definition state_status_null : State :=
  serve example_year initial_state [POST_cars camry; PUT_car 1 status_null].

(** One car, then [PUT /cars/1] with [{"color": null}] *)
Definition state_color_null : State :=
  serve example_year initial_state [POST_cars camry; PUT_car 1 color_null].

(** One car with booking A *)
Definition state_booked : State :=
  serve example_year initial_state [POST_cars camry; POST_bookings booking_request_A].

(** The invariant of the states the service reaches. *)
Definition Inv (st : State) : Prop :=
  InMemoryDatabase.wf (car_repo st) /\
  InMemoryDatabase.wf (booking_repo st) /\
  NoDup (held_vins (CarRepository.get_all (car_repo st))).

(** The car [create_car] stores: the payload's fields under the next
    identity of the car store. *)
Definition created_car (st : State) (d : CarCreate.t) : Car.t :=
  Car.with_id (InMemoryDatabase._next_id (car_repo st)) (CarCreate.to_car d).

(** The car [update_car] stores over [existing_car]. *)
Definition updated_car (car_id : Z) (existing_car : Car.t) (d : CarUpdate.t) : Car.t :=
  Car.with_id car_id (model_copy existing_car d).

(** Requests for car 999, which no state of the examples has: one with
    valid dates, one that ends before it starts. *)
Definition booking_request_999 : BookingCreate.t :=
  BookingCreate.mk 999 "John Doe" "john.doe@example.com"
                   (mk_datetime 2024 1 15 10 0) (mk_datetime 2024 1 20 14 0).

Definition booking_request_999_backwards : BookingCreate.t :=
  BookingCreate.mk 999 "John Doe" "john.doe@example.com"
                   (mk_datetime 2024 1 20 10 0) (mk_datetime 2024 1 15 14 0).

(** The body [{"status": "maintenance"}], and the Camry in maintenance
    with booking A *)
Definition status_maintenance : CarUpdate.t :=
  CarUpdate.mk Unset Unset Unset Unset Unset Unset (Value MAINTENANCE) Unset.

Definition state_maintenance : State :=
  serve example_year initial_state
        [POST_cars camry; POST_bookings booking_request_A; PUT_car 1 status_maintenance].

(** The identities of a ledger come from a counter that started at 1. *)
Definition ids_from_one (self : BookingRepository.t) : Prop :=
  1 <= InMemoryDatabase._next_id self /\
  forall k, In k (keys (InMemoryDatabase._storage self)) -> 1 <= k.

(** ** What a request can do to the state

    One request leaves the state as it was or makes one of five writes:
    a car stored under the next identity, a car replaced by its updated
    copy, a car without bookings removed, a booking stored under the next
    identity, a booking removed. *)
Inductive transition (st : State) : State -> Prop :=
| stays : transition st st
| car_created (d : CarCreate.t) :
    CarRepository.get_by_vin (car_repo st) (CarCreate.vin d) = None ->
    transition st
      (mkState (InMemoryDatabase.mk
                  (dict_set (InMemoryDatabase._next_id (car_repo st)) (created_car st d)
                            (InMemoryDatabase._storage (car_repo st)))
                  (InMemoryDatabase._next_id (car_repo st) + 1))
               (booking_repo st) (dealer_repo st))
| car_updated (k : Z) (d : CarUpdate.t) (c : Car.t) :
    CarRepository.get_by_id (car_repo st) k = Some c ->
    transition st
      (mkState (InMemoryDatabase.mk
                  (dict_set k (updated_car k c d) (InMemoryDatabase._storage (car_repo st)))
                  (InMemoryDatabase._next_id (car_repo st)))
               (booking_repo st) (dealer_repo st))
| car_deleted (k : Z) (c : Car.t) :
    CarRepository.get_by_id (car_repo st) k = Some c ->
    BookingRepository.get_by_car_id (booking_repo st) k = [] ->
    transition st
      (mkState (InMemoryDatabase.mk
                  (dict_del k (InMemoryDatabase._storage (car_repo st)))
                  (InMemoryDatabase._next_id (car_repo st)))
               (booking_repo st) (dealer_repo st))
| booking_created (d : BookingCreate.t) (car : Car.t) :
    BookingCreate.validate d = true ->
    CarRepository.get_by_id (car_repo st) (BookingCreate.car_id d) = Some car ->
    Car.status car = Some AVAILABLE ->
    BookingRepository.has_conflicting_booking (booking_repo st) (BookingCreate.car_id d)
      (BookingCreate.start_datetime d) (BookingCreate.end_datetime d) None = false ->
    transition st
      (mkState (car_repo st)
               (InMemoryDatabase.mk
                  (dict_set (InMemoryDatabase._next_id (booking_repo st))
                            (Booking.with_id (InMemoryDatabase._next_id (booking_repo st))
                                             (BookingCreate.to_booking d))
                            (InMemoryDatabase._storage (booking_repo st)))
                  (InMemoryDatabase._next_id (booking_repo st) + 1))
               (dealer_repo st))
| booking_deleted (k : Z) (b : Booking.t) :
    BookingRepository.get_by_id (booking_repo st) k = Some b ->
    transition st
      (mkState (car_repo st)
               (InMemoryDatabase.mk
                  (dict_del k (InMemoryDatabase._storage (booking_repo st)))
                  (InMemoryDatabase._next_id (booking_repo st)))
               (dealer_repo st)).

(** The keys of a store lie between 1 and its counter. *)
Definition ids_in_range {T} (self : InMemoryDatabase.t T) : Prop :=
  1 <= InMemoryDatabase._next_id self /\
  forall k, In k (keys (InMemoryDatabase._storage self)) ->
            1 <= k < InMemoryDatabase._next_id self.

(** Every stored booking passes the [Booking] model, names a positive
    car identity and that car is in the catalog. *)
Definition bookings_valid (st : State) : Prop :=
  forall k b, BookingRepository.get_by_id (booking_repo st) k = Some b ->
              Booking.validate b = true /\ 0 < Booking.car_id b /\
              CarRepository.get_by_id (car_repo st) (Booking.car_id b) <> None.

(** Two bookings of one car, stored under different identities, do not
    overlap: one ends before or when the other starts. *)
Definition bookings_disjoint (st : State) : Prop :=
  forall k1 k2 b1 b2,
    BookingRepository.get_by_id (booking_repo st) k1 = Some b1 ->
    BookingRepository.get_by_id (booking_repo st) k2 = Some b2 ->
    k1 <> k2 -> Booking.car_id b1 = Booking.car_id b2 ->
    Booking.end_datetime b1 <= Booking.start_datetime b2 \/
    Booking.end_datetime b2 <= Booking.start_datetime b1.

Definition Sound (st : State) : Prop :=
  ids_in_range (car_repo st) /\ ids_in_range (booking_repo st) /\
  dealer_repo st = dealer_repo initial_state /\
  bookings_valid st /\ bookings_disjoint st.

(** The failure a request ends in, if any. *)
Definition failed {A} (r : result A) : option Failure :=
  match r with inl f => Some f | inr _ => None end.

Definition failure_of (today_year : Z) (st : State) (r : Request) : option Failure :=
  match r with
  | POST_cars d => failed (fst (create_car today_year st d))
  | GET_cars => failed (fst (get_cars st))
  | GET_car k => failed (fst (get_car st k))
  | PUT_car k d => failed (fst (update_car today_year st k d))
  | DELETE_car k => failed (fst (delete_car st k))
  | POST_bookings d => failed (fst (create_booking st d))
  | GET_bookings c s e => failed (fst (get_bookings st c s e))
  | GET_available_cars s e => failed (fst (get_available_cars st s e))
  | GET_booking k => failed (fst (get_booking st k))
  | DELETE_booking k => failed (fst (delete_booking st k))
  end.

(** A refusal that the handler or the request schema states itself, as
    opposed to an exception that escapes the handler. *)
Definition refusal (f : Failure) : bool :=
  match f with
  | HTTPException _ _ | RequestValidationError => true
  | Unhandled _ => false
  end.

(** The requests that only read *)
Definition is_read (r : Request) : bool :=
  match r with
  | GET_cars | GET_car _ | GET_bookings _ _ _ | GET_available_cars _ _
  | GET_booking _ => true
  | _ => false
  end.

(** More example requests and states: booking B (Feb 1 to Feb 5) for the
    Camry, the catalog with the Camry and the Accord, and the Camry with
    bookings A and B. *)
Definition booking_request_B : BookingCreate.t :=
  BookingCreate.mk 1 "Jane Smith" "jane.smith@example.com"
                   (mk_datetime 2024 2 1 10 0) (mk_datetime 2024 2 5 14 0).

Definition state_two_cars : State :=
  serve example_year initial_state [POST_cars camry; POST_cars accord].

Definition state_two_bookings : State :=
  serve example_year initial_state
        [POST_cars camry; POST_bookings booking_request_A; POST_bookings booking_request_B].

(** The body [{"dealer_id": 999}] *)
Definition dealer_999 : CarUpdate.t :=
  CarUpdate.mk Unset Unset Unset Unset Unset Unset Unset (Value 999).

(** The body [{"color": "Red", "daily_price": 36000.0}] of the tests *)
Definition red_36000 : CarUpdate.t :=
  CarUpdate.mk Unset Unset Unset (Value "Red"%string) (Value (36000 # 1)%Q)
               Unset Unset Unset.

(** A ledger whose only booking was created with the identity [1]: its
    counter still holds [1]. *)
Definition ledger_preset_one : BookingRepository.t :=
  create_all [Booking.with_id 1 booking_A].

(** The part of a string before its first [@] *)
Fixpoint before_at (s : string) : string :=
  match s with
  | EmptyString => EmptyString
  | String c s' => if Ascii.eqb c at_sign then EmptyString else String c (before_at s')
  end.

(** * Facts about dictionaries and loops *)

Section DictFacts.
Context {V : Type}.
Implicit Types (d : dict V) (k : Z) (v : V).

Lemma dict_mem_keys k d : dict_mem k d = true <-> In k (keys d).
Proof.
  unfold dict_mem. induction d as [|[k' v] d IH]; simpl.
  - split; [discriminate | tauto].
  - destruct (Z.eqb_spec k' k) as [->|Hne].
    + split; auto.
    + rewrite IH. split; [auto | intros [H|H]; [contradiction | exact H]].
Qed.

Lemma dict_get_In k v d : dict_get k d = Some v -> In (k, v) d.
Proof.
  induction d as [|[k' v'] d IH]; simpl; [discriminate|].
  destruct (Z.eqb_spec k' k) as [->|Hne].
  - intros [= ->]. now left.
  - intros H. right. auto.
Qed.

Lemma In_keys k v d : In (k, v) d -> In k (keys d).
Proof. intros H. change k with (fst (k, v)). now apply in_map. Qed.

Lemma In_dict_get k v d : NoDup (keys d) -> In (k, v) d -> dict_get k d = Some v.
Proof.
  induction d as [|[k' v'] d IH]; simpl; [tauto|].
  intros Hnd [Heq|Hin].
  - injection Heq as -> ->. now rewrite Z.eqb_refl.
  - inversion Hnd as [|? ? Hnotin Hnd']; subst.
    destruct (Z.eqb_spec k' k) as [->|Hne].
    + exfalso. apply Hnotin. eapply In_keys; eauto.
    + auto.
Qed.

(** Shape of the dict operations at a key that is present. *)
Lemma dict_get_Some_split k v d :
  dict_get k d = Some v ->
  exists d1 d2,
    d = d1 ++ (k, v) :: d2 /\ ~ In k (keys d1) /\
    (forall v', dict_set k v' d = d1 ++ (k, v') :: d2) /\
    dict_del k d = d1 ++ d2.
Proof.
  induction d as [|[k' v0] d IH]; simpl; [discriminate|].
  destruct (Z.eqb_spec k' k) as [->|Hne].
  - intros [= ->]. exists [], d. simpl. repeat split; auto.
  - intros H. destruct (IH H) as (d1 & d2 & -> & Hk & Hset & Hdel).
    exists ((k', v0) :: d1), d2. simpl. repeat split.
    + intros [Heq|Hin]; [contradiction | auto].
    + intros v'. now rewrite Hset.
    + now rewrite Hdel.
Qed.

(** Shape of the dict operations at a key that is absent. *)
Lemma dict_get_None_shape k d :
  dict_get k d = None ->
  ~ In k (keys d) /\ (forall v, dict_set k v d = d ++ [(k, v)]) /\
  dict_del k d = d.
Proof.
  induction d as [|[k' v0] d IH]; simpl; [auto|].
  destruct (Z.eqb_spec k' k) as [->|Hne]; [discriminate|].
  intros H. destruct (IH H) as (Hk & Hset & Hdel). repeat split.
  - intros [Heq|Hin]; [contradiction | auto].
  - intros v. now rewrite Hset.
  - now rewrite Hdel.
Qed.

Lemma dict_mem_false k d : dict_mem k d = false -> dict_get k d = None.
Proof. unfold dict_mem. now destruct (dict_get k d). Qed.

Lemma dict_mem_true k d : dict_mem k d = true -> exists v, dict_get k d = Some v.
Proof. unfold dict_mem. destruct (dict_get k d) as [v|]; [eauto | discriminate]. Qed.

Lemma keys_app (d1 d2 : dict V) : keys (d1 ++ d2) = keys d1 ++ keys d2.
Proof. apply map_app. Qed.

Lemma values_app (d1 d2 : dict V) : values (d1 ++ d2) = values d1 ++ values d2.
Proof. apply map_app. Qed.

Lemma NoDup_keys_dict_set k v d : NoDup (keys d) -> NoDup (keys (dict_set k v d)).
Proof.
  intros Hnd. destruct (dict_get k d) as [v0|] eqn:Hget.
  - destruct (dict_get_Some_split _ _ _ Hget) as (d1 & d2 & -> & _ & Hset & _).
    rewrite Hset. now rewrite keys_app in *.
  - destruct (dict_get_None_shape _ _ Hget) as (Hk & Hset & _).
    rewrite Hset, keys_app. simpl.
    apply NoDup_app; [exact Hnd | repeat constructor; auto | ].
    intros a Ha [<-|[]]. auto.
Qed.

Lemma NoDup_keys_dict_del k d : NoDup (keys d) -> NoDup (keys (dict_del k d)).
Proof.
  intros Hnd. destruct (dict_get k d) as [v0|] eqn:Hget.
  - destruct (dict_get_Some_split _ _ _ Hget) as (d1 & d2 & -> & _ & _ & Hdel).
    rewrite Hdel. rewrite keys_app in *. simpl in Hnd.
    now apply NoDup_remove_1 in Hnd.
  - destruct (dict_get_None_shape _ _ Hget) as (_ & _ & ->). exact Hnd.
Qed.

Lemma In_dict_set k v d k' v' :
  In (k', v') (dict_set k v d) -> (k', v') = (k, v) \/ In (k', v') d.
Proof.
  destruct (dict_get k d) as [v0|] eqn:Hget.
  - destruct (dict_get_Some_split _ _ _ Hget) as (d1 & d2 & -> & _ & Hset & _).
    rewrite Hset, !in_app_iff. simpl. intuition.
  - destruct (dict_get_None_shape _ _ Hget) as (_ & Hset & _).
    rewrite Hset, in_app_iff. simpl. intuition.
Qed.

Lemma In_dict_del k d x : In x (dict_del k d) -> In x d.
Proof.
  destruct (dict_get k d) as [v0|] eqn:Hget.
  - destruct (dict_get_Some_split _ _ _ Hget) as (d1 & d2 & -> & _ & _ & Hdel).
    rewrite Hdel, !in_app_iff. simpl. intuition.
  - destruct (dict_get_None_shape _ _ Hget) as (_ & _ & ->). auto.
Qed.

Lemma keys_dict_set_incl k v d x :
  In x (keys (dict_set k v d)) -> x = k \/ In x (keys d).
Proof.
  unfold keys. rewrite in_map_iff. intros ([k' v'] & <- & Hin).
  apply In_dict_set in Hin. destruct Hin as [[= -> ->]|Hin]; [now left|].
  right. eapply In_keys; eauto.
Qed.

Lemma dict_get_set_same k v d : dict_get k (dict_set k v d) = Some v.
Proof.
  induction d as [|[k' v'] d IH]; simpl.
  - now rewrite Z.eqb_refl.
  - destruct (Z.eqb_spec k' k) as [->|Hne]; simpl.
    + now rewrite Z.eqb_refl.
    + destruct (Z.eqb_spec k' k); [contradiction | exact IH].
Qed.

Lemma dict_get_set_other k k' v d :
  k' <> k -> dict_get k' (dict_set k v d) = dict_get k' d.
Proof.
  intros Hne. induction d as [|[k0 v0] d IH]; simpl.
  - destruct (Z.eqb_spec k k'); [congruence | reflexivity].
  - destruct (Z.eqb_spec k0 k) as [->|Hne0]; simpl.
    + destruct (Z.eqb_spec k k'); [congruence | reflexivity].
    + now rewrite IH.
Qed.

End DictFacts.

Lemma collect_filter {A} (keep : A -> bool) (items : list A) :
  collect keep items = filter keep items.
Proof.
  unfold collect.
  enough (G : forall out, fold_left (fun out x => if keep x then out ++ [x] else out)
                                    items out = out ++ filter keep items)
    by apply (G []).
  induction items as [|x items IH]; intros out; simpl.
  - now rewrite app_nil_r.
  - rewrite IH. destruct (keep x); [now rewrite <- app_assoc | reflexivity].
Qed.

(** * Facts about comparisons *)

Lemma opt_int_eqb_eq (x y : option Z) : opt_int_eqb x y = true <-> x = y.
Proof.
  destruct x as [a|], y as [b|]; simpl; try (split; congruence).
  rewrite Z.eqb_eq. split; congruence.
Qed.

Lemma opt_str_eqb_eq (x y : option string) : opt_str_eqb x y = true <-> x = y.
Proof.
  destruct x as [a|], y as [b|]; simpl; try (split; congruence).
  rewrite String.eqb_eq. split; congruence.
Qed.

(** Turns the boolean tests of the embedding into (in)equalities on [Z]. *)
Ltac zbool :=
  repeat first
    [ rewrite Z.geb_leb in * | rewrite Z.gtb_ltb in *
    | rewrite andb_true_iff in * | rewrite orb_true_iff in *
    | rewrite negb_true_iff in * | rewrite negb_false_iff in *
    | rewrite andb_false_iff in * | rewrite orb_false_iff in *
    | rewrite Z.leb_le in * | rewrite Z.ltb_lt in *
    | rewrite Z.leb_gt in * | rewrite Z.ltb_ge in *
    | rewrite Z.eqb_eq in * | rewrite Z.eqb_neq in * ].

(** * The booking ledger: conflicts and range filters *)

Lemma get_by_car_id_In (self : BookingRepository.t) (car_id : Z) (b : Booking.t) :
  In b (BookingRepository.get_by_car_id self car_id) <->
  In b (BookingRepository.get_all self) /\ Booking.car_id b = car_id.
Proof.
  unfold BookingRepository.get_by_car_id. rewrite filter_In, Z.eqb_eq. tauto.
Qed.

Lemma scan_conflicts_true (l : list Booking.t) (s e : datetime) (x : option Z) :
  BookingRepository.scan_conflicts l s e x = true <->
  exists b, In b l /\
            (truthy_int x = true -> Booking.id b <> x) /\
            s < Booking.end_datetime b /\ Booking.start_datetime b < e.
Proof.
  induction l as [|b l IH]; simpl.
  - split; [discriminate | intros (b & [] & _)].
  - destruct (truthy_int x && opt_int_eqb (Booking.id b) x) eqn:Hskip.
    + apply andb_true_iff in Hskip. destruct Hskip as [Ht Heq].
      apply opt_int_eqb_eq in Heq.
      rewrite IH. split.
      * intros (b' & Hin & Hrest). exists b'. split; [now right | exact Hrest].
      * intros (b' & [<-|Hin] & Hne & Hrest).
        -- exfalso. now apply Hne.
        -- exists b'. auto.
    + assert (Hkeep : truthy_int x = true -> Booking.id b <> x).
      { intros Ht Heq. apply opt_int_eqb_eq in Heq.
        rewrite Ht, Heq in Hskip. discriminate. }
      destruct (negb ((e <=? Booking.start_datetime b)
                      || (s >=? Booking.end_datetime b))) eqn:Hov.
      * split; [intros _ | reflexivity].
        exists b. split; [now left|]. split; [exact Hkeep|].
        zbool. lia.
      * rewrite IH. split.
        -- intros (b' & Hin & Hrest). exists b'. split; [now right | exact Hrest].
        -- intros (b' & [<-|Hin] & Hne & Hs & He).
           ++ exfalso. zbool. lia.
           ++ exists b'. auto.
Qed.

(** What [has_conflicting_booking] computes on any ledger: it answers true
    exactly when a stored booking of the car overlaps the half-open
    request interval ([s < b.end] and [b.start < e]) and is not skipped;
    a booking is skipped when [exclude_booking_id] is truthy and is its
    identity.  Every booking of the car counts, and bookings that only
    touch the request interval never make a conflict. *)
Theorem has_conflicting_booking_overlap
    (self : BookingRepository.t) (car_id : Z) (s e : datetime)
    (exclude_booking_id : option Z) :
  (BookingRepository.has_conflicting_booking self car_id s e exclude_booking_id = true
   <->
   exists b, In b (BookingRepository.get_all self) /\
             Booking.car_id b = car_id /\
             (truthy_int exclude_booking_id = true ->
              Booking.id b <> exclude_booking_id) /\
             s < Booking.end_datetime b /\ Booking.start_datetime b < e)
  /\
  ((forall b, In b (BookingRepository.get_all self) -> Booking.car_id b = car_id ->
              e = Booking.start_datetime b \/ s = Booking.end_datetime b) ->
   BookingRepository.has_conflicting_booking self car_id s e exclude_booking_id = false).
Proof.
  unfold BookingRepository.has_conflicting_booking.
  assert (Hiff :
    BookingRepository.scan_conflicts (BookingRepository.get_by_car_id self car_id)
      s e exclude_booking_id = true <->
    exists b, In b (BookingRepository.get_all self) /\
              Booking.car_id b = car_id /\
              (truthy_int exclude_booking_id = true ->
               Booking.id b <> exclude_booking_id) /\
              s < Booking.end_datetime b /\ Booking.start_datetime b < e).
  { rewrite scan_conflicts_true. split.
    - intros (b & Hin & Hrest). apply get_by_car_id_In in Hin.
      exists b. tauto.
    - intros (b & Hin & Hcar & Hrest). exists b. split; [|exact Hrest].
      apply get_by_car_id_In. auto. }
  split; [exact Hiff|].
  intros Htouch. apply not_true_is_false. intros Hscan.
  apply Hiff in Hscan. destruct Hscan as (b & Hin & Hcar & _ & Hs & He).
  destruct (Htouch b Hin Hcar); lia.
Qed.

(** A request that starts when booking A ends has no conflict with it. *)
Lemma has_conflicting_booking_overlap_witness :
  BookingRepository.has_conflicting_booking ledger_A 1
    (mk_datetime 2024 1 20 14 0) (mk_datetime 2024 1 25 0 0) None = false.
Proof.
  apply (proj2 (has_conflicting_booking_overlap ledger_A 1
                  (mk_datetime 2024 1 20 14 0) (mk_datetime 2024 1 25 0 0) None)).
  intros b [<-|[]] _. right. reflexivity.
Defined.

(** C1: the excluded booking is not skipped when its identity is [0].
    The ledger's only booking was stored with the identity [0] and
    belongs to car 1; the request for car 1 overlaps it and names [0] as
    the booking to exclude; the answer is true although no booking other
    than the excluded one overlaps. *)
Lemma has_conflicting_booking_exclude_zero :
  BookingRepository.has_conflicting_booking ledger_zero 1
    (mk_datetime 2024 1 16 0 0) (mk_datetime 2024 1 18 0 0) (Some 0) = true
  /\
  ~ (exists b, In b (BookingRepository.get_all ledger_zero) /\
               Booking.car_id b = 1 /\
               Booking.id b <> Some 0 /\
               mk_datetime 2024 1 16 0 0 < Booking.end_datetime b /\
               Booking.start_datetime b < mk_datetime 2024 1 18 0 0).
Proof.
  split; [reflexivity|].
  intros (b & [<-|[]] & _ & Hid & _). now apply Hid.
Qed.

(** C4: [get_by_datetime_range] branches four ways on its two optional
    bounds: no bound returns every booking; both bounds return the
    bookings with [b.start < end] and [b.end > start]; a start alone the
    bookings with [b.start >= start]; an end alone the bookings with
    [b.end <= end]; each time in the order of the store.  On the ledger
    with A = Jan 15-20, B = Feb 1-5 and C = Jan 18-22 the range Jan 16 to
    Jan 21 returns A and C. *)
Theorem get_by_datetime_range_four_way (self : BookingRepository.t) :
  BookingRepository.get_by_datetime_range self None None
  = BookingRepository.get_all self
  /\
  (forall s e,
      BookingRepository.get_by_datetime_range self (Some s) (Some e)
      = filter (fun b => (Booking.start_datetime b <? e) && (s <? Booking.end_datetime b))
               (BookingRepository.get_all self)
      /\
      forall b, In b (BookingRepository.get_by_datetime_range self (Some s) (Some e))
                <-> In b (BookingRepository.get_all self) /\
                    Booking.start_datetime b < e /\ Booking.end_datetime b > s)
  /\
  (forall s,
      BookingRepository.get_by_datetime_range self (Some s) None
      = filter (fun b => s <=? Booking.start_datetime b) (BookingRepository.get_all self)
      /\
      forall b, In b (BookingRepository.get_by_datetime_range self (Some s) None)
                <-> In b (BookingRepository.get_all self) /\
                    Booking.start_datetime b >= s)
  /\
  (forall e,
      BookingRepository.get_by_datetime_range self None (Some e)
      = filter (fun b => Booking.end_datetime b <=? e) (BookingRepository.get_all self)
      /\
      forall b, In b (BookingRepository.get_by_datetime_range self None (Some e))
                <-> In b (BookingRepository.get_all self) /\
                    Booking.end_datetime b <= e)
  /\
  BookingRepository.get_by_datetime_range ledger_ABC
    (Some (mk_datetime 2024 1 16 0 0)) (Some (mk_datetime 2024 1 21 0 0))
  = [Booking.with_id 1 booking_A; Booking.with_id 3 booking_C].
Proof.
  unfold BookingRepository.get_by_datetime_range.
  split; [reflexivity|].
  split; [|split; [|split; [|reflexivity]]].
  - intros s e. rewrite collect_filter.
    assert (Heq : filter (BookingRepository.in_datetime_range (Some s) (Some e))
                         (BookingRepository.get_all self)
                  = filter (fun b => (Booking.start_datetime b <? e)
                                     && (s <? Booking.end_datetime b))
                           (BookingRepository.get_all self)).
    { apply filter_ext. intros b. simpl. now rewrite Z.gtb_ltb. }
    split; [exact Heq|].
    intros b. rewrite Heq, filter_In. zbool. intuition lia.
  - intros s. rewrite collect_filter.
    assert (Heq : filter (BookingRepository.in_datetime_range (Some s) None)
                         (BookingRepository.get_all self)
                  = filter (fun b => s <=? Booking.start_datetime b)
                           (BookingRepository.get_all self)).
    { apply filter_ext. intros b. simpl. now rewrite Z.geb_leb. }
    split; [exact Heq|].
    intros b. rewrite Heq, filter_In. zbool. intuition lia.
  - intros e. rewrite collect_filter. split; [reflexivity|].
    intros b. rewrite filter_In. simpl. zbool. intuition lia.
Qed.

(** * The entity store: identities *)

Lemma In_count_from (n : nat) (a x : Z) :
  In x (count_from a n) -> a <= x < a + Z.of_nat n.
Proof.
  revert a. induction n as [|n IH]; intros a; simpl; [tauto|].
  intros [<-|Hin]; [lia|]. apply IH in Hin. lia.
Qed.

Lemma NoDup_count_from (n : nat) (a : Z) : NoDup (count_from a n).
Proof.
  revert a. induction n as [|n IH]; intros a; simpl; constructor; [|apply IH].
  intros Hin. apply In_count_from in Hin. lia.
Qed.

Section StoreFacts.
Context {T : Type} `{Entity T}.
Import InMemoryDatabase.

Lemma create_next_id (self : t T) (item : T) :
  _next_id self <= _next_id (snd (create self item)).
Proof.
  unfold create.
  destruct (hasattr_id item), (get_id item) as [k|]; simpl; try lia.
  destruct (dict_mem k (_storage self)); simpl; lia.
Qed.

Lemma delete_next_id (self : t T) (k : Z) :
  _next_id (snd (delete self k)) = _next_id self.
Proof. unfold delete. now destruct (dict_mem k (_storage self)). Qed.

Lemma step_next_id (self : t T) (o : op) :
  _next_id self <= _next_id (fst (step self o)).
Proof.
  destruct o as [item|k]; simpl.
  - pose proof (create_next_id self item) as Hle.
    destruct (create self item) as [r self']. exact Hle.
  - pose proof (delete_next_id self k) as Heq.
    destruct (delete self k) as [b self']. simpl in *. lia.
Qed.

Lemma wf_init : wf (init (T:=T)).
Proof. split; [constructor | intros k v []]. Qed.

Lemma wf_dict_set (self : t T) (k n : Z) (item : T) :
  wf self -> (hasattr_id item = true -> get_id item = Some k) ->
  wf (mk (dict_set k item (_storage self)) n).
Proof.
  intros [Hnd Hid] Hitem. split; simpl.
  - now apply NoDup_keys_dict_set.
  - intros k' v Hin Hattr. apply In_dict_set in Hin.
    destruct Hin as [[= -> ->]|Hin]; auto.
Qed.

Lemma wf_create (self : t T) (item : T) : wf self -> wf (snd (create self item)).
Proof.
  intros Hwf. unfold create.
  destruct (hasattr_id item) eqn:Hattr; [destruct (get_id item) as [k|] eqn:Hget|].
  - destruct (dict_mem k (_storage self)); simpl; [exact Hwf|].
    apply wf_dict_set; auto.
  - simpl. apply wf_dict_set; [exact Hwf|]. intros _. apply get_set_id.
  - simpl. apply wf_dict_set; [exact Hwf|]. congruence.
Qed.

Lemma wf_delete (self : t T) (k : Z) : wf self -> wf (snd (delete self k)).
Proof.
  intros [Hnd Hid]. unfold delete.
  destruct (dict_mem k (_storage self)); simpl; [|now split].
  split; simpl.
  - now apply NoDup_keys_dict_del.
  - intros k' v Hin. apply Hid. eapply In_dict_del; eauto.
Qed.

Lemma wf_update (self : t T) (k : Z) (item : T) :
  wf self -> wf (snd (update self k item)).
Proof.
  intros Hwf. unfold update.
  destruct (dict_mem k (_storage self)); simpl; [|exact Hwf].
  apply wf_dict_set; [exact Hwf|].
  destruct (hasattr_id item) eqn:Hattr; [intros _; apply get_set_id | congruence].
Qed.

Lemma wf_step (self : t T) (o : op) : wf self -> wf (fst (step self o)).
Proof.
  intros Hwf. destruct o as [item|k]; simpl.
  - pose proof (wf_create self item Hwf) as Hc.
    destruct (create self item) as [r self']. exact Hc.
  - pose proof (wf_delete self k Hwf) as Hd.
    destruct (delete self k) as [b self']. exact Hd.
Qed.

(** One call of a run whose [create] calls hand over items without
    identity: a [create] returns the item with the counter as its [id] and
    moves the counter by one; a [delete] returns no item and leaves the
    counter. *)
Lemma step_created (self : t T) (o : op) :
  (forall item, o = Create item -> hasattr_id item = true /\ get_id item = None) ->
  created_ids [snd (step self o)] = (if is_create o then [_next_id self] else [])
  /\ _next_id (fst (step self o))
     = _next_id self + (if is_create o then 1 else 0).
Proof.
  intros Hall. destruct o as [item|k]; simpl.
  - destruct (Hall item eq_refl) as [Hattr Hid].
    unfold create. rewrite Hattr, Hid. simpl. rewrite get_set_id. auto.
  - unfold delete. destruct (dict_mem k (_storage self)); simpl; split; auto; lia.
Qed.

Lemma created_ids_cons (e : event) (es : list event) :
  created_ids (e :: es) = created_ids [e] ++ created_ids es.
Proof.
  destruct e as [item| |]; simpl; [|reflexivity|reflexivity].
  now destruct (get_id item).
Qed.

Lemma run_created (ops : list op) (self : t T) :
  (forall item, In (Create item) ops -> hasattr_id item = true /\ get_id item = None) ->
  created_ids (snd (run self ops))
  = count_from (_next_id self) (length (filter is_create ops))
  /\ _next_id (fst (run self ops))
     = _next_id self + Z.of_nat (length (filter is_create ops)).
Proof.
  revert self. induction ops as [|o ops IH]; intros self Hall.
  - simpl. split; [reflexivity | lia].
  - assert (Ho : forall item, o = Create item ->
                              hasattr_id item = true /\ get_id item = None).
    { intros item ->. apply Hall. now left. }
    destruct (step_created self o Ho) as [Hc Hn].
    specialize (IH (fst (step self o)) (fun item Hin => Hall item (or_intror Hin))).
    destruct IH as [IHc IHn]. cbn [run filter].
    destruct (step self o) as [self1 e]. cbn [fst snd] in Hc, Hn, IHc, IHn.
    destruct (run self1 ops) as [self2 es]. cbn [fst snd] in IHc, IHn |- *.
    rewrite created_ids_cons, Hc, IHc, IHn, Hn.
    destruct (is_create o); cbn [length count_from app]; split;
      try reflexivity; try lia.
    now rewrite Z.add_0_r.
Qed.

Lemma wf_run (ops : list op) (self : t T) : wf self -> wf (fst (run self ops)).
Proof.
  revert self. induction ops as [|o ops IH]; intros self Hwf; simpl; [exact Hwf|].
  pose proof (wf_step self o Hwf) as Hs.
  destruct (step self o) as [self1 e]. specialize (IH self1 Hs).
  destruct (run self1 ops) as [self2 es]. exact IH.
Qed.

End StoreFacts.

(** * The car catalog: VINs *)

Lemma held_vins_app (l1 l2 : list Car.t) :
  held_vins (l1 ++ l2) = held_vins l1 ++ held_vins l2.
Proof. apply flat_map_app. Qed.

Lemma In_held_vins (v : string) (cars : list Car.t) :
  In v (held_vins cars) <-> exists car, In car cars /\ Car.vin car = Some v.
Proof.
  unfold held_vins. rewrite in_flat_map. split.
  - intros (car & Hin & Hv). exists car. split; [exact Hin|].
    destruct (Car.vin car) as [v'|]; [|destruct Hv].
    destruct Hv as [->|[]]. reflexivity.
  - intros (car & Hin & Hv). exists car. split; [exact Hin|].
    rewrite Hv. now left.
Qed.

Lemma get_by_vin_Some (self : CarRepository.t) (v : string) (car : Car.t) :
  CarRepository.get_by_vin self v = Some car ->
  In car (CarRepository.get_all self) /\ Car.vin car = Some v.
Proof.
  unfold CarRepository.get_by_vin. intros Hfind. apply find_some in Hfind.
  destruct Hfind as [Hin Heq]. apply opt_str_eqb_eq in Heq. auto.
Qed.

Lemma get_by_vin_None (self : CarRepository.t) (v : string) :
  CarRepository.get_by_vin self v = None <->
  ~ In v (held_vins (CarRepository.get_all self)).
Proof.
  unfold CarRepository.get_by_vin. rewrite In_held_vins. split.
  - intros Hfind (car & Hin & Hv).
    apply (find_none _ _ Hfind) in Hin. rewrite Hv in Hin. simpl in Hin.
    rewrite String.eqb_refl in Hin. discriminate.
  - intros Hno. destruct (find _ _) as [car|] eqn:Hfind; [|reflexivity].
    exfalso. apply Hno. exists car. now apply get_by_vin_Some.
Qed.

Lemma NoDup_app_middle {A} (l1 l2 x : list A) :
  NoDup (l1 ++ l2) ->
  (x = [] \/ exists v, x = [v] /\ ~ In v (l1 ++ l2)) ->
  NoDup (l1 ++ x ++ l2).
Proof.
  intros Hnd [->|(v & -> & Hv)]; [exact Hnd|]. simpl.
  apply (NoDup_Add (Add_app v l1 l2)). auto.
Qed.

Lemma NoDup_app_drop {A} (l1 l2 x : list A) :
  NoDup (l1 ++ x ++ l2) -> NoDup (l1 ++ l2).
Proof.
  induction x as [|a x IH]; simpl; [auto|].
  intros Hnd. apply IH. eapply NoDup_remove_1; eauto.
Qed.

(** Writing a car under a key keeps the held VINs distinct when the new
    car holds no VIN, the VIN of the car it replaces, or a VIN no car
    holds. *)
Lemma NoDup_held_vins_dict_set (d : dict Car.t) (k : Z) (car : Car.t) :
  NoDup (held_vins (values d)) ->
  (Car.vin car = None
   \/ (exists old, dict_get k d = Some old /\ Car.vin old = Car.vin car)
   \/ (exists v, Car.vin car = Some v /\ ~ In v (held_vins (values d)))) ->
  NoDup (held_vins (values (dict_set k car d))).
Proof.
  intros Hnd Hcase.
  destruct (dict_get k d) as [old|] eqn:Hget.
  - destruct (dict_get_Some_split _ _ _ Hget) as (d1 & d2 & -> & _ & Hset & _).
    rewrite Hset. rewrite !values_app in *. simpl in *.
    rewrite !held_vins_app in *. simpl in *.
    change (held_vins (old :: values d2))
      with ((match Car.vin old with Some v => [v] | None => [] end) ++ held_vins (values d2))
      in *.
    change (held_vins (car :: values d2))
      with ((match Car.vin car with Some v => [v] | None => [] end) ++ held_vins (values d2)).
    destruct Hcase as [Hnone|[(old' & [= <-] & Hsame)|(v & Hv & Hfresh)]].
    + rewrite Hnone. simpl. eapply NoDup_app_drop; eauto.
    + now rewrite <- Hsame.
    + rewrite Hv. apply NoDup_app_middle.
      * eapply NoDup_app_drop; eauto.
      * right. exists v. split; [reflexivity|].
        intros Hin. apply Hfresh. rewrite !in_app_iff in *. tauto.
  - destruct (dict_get_None_shape _ _ Hget) as (_ & Hset & _).
    rewrite Hset, values_app, held_vins_app. simpl. rewrite app_nil_r.
    rewrite <- (app_nil_r (_ ++ _)), <- app_assoc.
    apply NoDup_app_middle; [now rewrite app_nil_r|].
    rewrite app_nil_r.
    destruct Hcase as [Hnone|[(old' & [=] & _)|(v & Hv & Hfresh)]].
    + left. now rewrite Hnone.
    + right. exists v. rewrite Hv. auto.
Qed.

Lemma NoDup_held_vins_dict_del (d : dict Car.t) (k : Z) :
  NoDup (held_vins (values d)) -> NoDup (held_vins (values (dict_del k d))).
Proof.
  intros Hnd. destruct (dict_get k d) as [old|] eqn:Hget.
  - destruct (dict_get_Some_split _ _ _ Hget) as (d1 & d2 & -> & _ & _ & Hdel).
    rewrite Hdel. rewrite !values_app in *. simpl in *.
    rewrite !held_vins_app in *.
    change (held_vins (old :: values d2))
      with ((match Car.vin old with Some v => [v] | None => [] end) ++ held_vins (values d2))
      in *.
    eapply NoDup_app_drop; eauto.
  - destruct (dict_get_None_shape _ _ Hget) as (_ & _ & ->). exact Hnd.
Qed.

Example state_status_null_car :
  CarRepository.get_by_id (car_repo state_status_null) 1
  = Some (Car.mk (Some 1) (Some "Toyota"%string) (Some "Camry"%string) (Some 2023)
                 (Some "Blue"%string) (Some (35000 # 1)%Q)
                 (Some "1HGBH41JXMN109186"%string) None (Some 1)).
Proof. reflexivity. Qed.

(** * The handlers: what a request does to the state *)

Lemma dict_set_same {V} (k : Z) (v : V) (d : dict V) :
  dict_get k d = Some v -> dict_set k v d = d.
Proof.
  induction d as [|[k' v'] d IH]; simpl; [discriminate|].
  destruct (Z.eqb_spec k' k) as [->|Hne].
  - now intros [= ->].
  - intros Hget. now rewrite IH.
Qed.

Lemma length_17_nonempty (s : string) : length_17 s = true -> truthy_str (Some s) = true.
Proof. now destruct s. Qed.

(** Closes an invariant goal on a state the request left as it was. *)
Ltac same_state := simpl; split; [|split]; assumption.

Section ApiFacts.
Variable today_year : Z.

Lemma CarCreate_validate_car (d : CarCreate.t) :
  CarCreate.validate today_year d = true ->
  Car.validate today_year (CarCreate.to_car d) = true.
Proof.
  unfold CarCreate.validate, Car.validate. simpl.
  rewrite !andb_true_iff. tauto.
Qed.

Lemma BookingCreate_validate_booking (d : BookingCreate.t) :
  BookingCreate.validate d = true ->
  Booking.validate (BookingCreate.to_booking d) = true.
Proof.
  unfold BookingCreate.validate, BookingCreate.validate_datetimes, Booking.validate.
  simpl. rewrite !andb_true_iff. tauto.
Qed.

Lemma create_car_ok (st : State) (d : CarCreate.t) (dealer : Dealer.t) :
  CarCreate.validate today_year d = true ->
  DealerRepository.get_by_id (dealer_repo st) (CarCreate.dealer_id d) = Some dealer ->
  CarRepository.get_by_vin (car_repo st) (CarCreate.vin d) = None ->
  create_car today_year st d
  = (respond CarResponse.model_validate (created_car st d),
     mkState (InMemoryDatabase.mk
                (dict_set (InMemoryDatabase._next_id (car_repo st)) (created_car st d)
                          (InMemoryDatabase._storage (car_repo st)))
                (InMemoryDatabase._next_id (car_repo st) + 1))
             (booking_repo st) (dealer_repo st)).
Proof.
  intros Hv Hd Hvin. unfold create_car.
  rewrite Hv, Hd, Hvin, (CarCreate_validate_car _ Hv). reflexivity.
Qed.

Lemma create_car_cases (st : State) (d : CarCreate.t) :
  (exists f, create_car today_year st d = (inl f, st))
  \/
  (CarRepository.get_by_vin (car_repo st) (CarCreate.vin d) = None /\
   snd (create_car today_year st d)
   = mkState (InMemoryDatabase.mk
                (dict_set (InMemoryDatabase._next_id (car_repo st)) (created_car st d)
                          (InMemoryDatabase._storage (car_repo st)))
                (InMemoryDatabase._next_id (car_repo st) + 1))
             (booking_repo st) (dealer_repo st)).
Proof.
  destruct (CarCreate.validate today_year d) eqn:Hv.
  - destruct (DealerRepository.get_by_id (dealer_repo st) (CarCreate.dealer_id d))
      as [dealer|] eqn:Hd.
    + destruct (CarRepository.get_by_vin (car_repo st) (CarCreate.vin d)) as [c|] eqn:Hvin.
      * left. unfold create_car. rewrite Hv, Hd, Hvin. simpl. eauto.
      * right. split; [reflexivity|]. now rewrite (create_car_ok _ _ _ Hv Hd Hvin).
    + left. unfold create_car. rewrite Hv, Hd. simpl. eauto.
  - left. unfold create_car. rewrite Hv. simpl. eauto.
Qed.

Lemma update_car_ok (st : State) (car_id : Z) (d : CarUpdate.t) (existing_car : Car.t) :
  CarUpdate.validate today_year d = true ->
  CarRepository.get_by_id (car_repo st) car_id = Some existing_car ->
  check_dealer st existing_car d = None ->
  check_vin st existing_car d = None ->
  update_car today_year st car_id d
  = (respond CarResponse.model_validate (updated_car car_id existing_car d),
     mkState (InMemoryDatabase.mk
                (dict_set car_id (updated_car car_id existing_car d)
                          (InMemoryDatabase._storage (car_repo st)))
                (InMemoryDatabase._next_id (car_repo st)))
             (booking_repo st) (dealer_repo st)).
Proof.
  intros Hv Hget Hd Hvin. unfold update_car.
  rewrite Hv, Hget, Hd, Hvin. simpl.
  unfold CarRepository.update, InMemoryDatabase.update.
  unfold CarRepository.get_by_id, InMemoryDatabase.get_by_id in Hget.
  unfold dict_mem. rewrite Hget. reflexivity.
Qed.

Lemma update_car_cases (st : State) (car_id : Z) (d : CarUpdate.t) :
  (exists f, update_car today_year st car_id d = (inl f, st))
  \/
  (exists existing_car,
      CarUpdate.validate today_year d = true /\
      CarRepository.get_by_id (car_repo st) car_id = Some existing_car /\
      check_dealer st existing_car d = None /\
      check_vin st existing_car d = None).
Proof.
  destruct (CarUpdate.validate today_year d) eqn:Hv.
  - destruct (CarRepository.get_by_id (car_repo st) car_id) as [c|] eqn:Hget.
    + destruct (check_dealer st c d) as [x|] eqn:Hd.
      * left. unfold update_car. rewrite Hv, Hget, Hd. simpl. eauto.
      * destruct (check_vin st c d) as [x|] eqn:Hvin.
        -- left. unfold update_car. rewrite Hv, Hget, Hd, Hvin. simpl. eauto.
        -- right. exists c. auto.
    + left. unfold update_car. rewrite Hv, Hget. simpl. eauto.
  - left. unfold update_car. rewrite Hv. simpl. eauto.
Qed.

(** When the VIN check passes, the car to store holds no VIN, the VIN of
    the car it replaces, or a VIN that no car holds. *)
Lemma check_vin_None (st : State) (existing_car : Car.t) (d : CarUpdate.t) (car_id : Z) :
  CarUpdate.validate today_year d = true ->
  check_vin st existing_car d = None ->
  Car.vin (updated_car car_id existing_car d) = None
  \/ Car.vin existing_car = Car.vin (updated_car car_id existing_car d)
  \/ exists v, Car.vin (updated_car car_id existing_car d) = Some v /\
               ~ In v (held_vins (CarRepository.get_all (car_repo st))).
Proof.
  intros Hv Hc. simpl.
  destruct (CarUpdate.vin d) as [| |v] eqn:Hvin; simpl; auto.
  assert (Hlen : length_17 v = true).
  { unfold CarUpdate.validate in Hv. rewrite Hvin in Hv. simpl in Hv.
    rewrite !andb_true_iff in Hv. tauto. }
  unfold check_vin, vin_changes in Hc. rewrite Hvin in Hc. cbn [attr] in Hc.
  rewrite (length_17_nonempty _ Hlen), andb_true_l in Hc.
  destruct (opt_str_eqb (Some v) (Car.vin existing_car)) eqn:Heq; simpl in Hc.
  - apply opt_str_eqb_eq in Heq. auto.
  - right. right. exists v. split; [reflexivity|].
    apply get_by_vin_None.
    destruct (CarRepository.get_by_vin (car_repo st) v); [discriminate | reflexivity].
Qed.

Lemma Inv_initial : Inv initial_state.
Proof.
  repeat split; simpl; try constructor; intros k v [].
Qed.

Lemma Inv_create_car (st : State) (d : CarCreate.t) :
  Inv st -> Inv (snd (create_car today_year st d)).
Proof.
  intros (Hc & Hb & Hvins).
  destruct (create_car_cases st d) as [(f & ->)|(Hvin & ->)]; [same_state|].
  split; [|split]; simpl; [|exact Hb|].
  - apply wf_dict_set; [exact Hc | reflexivity].
  - unfold CarRepository.get_all, InMemoryDatabase.get_all. simpl.
    apply NoDup_held_vins_dict_set; [exact Hvins|].
    right. right. exists (CarCreate.vin d). split; [reflexivity|].
    now apply get_by_vin_None.
Qed.

Lemma Inv_update_car (st : State) (car_id : Z) (d : CarUpdate.t) :
  Inv st -> Inv (snd (update_car today_year st car_id d)).
Proof.
  intros (Hc & Hb & Hvins).
  destruct (update_car_cases st car_id d)
    as [(f & ->)|(c & Hv & Hget & Hd & Hvin)]; [same_state|].
  rewrite (update_car_ok _ _ _ _ Hv Hget Hd Hvin).
  split; [|split]; simpl; [|exact Hb|].
  - apply wf_dict_set; [exact Hc | reflexivity].
  - unfold CarRepository.get_all, InMemoryDatabase.get_all. simpl.
    apply NoDup_held_vins_dict_set; [exact Hvins|].
    destruct (check_vin_None st c d car_id Hv Hvin) as [H1|[H2|H3]]; auto.
    right. left. exists c. auto.
Qed.

Lemma Inv_delete_car (st : State) (car_id : Z) :
  Inv st -> Inv (snd (delete_car st car_id)).
Proof.
  intros (Hc & Hb & Hvins). unfold delete_car.
  destruct (CarRepository.get_by_id (car_repo st) car_id); [|same_state].
  destruct (BookingRepository.get_by_car_id (booking_repo st) car_id);
    [|same_state].
  split; [|split]; simpl; [|exact Hb|].
  - now apply wf_delete.
  - unfold CarRepository.delete, InMemoryDatabase.delete.
    destruct (dict_mem car_id _); simpl; [|exact Hvins].
    now apply NoDup_held_vins_dict_del.
Qed.

Lemma Inv_create_booking (st : State) (d : BookingCreate.t) :
  Inv st -> Inv (snd (create_booking st d)).
Proof.
  intros (Hc & Hb & Hvins). unfold create_booking.
  destruct (negb (BookingCreate.validate d)); [same_state|].
  destruct (CarRepository.get_by_id _ _) as [car|]; [|same_state].
  destruct (Car.status car) as [[|]|]; try same_state.
  destruct (BookingRepository.has_conflicting_booking _ _ _ _ _); [same_state|].
  destruct (negb (Booking.validate _)); [same_state|].
  pose proof (wf_create (booking_repo st) (BookingCreate.to_booking d) Hb) as Hw.
  unfold BookingRepository.create.
  destruct (InMemoryDatabase.create _ _) as [[e|b] db]; [same_state|].
  same_state.
Qed.

Lemma Inv_delete_booking (st : State) (booking_id : Z) :
  Inv st -> Inv (snd (delete_booking st booking_id)).
Proof.
  intros (Hc & Hb & Hvins). unfold delete_booking.
  destruct (BookingRepository.get_by_id _ _); [|same_state].
  split; [|split]; simpl; auto. now apply wf_delete.
Qed.

Lemma Inv_handle (st : State) (r : Request) : Inv st -> Inv (handle today_year st r).
Proof.
  intros HI. destruct r; simpl;
    auto using Inv_create_car, Inv_update_car, Inv_delete_car,
               Inv_create_booking, Inv_delete_booking.
  - unfold get_car. now destruct (CarRepository.get_by_id _ _).
  - unfold get_available_cars. now destruct (_ <=? _).
  - unfold get_booking. now destruct (BookingRepository.get_by_id _ _).
Qed.

Lemma Inv_reachable (st : State) : reachable today_year st -> Inv st.
Proof.
  induction 1 as [|st r _ IH]; [apply Inv_initial | now apply Inv_handle].
Qed.

End ApiFacts.

(** * The car catalog: VIN uniqueness, deletion *)

Lemma held_vins_by_key (d : dict Car.t) (k1 k2 : Z) (c1 c2 : Car.t) (v : string) :
  NoDup (held_vins (values d)) ->
  dict_get k1 d = Some c1 -> dict_get k2 d = Some c2 ->
  Car.vin c1 = Some v -> Car.vin c2 = Some v -> k1 = k2.
Proof.
  induction d as [|[k c] d IH]; simpl; [discriminate|].
  change (held_vins (c :: values d))
    with ((match Car.vin c with Some v => [v] | None => [] end) ++ held_vins (values d)).
  intros Hnd H1 H2 Hv1 Hv2.
  assert (Htail : forall k' c', dict_get k' d = Some c' -> Car.vin c' = Some v ->
                                In v (held_vins (values d))).
  { intros k' c' Hget Hv. apply In_held_vins. exists c'. split; [|exact Hv].
    apply dict_get_In in Hget. change c' with (snd (k', c')). now apply in_map. }
  destruct (Z.eqb_spec k k1) as [E1|Hne1]; destruct (Z.eqb_spec k k2) as [E2|Hne2].
  - congruence.
  - injection H1 as ->. rewrite Hv1 in Hnd. simpl in Hnd.
    inversion Hnd as [|? ? Hnotin _]; subst. exfalso. eauto.
  - injection H2 as ->. rewrite Hv2 in Hnd. simpl in Hnd.
    inversion Hnd as [|? ? Hnotin _]; subst. exfalso. eauto.
  - apply IH; auto. eapply (NoDup_app_drop []); simpl; eauto.
Qed.

Lemma reachable_serve (today_year : Z) (rs : list Request) (st : State) :
  reachable today_year st -> reachable today_year (serve today_year st rs).
Proof.
  revert st. induction rs as [|r rs IH]; intros st Hr; simpl; [exact Hr|].
  apply IH. now constructor.
Qed.

Section Catalog.
Variable today_year : Z.

(** C2: in every state the service reaches, whatever requests were
    served, no VIN is held twice in the car collection: two cars stored
    under different identities never hold the same VIN (a car whose [vin]
    was set to [None] holds none).  [create_car] with a VIN some car holds
    always fails and leaves the state as it was, with the 400 "already
    exists" conflict once the payload is valid and its dealer exists;
    [update_car] that changes the VIN to one another car holds always
    fails and leaves the state as it was, with the same conflict once the
    payload is valid and the dealer check passes. *)
Theorem vin_uniqueness :
  (forall st, reachable today_year st ->
     NoDup (held_vins (CarRepository.get_all (car_repo st))) /\
     forall k1 k2 c1 c2 v,
       CarRepository.get_by_id (car_repo st) k1 = Some c1 ->
       CarRepository.get_by_id (car_repo st) k2 = Some c2 ->
       Car.vin c1 = Some v -> Car.vin c2 = Some v -> k1 = k2)
  /\
  (forall st d,
     In (CarCreate.vin d) (held_vins (CarRepository.get_all (car_repo st))) ->
     (exists f, create_car today_year st d = (inl f, st)) /\
     (CarCreate.validate today_year d = true ->
      DealerRepository.get_by_id (dealer_repo st) (CarCreate.dealer_id d) <> None ->
      create_car today_year st d
      = (inl (HTTPException HTTP_400_BAD_REQUEST (CarVinExists (CarCreate.vin d))), st)))
  /\
  (forall st car_id d existing_car v,
     CarRepository.get_by_id (car_repo st) car_id = Some existing_car ->
     CarUpdate.vin d = Value v ->
     Car.vin existing_car <> Some v ->
     In v (held_vins (CarRepository.get_all (car_repo st))) ->
     (exists f, update_car today_year st car_id d = (inl f, st)) /\
     (CarUpdate.validate today_year d = true ->
      check_dealer st existing_car d = None ->
      update_car today_year st car_id d
      = (inl (HTTPException HTTP_400_BAD_REQUEST (CarVinExists v)), st))).
Proof.
  split; [|split].
  - intros st Hr. apply Inv_reachable in Hr. destruct Hr as (_ & _ & Hnd).
    split; [exact Hnd|]. intros k1 k2 c1 c2 v. now apply held_vins_by_key.
  - intros st d Hheld.
    destruct (create_car_cases today_year st d) as [Hfail|[Hno _]].
    + split; [exact Hfail|]. intros Hv Hd. unfold create_car. rewrite Hv. simpl.
      destruct (DealerRepository.get_by_id _ _); [|congruence].
      destruct (CarRepository.get_by_vin _ _) eqn:Hvin; [reflexivity|].
      apply get_by_vin_None in Hvin. contradiction.
    + apply get_by_vin_None in Hno. contradiction.
  - intros st car_id d c v Hget Hvin Hne Hheld.
    assert (Hconflict :
      CarUpdate.validate today_year d = true ->
      check_vin st c d = Some (CarVinExists v)).
    { intros Hv.
      assert (Hlen : length_17 v = true).
      { unfold CarUpdate.validate in Hv. rewrite Hvin in Hv. simpl in Hv.
        rewrite !andb_true_iff in Hv. tauto. }
      unfold check_vin, vin_changes. rewrite Hvin. cbn [attr].
      rewrite (length_17_nonempty _ Hlen), andb_true_l.
      destruct (opt_str_eqb (Some v) (Car.vin c)) eqn:Heq.
      - apply opt_str_eqb_eq in Heq. congruence.
      - simpl. destruct (CarRepository.get_by_vin (car_repo st) v) eqn:Hfind;
          [reflexivity|].
        apply get_by_vin_None in Hfind. contradiction. }
    split.
    + destruct (update_car_cases today_year st car_id d)
        as [Hfail|(c' & Hv & Hget' & _ & Hpass)]; [exact Hfail|].
      rewrite Hget in Hget'. injection Hget' as <-.
      rewrite (Hconflict Hv) in Hpass. discriminate.
    + intros Hv Hd. unfold update_car.
      rewrite Hv, Hget, Hd, (Hconflict Hv). reflexivity.
Qed.

End Catalog.

(** After [POST /cars] with the Camry, its VIN is held once, and a second
    [POST /cars] with the same body is refused. *)
Lemma vin_uniqueness_witness :
  NoDup (held_vins (CarRepository.get_all (car_repo state_camry)))
  /\ create_car example_year state_camry camry
     = (inl (HTTPException HTTP_400_BAD_REQUEST
               (CarVinExists "1HGBH41JXMN109186"%string)), state_camry).
Proof.
  split.
  - apply (proj1 (vin_uniqueness example_year)).
    apply (reachable_serve example_year [POST_cars camry]), reachable_init.
  - apply (proj1 (proj2 (vin_uniqueness example_year)) state_camry camry).
    + simpl. now left.
    + reflexivity.
    + discriminate.
Defined.

(** C5: [delete_car] of an identity that is no car fails with 404;
    [delete_car] of a car that some booking references fails with the 400
    "has active bookings" conflict, whatever the dates of those bookings,
    and leaves the cars and the bookings as they were; it succeeds exactly
    when the car exists and no booking references it, and then only the
    car collection changes. *)
Theorem delete_car_guard (st : State) (car_id : Z) :
  (CarRepository.get_by_id (car_repo st) car_id = None ->
   delete_car st car_id
   = (inl (HTTPException HTTP_404_NOT_FOUND (CarNotFound car_id)), st))
  /\
  (forall car b,
     CarRepository.get_by_id (car_repo st) car_id = Some car ->
     In b (BookingRepository.get_all (booking_repo st)) ->
     Booking.car_id b = car_id ->
     delete_car st car_id
     = (inl (HTTPException HTTP_400_BAD_REQUEST
               (CarHasBookings car_id
                  (length (BookingRepository.get_by_car_id (booking_repo st) car_id)))),
        st))
  /\
  (fst (delete_car st car_id) = inr tt <->
   CarRepository.get_by_id (car_repo st) car_id <> None /\
   forall b, In b (BookingRepository.get_all (booking_repo st)) ->
             Booking.car_id b <> car_id)
  /\
  (fst (delete_car st car_id) = inr tt ->
   snd (delete_car st car_id)
   = mkState (snd (CarRepository.delete (car_repo st) car_id))
             (booking_repo st) (dealer_repo st)).
Proof.
  unfold delete_car. split; [|split; [|split]].
  - now intros ->.
  - intros car b -> Hin Hcar.
    assert (Hb : In b (BookingRepository.get_by_car_id (booking_repo st) car_id))
      by (apply get_by_car_id_In; auto).
    destruct (BookingRepository.get_by_car_id (booking_repo st) car_id);
      [destruct Hb | reflexivity].
  - destruct (CarRepository.get_by_id (car_repo st) car_id) as [car|]; simpl.
    + destruct (BookingRepository.get_by_car_id (booking_repo st) car_id)
        as [|b0 l] eqn:Hl; simpl.
      * split; [intros _ | reflexivity]. split; [discriminate|].
        intros b Hin Hcar.
        assert (Hb : In b (BookingRepository.get_by_car_id (booking_repo st) car_id))
          by (apply get_by_car_id_In; auto).
        rewrite Hl in Hb. destruct Hb.
      * split; [discriminate|]. intros [_ Hnone]. exfalso.
        assert (Hb : In b0 (BookingRepository.get_by_car_id (booking_repo st) car_id))
          by (rewrite Hl; now left).
        apply get_by_car_id_In in Hb. destruct Hb as [Hin Hcar].
        exact (Hnone b0 Hin Hcar).
    + split; [discriminate | intros [Hne _]; congruence].
  - destruct (CarRepository.get_by_id (car_repo st) car_id); [|discriminate].
    destruct (BookingRepository.get_by_car_id (booking_repo st) car_id);
      [reflexivity | discriminate].
Qed.

(** The Camry has booking A: [DELETE /cars/1] is refused, nothing changes. *)
Lemma delete_car_guard_witness :
  delete_car state_booked 1
  = (inl (HTTPException HTTP_400_BAD_REQUEST (CarHasBookings 1 1)), state_booked).
Proof.
  apply (proj1 (proj2 (delete_car_guard state_booked 1))
           (created_car initial_state camry) (Booking.with_id 1 booking_A)).
  - reflexivity.
  - simpl. now left.
  - reflexivity.
Defined.

(** * Booking creation: the order of the checks *)

(** C9 (as amended): a booking request for a car that does not exist
    fails with 404 when its payload passes the schema; when its dates are
    not in order ([end_datetime <= start_datetime]) it is refused as a
    validation error (422) before the car is looked up, and the state is
    as it was in both cases. *)
Theorem create_booking_missing_car (st : State) (d : BookingCreate.t) :
  CarRepository.get_by_id (car_repo st) (BookingCreate.car_id d) = None ->
  (BookingCreate.validate d = true ->
   create_booking st d
   = (inl (HTTPException HTTP_404_NOT_FOUND (CarNotFound (BookingCreate.car_id d))), st))
  /\
  (BookingCreate.end_datetime d <= BookingCreate.start_datetime d ->
   create_booking st d = (inl RequestValidationError, st)).
Proof.
  intros Hcar. unfold create_booking. split.
  - intros ->. simpl. now rewrite Hcar.
  - intros Hle.
    assert (Hv : BookingCreate.validate d = false).
    { unfold BookingCreate.validate, BookingCreate.validate_datetimes.
      apply Z.leb_le in Hle. rewrite Hle. simpl. apply andb_false_r. }
    now rewrite Hv.
Qed.

Lemma create_booking_missing_car_witness :
  create_booking state_camry booking_request_999
  = (inl (HTTPException HTTP_404_NOT_FOUND (CarNotFound 999)), state_camry).
Proof.
  apply (proj1 (create_booking_missing_car state_camry booking_request_999 eq_refl)).
  reflexivity.
Defined.

(** C9 (as stated) fails: no car has the identity 999, the request for it
    ends before it starts, and the answer is the validation error, not
    the 404. *)
Lemma create_booking_validation_first :
  CarRepository.get_by_id (car_repo state_camry) 999 = None
  /\ BookingCreate.end_datetime booking_request_999_backwards
     <= BookingCreate.start_datetime booking_request_999_backwards
  /\ create_booking state_camry booking_request_999_backwards
     = (inl RequestValidationError, state_camry)
  /\ fst (create_booking state_camry booking_request_999_backwards)
     <> inl (HTTPException HTTP_404_NOT_FOUND (CarNotFound 999)).
Proof.
  split; [reflexivity|]. split; [now vm_compute|]. split; [reflexivity|].
  discriminate.
Qed.

(** * Partial updates *)

Lemma absent_field_kept (f : CarField) (car_id : Z) (c : Car.t) (d : CarUpdate.t) :
  payload_field f d = Absent ->
  car_field f (updated_car car_id c d) = car_field f c.
Proof.
  destruct d as [b m y co p v s de].
  destruct f; simpl;
    match goal with |- presence_of ?x = _ -> _ => destruct x end;
    simpl; congruence.
Qed.

Lemma null_field_written (f : CarField) (car_id : Z) (c : Car.t) (d : CarUpdate.t) :
  payload_field f d = SuppliedNull ->
  holds_none (car_field f (updated_car car_id c d)) = true.
Proof.
  destruct d as [b m y co p v s de].
  destruct f; simpl;
    match goal with |- presence_of ?x = _ -> _ => destruct x end;
    simpl; congruence.
Qed.

Lemma holds_none_invalid (today_year : Z) (f : CarField) (c : Car.t) :
  holds_none (car_field f c) = true ->
  Car.validate today_year c = false /\ CarResponse.model_validate c = None.
Proof.
  destruct c as [i b m y co p v s de]. unfold Car.validate, CarResponse.model_validate.
  destruct f; simpl; intros Hn;
    destruct i, b, m, y, co, p, v, s, de; simpl in *; try discriminate; auto.
Qed.

Section PartialUpdate.
Variable today_year : Z.

(** C10: when [update_car] goes through (the payload is valid, the car
    exists, and the dealer and VIN checks pass), the car stored afterwards
    is the copy of the old one under the payload; every field the payload
    supplies as [null] is [None] in it, whatever it was before, so the
    stored car fails the [Car] model's field declarations (and the
    response schema); a field the payload leaves out keeps its value. *)
Theorem update_car_writes_null
    (st : State) (car_id : Z) (d : CarUpdate.t) (existing_car : Car.t) :
  CarUpdate.validate today_year d = true ->
  CarRepository.get_by_id (car_repo st) car_id = Some existing_car ->
  check_dealer st existing_car d = None ->
  check_vin st existing_car d = None ->
  CarRepository.get_by_id (car_repo (snd (update_car today_year st car_id d))) car_id
  = Some (updated_car car_id existing_car d)
  /\
  (forall f, payload_field f d = SuppliedNull ->
     holds_none (car_field f (updated_car car_id existing_car d)) = true /\
     Car.validate today_year (updated_car car_id existing_car d) = false /\
     CarResponse.model_validate (updated_car car_id existing_car d) = None /\
     (holds_none (car_field f existing_car) = false ->
      car_field f (updated_car car_id existing_car d) <> car_field f existing_car))
  /\
  (forall f, payload_field f d = Absent ->
     car_field f (updated_car car_id existing_car d) = car_field f existing_car).
Proof.
  intros Hv Hget Hd Hvin.
  rewrite (update_car_ok today_year _ _ _ _ Hv Hget Hd Hvin). simpl.
  split; [|split].
  - unfold CarRepository.get_by_id, InMemoryDatabase.get_by_id. simpl.
    apply dict_get_set_same.
  - intros f Hnull.
    pose proof (null_field_written f car_id existing_car d Hnull) as Hnone.
    destruct (holds_none_invalid today_year f _ Hnone) as [Hcar Hresp].
    repeat split; auto. intros Hold Heq. congruence.
  - intros f. apply absent_field_kept.
Qed.

(** X27: every field the payload leaves out keeps its value in the stored
    car, whether the update goes through or is refused. *)
Lemma update_car_frame (st : State) (car_id : Z) (d : CarUpdate.t) (existing_car : Car.t) :
  CarRepository.get_by_id (car_repo st) car_id = Some existing_car ->
  exists stored,
    CarRepository.get_by_id (car_repo (snd (update_car today_year st car_id d))) car_id
    = Some stored /\
    forall f, payload_field f d = Absent ->
              car_field f stored = car_field f existing_car.
Proof.
  intros Hget.
  destruct (update_car_cases today_year st car_id d)
    as [(f & ->)|(c & Hv & Hget' & Hd & Hvin)].
  - exists existing_car. simpl. auto.
  - rewrite Hget in Hget'. injection Hget' as <-.
    exists (updated_car car_id existing_car d).
    rewrite (update_car_ok today_year _ _ _ _ Hv Hget Hd Hvin). simpl.
    split.
    + unfold CarRepository.get_by_id, InMemoryDatabase.get_by_id. simpl.
      apply dict_get_set_same.
    + intros f. apply absent_field_kept.
Qed.

(** X28: with the empty payload, a car that has all its fields comes back as
    it is and the state does not change. *)
Lemma update_car_empty (st : State) (car_id : Z) (existing_car : Car.t)
    (r : CarResponse.t) :
  InMemoryDatabase.wf (car_repo st) ->
  CarRepository.get_by_id (car_repo st) car_id = Some existing_car ->
  CarResponse.model_validate existing_car = Some r ->
  update_car today_year st car_id CarUpdate.empty = (inr r, st).
Proof.
  intros [_ Hid] Hget Hresp.
  assert (Hsame : updated_car car_id existing_car CarUpdate.empty = existing_car).
  { pose proof (dict_get_In _ _ _ Hget) as Hin. apply Hid in Hin; [|reflexivity].
    destruct existing_car. cbn in Hin. cbv [updated_car model_copy Car.with_id override]. cbn.
    now rewrite Hin. }
  rewrite (update_car_ok today_year st car_id CarUpdate.empty existing_car);
    try reflexivity; try exact Hget.
  rewrite Hsame. unfold respond. rewrite Hresp. f_equal.
  unfold CarRepository.get_by_id, InMemoryDatabase.get_by_id in Hget.
  rewrite (dict_set_same _ _ _ Hget).
  destruct st as [[cs cn] bs ds]. reflexivity.
Qed.

End PartialUpdate.

(** [PUT /cars/1] with [{"status": null}] on the Camry: the stored car has
    no status any more. *)
Lemma update_car_writes_null_witness :
  CarRepository.get_by_id
    (car_repo (snd (update_car example_year state_camry 1 status_null))) 1
  = Some (updated_car 1 (created_car initial_state camry) status_null)
  /\ Car.status (updated_car 1 (created_car initial_state camry) status_null) = None.
Proof.
  split; [|reflexivity].
  apply (proj1 (update_car_writes_null example_year state_camry 1 status_null
                  (created_car initial_state camry)
                  eq_refl eq_refl eq_refl eq_refl)).
Defined.

(** C8: the empty payload on a car that holds a [None].  After
    [POST /cars] and [PUT /cars/1] with [{"status": null}] the service has
    a car 1 without a status; [PUT /cars/1] with [{}] then returns no car:
    the response schema refuses the stored car and the request ends in an
    unhandled validation error, with the state as it was. *)
Theorem update_car_empty_after_null :
  reachable example_year state_status_null
  /\ CarRepository.get_by_id (car_repo state_status_null) 1
     = Some (updated_car 1 (created_car initial_state camry) status_null)
  /\ update_car example_year state_status_null 1 CarUpdate.empty
     = (inl (Unhandled ValidationError), state_status_null).
Proof.
  split; [|split; reflexivity].
  apply (reachable_serve example_year [POST_cars camry; PUT_car 1 status_null]),
    reachable_init.
Qed.

(** * The availability query *)

Lemma is_available_iff (st : State) (s e : datetime) (car : Car.t) :
  is_available st s e car = true <->
  Car.status car = Some AVAILABLE /\
  forall k, Car.id car = Some k ->
            BookingRepository.has_conflicting_booking (booking_repo st) k s e None
            = false.
Proof.
  unfold is_available.
  destruct (Car.status car) as [[|]|]; try (split; [discriminate | intros [[=] _]]).
  destruct (Car.id car) as [k|]; simpl.
  - rewrite negb_true_iff. split.
    + intros Hc. split; [reflexivity|]. now intros k' [= <-].
    + intros [_ Hc]. now apply Hc.
  - split; [|reflexivity]. intros _. split; [reflexivity | discriminate].
Qed.

Lemma validate_each_Some {A B} (f : A -> option B) (items : list A) :
  (forall x, In x items -> f x <> None) ->
  exists ys, validate_each f items = Some ys /\
             Forall2 (fun x y => f x = Some y) items ys.
Proof.
  induction items as [|x items IH]; simpl; intros Hall.
  - exists []. split; [reflexivity | constructor].
  - destruct IH as (ys & Heq & Hall2); [auto|].
    destruct (f x) as [y|] eqn:Hfx; [|exfalso; apply (Hall x); auto].
    exists (y :: ys). rewrite Heq. split; [reflexivity | now constructor].
Qed.

Lemma validate_each_In {A B} (f : A -> option B) (items : list A) (ys : list B) :
  validate_each f items = Some ys ->
  Forall2 (fun x y => f x = Some y) items ys.
Proof.
  revert ys. induction items as [|x items IH]; simpl; intros ys.
  - intros [= <-]. constructor.
  - destruct (f x) as [y|] eqn:Hfx; [|discriminate].
    destruct (validate_each f items) as [ys'|]; [|discriminate].
    intros [= <-]. constructor; auto.
Qed.

Lemma Forall2_In_r {A B} (R : A -> B -> Prop) (l : list A) (l' : list B) (y : B) :
  Forall2 R l l' -> In y l' -> exists x, In x l /\ R x y.
Proof.
  induction 1 as [|x y' l l' Hxy _ IH]; simpl; [tauto|].
  intros [<-|Hin].
  - exists x. auto.
  - destruct (IH Hin) as (x' & Hx' & HR). exists x'. auto.
Qed.

(** What [get_available_cars] does: it refuses [end <= start] with the
    400 message and otherwise hands the response schema exactly the cars
    that are AVAILABLE and free of conflicts, in the order of the catalog;
    when none of those holds a [None], they are what it returns.  The
    state never changes. *)
Lemma get_available_cars_spec (st : State) (s e : datetime) :
  (e <= s ->
   get_available_cars st s e
   = (inl (HTTPException HTTP_400_BAD_REQUEST EndNotAfterStart), st))
  /\
  (s < e ->
   get_available_cars st s e
   = (respond (validate_each CarResponse.model_validate)
              (filter (is_available st s e) (CarRepository.get_all (car_repo st))),
      st))
  /\
  (s < e ->
   (forall car, In car (CarRepository.get_all (car_repo st)) ->
                is_available st s e car = true ->
                CarResponse.model_validate car <> None) ->
   exists rs,
     get_available_cars st s e = (inr rs, st) /\
     Forall2 (fun car r => CarResponse.model_validate car = Some r)
             (filter (is_available st s e) (CarRepository.get_all (car_repo st))) rs)
  /\
  (forall rs r, fst (get_available_cars st s e) = inr rs -> In r rs ->
                CarResponse.status r = AVAILABLE).
Proof.
  unfold get_available_cars. rewrite collect_filter.
  split; [|split; [|split]].
  - intros Hle. apply Z.leb_le in Hle. now rewrite Hle.
  - intros Hlt. apply Z.leb_gt in Hlt. now rewrite Hlt.
  - intros Hlt Hall. apply Z.leb_gt in Hlt. rewrite Hlt.
    destruct (validate_each_Some CarResponse.model_validate
                (filter (is_available st s e) (CarRepository.get_all (car_repo st))))
      as (rs & Heq & Hall2).
    { intros car Hin. apply filter_In in Hin. destruct Hin. auto. }
    exists rs. unfold respond. rewrite Heq. auto.
  - intros rs r. destruct (e <=? s); [discriminate|]. simpl. unfold respond.
    destruct (validate_each _ _) as [rs'|] eqn:Heq; [|discriminate].
    intros [= <-] Hin. apply validate_each_In in Heq.
    destruct (Forall2_In_r _ _ _ _ Heq Hin) as (car & Hcar & Hresp).
    apply filter_In in Hcar. destruct Hcar as [_ Havail].
    apply is_available_iff in Havail. destruct Havail as [Hst _].
    unfold CarResponse.model_validate in Hresp. rewrite Hst in Hresp.
    destruct (Car.id car), (Car.brand car), (Car.model car), (Car.year car),
      (Car.color car), (Car.daily_price car), (Car.vin car), (Car.dealer_id car);
      try discriminate.
    now injection Hresp as <-.
Qed.

(** The availability cases of the tests: the Camry with booking A
    (Jan 15 10:00 to Jan 20 14:00) is not free for Jan 16 to Jan 18, is
    free from the minute the booking ends, and is never free while in
    maintenance; an empty or backwards range is refused. *)
Example available_during_booking :
  fst (get_available_cars state_booked (mk_datetime 2024 1 16 0 0)
                          (mk_datetime 2024 1 18 0 0)) = inr [].
Proof. reflexivity. Qed.

Example available_from_booking_end :
  fst (get_available_cars state_booked (mk_datetime 2024 1 20 14 0)
                          (mk_datetime 2024 1 25 0 0))
  = inr [CarResponse.mk 1 "Toyota" "Camry" 2023 "Blue" (35000 # 1)%Q
                        "1HGBH41JXMN109186" AVAILABLE 1].
Proof. reflexivity. Qed.

Example available_in_maintenance :
  fst (get_available_cars state_maintenance (mk_datetime 2024 2 1 0 0)
                          (mk_datetime 2024 2 5 0 0)) = inr [].
Proof. reflexivity. Qed.

Example available_backwards_range :
  get_available_cars state_booked (mk_datetime 2024 1 18 0 0)
                     (mk_datetime 2024 1 18 0 0)
  = (inl (HTTPException HTTP_400_BAD_REQUEST EndNotAfterStart), state_booked).
Proof. reflexivity. Qed.

(** C3: the availability query on a catalog whose car holds a [None].
    After [POST /cars] and [PUT /cars/1] with [{"color": null}] car 1 is
    AVAILABLE and has no booking, so it qualifies for any range; the query
    with [end > start] nevertheless returns no list: the response schema
    refuses the car and the request ends in an unhandled validation
    error. *)
Theorem get_available_cars_after_null :
  reachable example_year state_color_null
  /\ filter (is_available state_color_null (mk_datetime 2024 1 16 0 0)
                          (mk_datetime 2024 1 18 0 0))
            (CarRepository.get_all (car_repo state_color_null))
     = [updated_car 1 (created_car initial_state camry) color_null]
  /\ get_available_cars state_color_null (mk_datetime 2024 1 16 0 0)
                        (mk_datetime 2024 1 18 0 0)
     = (inl (Unhandled ValidationError), state_color_null).
Proof.
  split; [|split; reflexivity].
  apply (reachable_serve example_year [POST_cars camry; PUT_car 1 color_null]),
    reachable_init.
Qed.

(** * Listing bookings by car and date range *)

Lemma wf_same_id (self : BookingRepository.t) (b b' : Booking.t) :
  InMemoryDatabase.wf self ->
  In b (BookingRepository.get_all self) -> In b' (BookingRepository.get_all self) ->
  Booking.id b = Booking.id b' -> b = b'.
Proof.
  intros [Hnd Hid] Hb Hb' Heq.
  unfold BookingRepository.get_all, InMemoryDatabase.get_all, values in *.
  apply in_map_iff in Hb. destruct Hb as ([k x] & Hx & Hin). simpl in Hx. subst x.
  apply in_map_iff in Hb'. destruct Hb' as ([k' x] & Hx & Hin'). simpl in Hx. subst x.
  pose proof (Hid _ _ Hin eq_refl) as Hk. pose proof (Hid _ _ Hin' eq_refl) as Hk'.
  simpl in Hk, Hk'.
  assert (k = k') by congruence. subst k'.
  apply (In_dict_get _ _ _ Hnd) in Hin. apply (In_dict_get _ _ _ Hnd) in Hin'.
  congruence.
Qed.

Lemma get_by_datetime_range_filter (self : BookingRepository.t)
    (s e : option datetime) :
  is_some s || is_some e = true ->
  BookingRepository.get_by_datetime_range self s e
  = filter (BookingRepository.in_datetime_range s e) (BookingRepository.get_all self).
Proof.
  unfold BookingRepository.get_by_datetime_range.
  destruct s, e; simpl; try discriminate; intros _; apply collect_filter.
Qed.

(** X25: with a car identity other than [0] and at least one date bound, on a
    store whose bookings carry their keys, [get_bookings] selects the
    bookings of the car that are in the date range, in the order of the
    store: the intersection of the two filters. *)
Lemma selected_bookings_intersection (st : State) (k : Z) (s e : option datetime) :
  InMemoryDatabase.wf (booking_repo st) ->
  k <> 0 ->
  is_some s || is_some e = true ->
  selected_bookings st (Some k) s e
  = filter (BookingRepository.in_datetime_range s e)
           (BookingRepository.get_by_car_id (booking_repo st) k)
  /\
  forall b, In b (selected_bookings st (Some k) s e) <->
            In b (BookingRepository.get_by_car_id (booking_repo st) k) /\
            In b (BookingRepository.get_by_datetime_range (booking_repo st) s e).
Proof.
  intros Hwf Hk Hdate.
  assert (Heq : selected_bookings st (Some k) s e
                = filter (BookingRepository.in_datetime_range s e)
                         (BookingRepository.get_by_car_id (booking_repo st) k)).
  { unfold selected_bookings. simpl truthy_int.
    apply Z.eqb_neq in Hk. rewrite Hk, Hdate. simpl.
    rewrite (get_by_datetime_range_filter _ _ _ Hdate).
    apply filter_ext_in. intros b Hb. apply get_by_car_id_In in Hb.
    destruct Hb as [Hb _].
    destruct (BookingRepository.in_datetime_range s e b) eqn:Hin.
    - apply existsb_exists. exists (Booking.id b). split.
      + apply in_map. apply filter_In. auto.
      + now apply opt_int_eqb_eq.
    - apply not_true_is_false. intros Hex. apply existsb_exists in Hex.
      destruct Hex as (i & Hi & Heqi). apply opt_int_eqb_eq in Heqi. subst i.
      apply in_map_iff in Hi. destruct Hi as (b' & Hid & Hb').
      apply filter_In in Hb'. destruct Hb' as [Hb' Hin'].
      assert (b = b') by (apply (wf_same_id _ _ _ Hwf); auto). subst b'.
      congruence. }
  split; [exact Heq|].
  intros b. rewrite Heq, (get_by_datetime_range_filter _ _ _ Hdate), !filter_In.
  rewrite get_by_car_id_In. tauto.
Qed.

(** C7: [get_bookings] with the car identity [0] and a date bound.  The
    service holds booking A on car 1 and no booking on a car 0; the query
    for car 0 from Jan 1 on nevertheless returns booking A: the car
    filter is skipped for [0] and only the date filter applies. *)
Theorem get_bookings_car_id_zero :
  reachable example_year state_booked
  /\ BookingRepository.get_by_car_id (booking_repo state_booked) 0 = []
  /\ BookingRepository.get_by_datetime_range (booking_repo state_booked)
       (Some (mk_datetime 2024 1 1 0 0)) None
     = [Booking.with_id 1 booking_A]
  /\ selected_bookings state_booked (Some 0) (Some (mk_datetime 2024 1 1 0 0)) None
     = [Booking.with_id 1 booking_A]
  /\ get_bookings state_booked (Some 0) (Some (mk_datetime 2024 1 1 0 0)) None
     = (respond (validate_each BookingResponse.model_validate)
                [Booking.with_id 1 booking_A], state_booked).
Proof.
  split; [|repeat split; reflexivity].
  apply (reachable_serve example_year [POST_cars camry; POST_bookings booking_request_A]),
    reachable_init.
Qed.

(** C6: an identity the store assigns can be one that a stored record
    holds.  On a fresh store [create] of booking A with the identity [1]
    of its own stores it under [1] and leaves the counter at [1]; [create]
    of booking B, which has no identity, then raises nothing and returns B
    with the identity [1], the identity of the stored A; afterwards B is
    the only record and A is lost. *)
Theorem store_identity_collides :
  InMemoryDatabase.create InMemoryDatabase.init (Booking.with_id 1 booking_A)
  = (inr (Booking.with_id 1 booking_A), ledger_preset_one)
  /\ InMemoryDatabase._next_id ledger_preset_one = 1
  /\ InMemoryDatabase.get_by_id ledger_preset_one 1 = Some (Booking.with_id 1 booking_A)
  /\ (exists b, fst (InMemoryDatabase.create ledger_preset_one booking_B) = inr b
                /\ Booking.id b = Some 1
                /\ Booking.id b = Booking.id (Booking.with_id 1 booking_A)
                /\ Booking.customer_name b = Booking.customer_name booking_B)
  /\ InMemoryDatabase.get_all
       (snd (InMemoryDatabase.create ledger_preset_one booking_B))
     = [Booking.with_id 1 booking_B]
  /\ Booking.with_id 1 booking_B <> Booking.with_id 1 booking_A.
Proof.
  split; [reflexivity|]. split; [reflexivity|]. split; [reflexivity|].
  split; [|split; [reflexivity | discriminate]].
  eexists. split; [reflexivity|]. repeat split.
Qed.

(** * Conflicts in the states of the service *)

Section ServiceLedger.
Variable today_year : Z.

Lemma booking_repo_handle (st : State) (r : Request) :
  booking_repo (handle today_year st r) = booking_repo st
  \/ (exists d, booking_repo (handle today_year st r)
                = snd (BookingRepository.create (booking_repo st)
                         (BookingCreate.to_booking d)))
  \/ (exists k, booking_repo (handle today_year st r)
                = snd (BookingRepository.delete (booking_repo st) k)).
Proof.
  destruct r as [d| |k|k d|k|d|c s e|s e|k|k]; simpl; auto.
  - destruct (create_car_cases today_year st d) as [(f & ->)|(_ & ->)]; auto.
  - unfold get_car. destruct (CarRepository.get_by_id _ _); auto.
  - destruct (update_car_cases today_year st k d)
      as [(f & ->)|(c & Hv & Hget & Hd & Hvin)]; auto.
    rewrite (update_car_ok today_year _ _ _ _ Hv Hget Hd Hvin). auto.
  - unfold delete_car. destruct (CarRepository.get_by_id _ _); auto.
    destruct (BookingRepository.get_by_car_id _ _); auto.
  - unfold create_booking.
    destruct (negb (BookingCreate.validate d)); auto.
    destruct (CarRepository.get_by_id _ _) as [car|]; auto.
    destruct (Car.status car) as [[|]|]; auto.
    destruct (BookingRepository.has_conflicting_booking _ _ _ _ _); auto.
    destruct (negb (Booking.validate _)); auto.
    destruct (BookingRepository.create _ _) as [[err|b] db] eqn:Hc; auto.
    right. left. exists d. simpl. now inversion Hc.
  - unfold get_available_cars. destruct (_ <=? _); auto.
  - unfold get_booking. destruct (BookingRepository.get_by_id _ _); auto.
  - unfold delete_booking. destruct (BookingRepository.get_by_id _ _); auto.
    right. right. exists k. reflexivity.
Qed.

Lemma ids_from_one_reachable (st : State) :
  reachable today_year st -> ids_from_one (booking_repo st).
Proof.
  induction 1 as [|st r _ [Hn Hk]].
  - split; simpl; [lia | tauto].
  - destruct (booking_repo_handle st r) as [->|[(d & ->)|(k & ->)]].
    + now split.
    + split; simpl; [lia|]. intros k Hin.
      apply keys_dict_set_incl in Hin. destruct Hin as [->|Hin]; auto.
    + unfold BookingRepository.delete, InMemoryDatabase.delete.
      destruct (dict_mem k _); simpl; [|now split].
      split; simpl; [exact Hn|]. intros k' Hin. apply Hk.
      unfold keys in *. apply in_map_iff in Hin.
      destruct Hin as (x & <- & Hin). apply in_map. eapply In_dict_del; eauto.
Qed.

(** X24: in every state the service reaches the identities of the bookings
    are integers from 1 on, so the guard on [exclude_booking_id] makes no
    difference there: a conflict is reported exactly when a booking of the
    car whose [id] differs from the excluded one overlaps the request. *)
Lemma has_conflicting_booking_reachable (st : State) (car_id : Z) (s e : datetime)
    (exclude_booking_id : option Z) :
  reachable today_year st ->
  (BookingRepository.has_conflicting_booking (booking_repo st) car_id s e
     exclude_booking_id = true
   <->
   exists b, In b (BookingRepository.get_all (booking_repo st)) /\
             Booking.car_id b = car_id /\
             Booking.id b <> exclude_booking_id /\
             s < Booking.end_datetime b /\ Booking.start_datetime b < e).
Proof.
  intros Hr.
  destruct (Inv_reachable today_year st Hr) as (_ & [_ Hid] & _).
  destruct (ids_from_one_reachable st Hr) as [_ Hpos].
  unfold BookingRepository.has_conflicting_booking.
  rewrite scan_conflicts_true. split.
  - intros (b & Hin & Hx & Hov). apply get_by_car_id_In in Hin.
    destruct Hin as [Hin Hcar]. exists b. repeat split; try tauto.
    intros Heq.
    unfold BookingRepository.get_all, InMemoryDatabase.get_all, values in Hin.
    apply in_map_iff in Hin. destruct Hin as ([k b'] & Hb & Hin). simpl in Hb.
    subst b'. pose proof (Hid _ _ Hin eq_refl) as Hkey. simpl in Hkey.
    pose proof (Hpos k (In_keys _ _ _ Hin)) as Hk.
    destruct exclude_booking_id as [x|]; [|congruence].
    apply Hx; [|exact Heq]. simpl. apply negb_true_iff, Z.eqb_neq.
    assert (x = k) by congruence. lia.
  - intros (b & Hin & Hcar & Hne & Hov). exists b. split.
    + apply get_by_car_id_In. auto.
    + split; [intros _; exact Hne | exact Hov].
Qed.

End ServiceLedger.

(** * More facts about dictionaries *)

Lemma dict_get_del_other {V} (k k' : Z) (d : dict V) :
  k' <> k -> dict_get k' (dict_del k d) = dict_get k' d.
Proof.
  intros Hne. induction d as [|[k0 v0] d IH]; simpl; [reflexivity|].
  destruct (Z.eqb_spec k0 k) as [->|Hne0]; simpl.
  - destruct (Z.eqb_spec k k'); [congruence | reflexivity].
  - now rewrite IH.
Qed.

Lemma dict_get_None_iff_keys {V} (k : Z) (d : dict V) :
  ~ In k (keys d) -> dict_get k d = None.
Proof.
  intros Hk. destruct (dict_get k d) as [v|] eqn:Hget; [|reflexivity].
  exfalso. apply Hk. apply dict_get_In in Hget. eapply In_keys; eauto.
Qed.

Lemma dict_get_del_same {V} (k : Z) (d : dict V) :
  NoDup (keys d) -> dict_get k (dict_del k d) = None.
Proof.
  induction d as [|[k0 v0] d IH]; simpl; [reflexivity|].
  intros Hnd. inversion Hnd as [|? ? Hnotin Hnd']; subst.
  destruct (Z.eqb_spec k0 k) as [->|Hne0]; simpl.
  - now apply dict_get_None_iff_keys.
  - destruct (Z.eqb_spec k0 k); [contradiction | auto].
Qed.

Lemma keys_dict_set_present {V} (k : Z) (v v' : V) (d : dict V) :
  dict_get k d = Some v -> keys (dict_set k v' d) = keys d.
Proof.
  intros Hget.
  destruct (dict_get_Some_split _ _ _ Hget) as (d1 & d2 & -> & _ & Hset & _).
  rewrite Hset, !keys_app. reflexivity.
Qed.

Lemma keys_dict_del_incl {V} (k k' : Z) (d : dict V) :
  In k' (keys (dict_del k d)) -> In k' (keys d).
Proof.
  unfold keys. rewrite !in_map_iff. intros (x & Hx & Hin).
  exists x. split; [exact Hx | eapply In_dict_del; eauto].
Qed.

Lemma In_values_get {V} (v : V) (d : dict V) :
  NoDup (keys d) -> In v (values d) -> exists k, dict_get k d = Some v.
Proof.
  intros Hnd Hin. unfold values in Hin. apply in_map_iff in Hin.
  destruct Hin as ([k v'] & Hv & Hin). simpl in Hv. subst v'.
  exists k. now apply In_dict_get.
Qed.

Lemma get_In_values {V} (k : Z) (v : V) (d : dict V) :
  dict_get k d = Some v -> In v (values d).
Proof.
  intros Hget. apply dict_get_In in Hget.
  change v with (snd (k, v)). now apply in_map.
Qed.

(** * Every request makes one transition *)

Section Transitions.
Variable today_year : Z.

Lemma store_delete_present {T} `{Entity T} (self : InMemoryDatabase.t T) (k : Z) (v : T) :
  InMemoryDatabase.get_by_id self k = Some v ->
  InMemoryDatabase.delete self k
  = (true, InMemoryDatabase.mk (dict_del k (InMemoryDatabase._storage self))
                               (InMemoryDatabase._next_id self)).
Proof.
  unfold InMemoryDatabase.get_by_id, InMemoryDatabase.delete, dict_mem.
  now intros ->.
Qed.

Lemma create_booking_ok (st : State) (d : BookingCreate.t) (car : Car.t) :
  BookingCreate.validate d = true ->
  CarRepository.get_by_id (car_repo st) (BookingCreate.car_id d) = Some car ->
  Car.status car = Some AVAILABLE ->
  BookingRepository.has_conflicting_booking (booking_repo st) (BookingCreate.car_id d)
    (BookingCreate.start_datetime d) (BookingCreate.end_datetime d) None = false ->
  create_booking st d
  = (inr (BookingResponse.mk (InMemoryDatabase._next_id (booking_repo st))
            (BookingCreate.car_id d) (BookingCreate.customer_name d)
            (BookingCreate.customer_email d) (BookingCreate.start_datetime d)
            (BookingCreate.end_datetime d)),
     mkState (car_repo st)
             (InMemoryDatabase.mk
                (dict_set (InMemoryDatabase._next_id (booking_repo st))
                          (Booking.with_id (InMemoryDatabase._next_id (booking_repo st))
                                           (BookingCreate.to_booking d))
                          (InMemoryDatabase._storage (booking_repo st)))
                (InMemoryDatabase._next_id (booking_repo st) + 1))
             (dealer_repo st)).
Proof.
  intros Hv Hcar Hst Hfree. unfold create_booking.
  rewrite Hv, Hcar, Hst, Hfree, (BookingCreate_validate_booking _ Hv). reflexivity.
Qed.

(** The ways [create_booking] ends, in the order of its checks. *)
Lemma create_booking_cases (st : State) (d : BookingCreate.t) :
  (exists f, create_booking st d = (inl f, st) /\
             (refusal f = true \/
              f = Unhandled AttributeError /\
              exists car, CarRepository.get_by_id (car_repo st) (BookingCreate.car_id d)
                          = Some car /\ Car.status car = None))
  \/
  (exists car,
      BookingCreate.validate d = true /\
      CarRepository.get_by_id (car_repo st) (BookingCreate.car_id d) = Some car /\
      Car.status car = Some AVAILABLE /\
      BookingRepository.has_conflicting_booking (booking_repo st) (BookingCreate.car_id d)
        (BookingCreate.start_datetime d) (BookingCreate.end_datetime d) None = false).
Proof.
  destruct (BookingCreate.validate d) eqn:Hv.
  - destruct (CarRepository.get_by_id (car_repo st) (BookingCreate.car_id d))
      as [car|] eqn:Hcar.
    + destruct (Car.status car) as [[|]|] eqn:Hst.
      * destruct (BookingRepository.has_conflicting_booking (booking_repo st)
                    (BookingCreate.car_id d) (BookingCreate.start_datetime d)
                    (BookingCreate.end_datetime d) None) eqn:Hfree.
        -- left. unfold create_booking. rewrite Hv, Hcar, Hst, Hfree. simpl. eauto.
        -- right. exists car. auto.
      * left. unfold create_booking. rewrite Hv, Hcar, Hst. simpl. eauto.
      * left. unfold create_booking. rewrite Hv, Hcar, Hst. simpl.
        eexists. split; [reflexivity|]. right. eauto.
    + left. unfold create_booking. rewrite Hv, Hcar. simpl. eauto.
  - left. unfold create_booking. rewrite Hv. simpl. eauto.
Qed.

Lemma handle_transition (st : State) (r : Request) :
  transition st (handle today_year st r).
Proof.
  destruct r as [d| |k|k d|k|d|c s e|s e|k|k]; simpl; try apply stays.
  - destruct (create_car_cases today_year st d) as [(f & ->)|(Hvin & ->)];
      [apply stays | now apply car_created].
  - unfold get_car. destruct (CarRepository.get_by_id _ _); apply stays.
  - destruct (update_car_cases today_year st k d)
      as [(f & ->)|(c & Hv & Hget & Hd & Hvin)]; [apply stays|].
    rewrite (update_car_ok today_year _ _ _ _ Hv Hget Hd Hvin). simpl.
    now apply car_updated.
  - unfold delete_car.
    destruct (CarRepository.get_by_id (car_repo st) k) as [c|] eqn:Hget;
      [|apply stays].
    destruct (BookingRepository.get_by_car_id (booking_repo st) k) eqn:Hb;
      [|apply stays].
    simpl. unfold CarRepository.delete.
    rewrite (store_delete_present _ _ _ Hget). simpl.
    now apply car_deleted with (c := c).
  - destruct (create_booking_cases st d)
      as [(f & -> & _)|(car & Hv & Hcar & Hst & Hfree)]; [apply stays|].
    rewrite (create_booking_ok _ _ _ Hv Hcar Hst Hfree). simpl.
    now apply booking_created with (car := car).
  - unfold get_available_cars. destruct (_ <=? _); apply stays.
  - unfold get_booking. destruct (BookingRepository.get_by_id _ _); apply stays.
  - unfold delete_booking.
    destruct (BookingRepository.get_by_id (booking_repo st) k) as [b|] eqn:Hget;
      [|apply stays].
    simpl. unfold BookingRepository.delete.
    rewrite (store_delete_present _ _ _ Hget). simpl.
    now apply booking_deleted with (b := b).
Qed.

End Transitions.

(** * The invariants of the service *)

Lemma ids_in_range_set_next {T} (self : InMemoryDatabase.t T) (v : T) :
  ids_in_range self ->
  ids_in_range (InMemoryDatabase.mk
                  (dict_set (InMemoryDatabase._next_id self) v
                            (InMemoryDatabase._storage self))
                  (InMemoryDatabase._next_id self + 1)).
Proof.
  intros [Hn Hk]. split; simpl; [lia|]. intros k Hin.
  apply keys_dict_set_incl in Hin. destruct Hin as [->|Hin]; [lia|].
  apply Hk in Hin. lia.
Qed.

Lemma ids_in_range_set_present {T} (self : InMemoryDatabase.t T) (k : Z) (v v' : T) :
  ids_in_range self ->
  dict_get k (InMemoryDatabase._storage self) = Some v ->
  ids_in_range (InMemoryDatabase.mk (dict_set k v' (InMemoryDatabase._storage self))
                                    (InMemoryDatabase._next_id self)).
Proof.
  intros [Hn Hk] Hget. split; simpl; [exact Hn|].
  now rewrite (keys_dict_set_present _ _ v' _ Hget).
Qed.

Lemma ids_in_range_del {T} (self : InMemoryDatabase.t T) (k : Z) :
  ids_in_range self ->
  ids_in_range (InMemoryDatabase.mk (dict_del k (InMemoryDatabase._storage self))
                                    (InMemoryDatabase._next_id self)).
Proof.
  intros [Hn Hk]. split; simpl; [exact Hn|].
  intros k' Hin. apply Hk. eapply keys_dict_del_incl; eauto.
Qed.

Lemma dict_get_set_keeps {V} (k k' : Z) (v : V) (d : dict V) :
  dict_get k' d <> None -> dict_get k' (dict_set k v d) <> None.
Proof.
  intros Hget. destruct (Z.eq_dec k' k) as [->|Hne].
  - rewrite dict_get_set_same. discriminate.
  - now rewrite dict_get_set_other.
Qed.

(** A request interval that has no conflict is disjoint from every
    booking of the car. *)
Lemma no_conflict_disjoint (self : BookingRepository.t) (car_id : Z) (s e : datetime)
    (k : Z) (b : Booking.t) :
  BookingRepository.has_conflicting_booking self car_id s e None = false ->
  BookingRepository.get_by_id self k = Some b ->
  Booking.car_id b = car_id ->
  e <= Booking.start_datetime b \/ Booking.end_datetime b <= s.
Proof.
  intros Hfree Hget Hcar.
  destruct (Z_le_gt_dec e (Booking.start_datetime b)) as [Hle|Hgt]; [now left|].
  destruct (Z_le_gt_dec (Booking.end_datetime b) s) as [Hle'|Hgt']; [now right|].
  exfalso.
  assert (Hc : BookingRepository.has_conflicting_booking self car_id s e None = true).
  { unfold BookingRepository.has_conflicting_booking. apply scan_conflicts_true.
    exists b. split.
    - apply get_by_car_id_In. split; [|exact Hcar].
      eapply get_In_values; eauto.
    - split; [discriminate | lia]. }
  congruence.
Qed.

Lemma BookingCreate_validate_parts (d : BookingCreate.t) :
  BookingCreate.validate d = true ->
  0 < BookingCreate.car_id d /\
  BookingCreate.start_datetime d < BookingCreate.end_datetime d.
Proof.
  unfold BookingCreate.validate, BookingCreate.validate_datetimes.
  rewrite !andb_true_iff, negb_true_iff, Z.ltb_lt, Z.leb_gt. tauto.
Qed.

Lemma Booking_validate_dates (b : Booking.t) :
  Booking.validate b = true -> Booking.start_datetime b < Booking.end_datetime b.
Proof.
  unfold Booking.validate. rewrite !andb_true_iff, negb_true_iff, Z.leb_gt. tauto.
Qed.

Lemma Sound_initial : Sound initial_state.
Proof.
  unfold Sound, ids_in_range, bookings_valid, bookings_disjoint. simpl.
  repeat split; try lia; try tauto; intros; discriminate.
Qed.

Lemma Sound_transition (st st' : State) :
  Inv st -> Sound st -> transition st st' -> Sound st'.
Proof.
  intros (Hwc & Hwb & _) (Hc & Hb & Hd & Hval & Hdis) Htr.
  destruct Hwc as [Hndc _]. destruct Hwb as [Hndb _].
  destruct Htr as [|d Hvin|k d c Hget|k c Hget Hnone|d car Hv Hcar Hst Hfree|k b Hget];
    unfold Sound, bookings_valid, bookings_disjoint in *; simpl.
  - auto.
  - split; [now apply ids_in_range_set_next|]. split; [exact Hb|].
    split; [exact Hd|]. split; [|exact Hdis].
    intros k' b' Hg. destruct (Hval k' b' Hg) as (Hv1 & Hv2 & Hv3).
    split; [exact Hv1|]. split; [exact Hv2|].
    unfold CarRepository.get_by_id, InMemoryDatabase.get_by_id. simpl.
    now apply dict_get_set_keeps.
  - split; [now apply ids_in_range_set_present with (v := c)|]. split; [exact Hb|].
    split; [exact Hd|]. split; [|exact Hdis].
    intros k' b' Hg. destruct (Hval k' b' Hg) as (Hv1 & Hv2 & Hv3).
    split; [exact Hv1|]. split; [exact Hv2|].
    unfold CarRepository.get_by_id, InMemoryDatabase.get_by_id. simpl.
    now apply dict_get_set_keeps.
  - split; [now apply ids_in_range_del|]. split; [exact Hb|].
    split; [exact Hd|]. split; [|exact Hdis].
    intros k' b' Hg. destruct (Hval k' b' Hg) as (Hv1 & Hv2 & Hv3).
    split; [exact Hv1|]. split; [exact Hv2|].
    unfold CarRepository.get_by_id, InMemoryDatabase.get_by_id. simpl.
    assert (Hne : Booking.car_id b' <> k).
    { intros Heq.
      assert (Hin : In b' (BookingRepository.get_by_car_id (booking_repo st) k)).
      { apply get_by_car_id_In. split; [|exact Heq]. eapply get_In_values; eauto. }
      rewrite Hnone in Hin. destruct Hin. }
    now rewrite (dict_get_del_other _ _ _ Hne).
  - destruct (BookingCreate_validate_parts _ Hv) as [Hpos Hlt].
    split; [exact Hc|]. split; [now apply ids_in_range_set_next|].
    split; [exact Hd|]. split.
    + intros k b. unfold BookingRepository.get_by_id, InMemoryDatabase.get_by_id.
      simpl. destruct (Z.eq_dec k (InMemoryDatabase._next_id (booking_repo st)))
        as [->|Hne].
      * rewrite dict_get_set_same. intros [= <-]. simpl.
        split; [exact (BookingCreate_validate_booking _ Hv)|].
        split; [exact Hpos | congruence].
      * rewrite (dict_get_set_other _ _ _ _ Hne). apply Hval.
    + intros k1 k2 b1 b2.
      unfold BookingRepository.get_by_id, InMemoryDatabase.get_by_id. simpl.
      destruct (Z.eq_dec k1 (InMemoryDatabase._next_id (booking_repo st))) as [->|Hne1];
        destruct (Z.eq_dec k2 (InMemoryDatabase._next_id (booking_repo st))) as [->|Hne2].
      * congruence.
      * rewrite dict_get_set_same, (dict_get_set_other _ _ _ _ Hne2).
        intros [= <-] H2 _ Hsame. simpl in *.
        destruct (no_conflict_disjoint _ _ _ _ _ _ Hfree H2 (eq_sym Hsame)); auto.
      * rewrite dict_get_set_same, (dict_get_set_other _ _ _ _ Hne1).
        intros H1 [= <-] _ Hsame. simpl in *.
        destruct (no_conflict_disjoint _ _ _ _ _ _ Hfree H1 Hsame); auto.
      * rewrite (dict_get_set_other _ _ _ _ Hne1), (dict_get_set_other _ _ _ _ Hne2).
        apply Hdis.
  - assert (Hold : forall k' b',
               dict_get k' (dict_del k (InMemoryDatabase._storage (booking_repo st)))
               = Some b' ->
               dict_get k' (InMemoryDatabase._storage (booking_repo st)) = Some b').
    { intros k' b' Hg. destruct (Z.eq_dec k' k) as [->|Hne].
      - rewrite (dict_get_del_same _ _ Hndb) in Hg. discriminate.
      - now rewrite (dict_get_del_other _ _ _ Hne) in Hg. }
    split; [exact Hc|]. split; [now apply ids_in_range_del|].
    split; [exact Hd|]. split.
    + intros k' b'. unfold BookingRepository.get_by_id, InMemoryDatabase.get_by_id.
      simpl. intros Hg. apply Hold in Hg. now apply Hval in Hg.
    + intros k1 k2 b1 b2.
      unfold BookingRepository.get_by_id, InMemoryDatabase.get_by_id. simpl.
      intros H1 H2. apply Hold in H1. apply Hold in H2. now apply Hdis.
Qed.

Lemma Sound_reachable (today_year : Z) (st : State) :
  reachable today_year st -> Sound st.
Proof.
  induction 1 as [|st r Hr IH]; [apply Sound_initial|].
  apply (Sound_transition st); [now apply (Inv_reachable today_year) | exact IH|].
  apply handle_transition.
Qed.

(** * Properties of the states of the service *)

(** X1: in every state the service reaches, two bookings of one car
    stored under different identities never overlap (one ends before or
    when the other starts), and every stored booking starts before it
    ends and carries the identity it is stored under. *)
Theorem no_double_booking (today_year : Z) (st : State) :
  reachable today_year st ->
  (forall k1 k2 b1 b2,
      BookingRepository.get_by_id (booking_repo st) k1 = Some b1 ->
      BookingRepository.get_by_id (booking_repo st) k2 = Some b2 ->
      k1 <> k2 -> Booking.car_id b1 = Booking.car_id b2 ->
      Booking.end_datetime b1 <= Booking.start_datetime b2 \/
      Booking.end_datetime b2 <= Booking.start_datetime b1)
  /\
  (forall k b, BookingRepository.get_by_id (booking_repo st) k = Some b ->
               Booking.start_datetime b < Booking.end_datetime b /\
               Booking.id b = Some k).
Proof.
  intros Hr.
  destruct (Sound_reachable _ _ Hr) as (_ & _ & _ & Hval & Hdis).
  destruct (Inv_reachable _ _ Hr) as (_ & [_ Hid] & _).
  split; [exact Hdis|].
  intros k b Hget. split.
  - apply Booking_validate_dates. now apply (Hval k b).
  - apply (Hid k b); [|reflexivity]. now apply dict_get_In.
Qed.

Lemma no_double_booking_witness :
  Booking.end_datetime (Booking.with_id 1 booking_A)
  <= Booking.start_datetime (Booking.with_id 2 booking_B)
  \/ Booking.end_datetime (Booking.with_id 2 booking_B)
     <= Booking.start_datetime (Booking.with_id 1 booking_A).
Proof.
  apply (proj1 (no_double_booking example_year state_two_bookings
                  (reachable_serve example_year
                     [POST_cars camry; POST_bookings booking_request_A;
                      POST_bookings booking_request_B]
                     initial_state (reachable_init example_year)))
           1 2);
    [reflexivity | reflexivity | discriminate | reflexivity].
Defined.

(** X2: in every state the service reaches, the car a stored booking
    names is in the catalog, and its identity is positive. *)
Theorem bookings_reference_cars (today_year : Z) (st : State) (k : Z) (b : Booking.t) :
  reachable today_year st ->
  BookingRepository.get_by_id (booking_repo st) k = Some b ->
  0 < Booking.car_id b /\
  exists car, CarRepository.get_by_id (car_repo st) (Booking.car_id b) = Some car.
Proof.
  intros Hr Hget.
  destruct (Sound_reachable _ _ Hr) as (_ & _ & _ & Hval & _).
  destruct (Hval k b Hget) as (_ & Hpos & Hcar). split; [exact Hpos|].
  destruct (CarRepository.get_by_id (car_repo st) (Booking.car_id b)) as [car|];
    [eauto | congruence].
Qed.

Lemma bookings_reference_cars_witness :
  0 < 1 /\ exists car, CarRepository.get_by_id (car_repo state_booked) 1 = Some car.
Proof.
  apply (bookings_reference_cars example_year state_booked 1 (Booking.with_id 1 booking_A)).
  - apply (reachable_serve example_year [POST_cars camry; POST_bookings booking_request_A]),
      reachable_init.
  - reflexivity.
Defined.

(** X3: no request writes to the dealers: in every state the service
    reaches the dealer store is the one [main.py] seeded, the only dealer
    is dealer 1, and [create_car] with a valid payload for any other
    dealer fails with 404 and changes nothing, whatever its VIN. *)
Theorem dealers_fixed (today_year : Z) (st : State) :
  reachable today_year st ->
  dealer_repo st = dealer_repo initial_state
  /\ DealerRepository.get_by_id (dealer_repo st) 1 = Some (Dealer.with_id 1 initial_dealer)
  /\ (forall k, k <> 1 -> DealerRepository.get_by_id (dealer_repo st) k = None)
  /\ (forall d, CarCreate.validate today_year d = true -> CarCreate.dealer_id d <> 1 ->
                create_car today_year st d
                = (inl (HTTPException HTTP_404_NOT_FOUND
                          (DealerNotFound (CarCreate.dealer_id d))), st)).
Proof.
  intros Hr. destruct (Sound_reachable _ _ Hr) as (_ & _ & Hd & _).
  assert (Hother : forall k, k <> 1 ->
                             DealerRepository.get_by_id (dealer_repo st) k = None).
  { intros k Hk. rewrite Hd.
    change (DealerRepository.get_by_id (dealer_repo initial_state) k)
      with (if 1 =? k then Some (Dealer.with_id 1 initial_dealer) else None).
    destruct (Z.eqb_spec 1 k); [congruence | reflexivity]. }
  split; [exact Hd|]. split; [now rewrite Hd|]. split; [exact Hother|].
  intros d Hv Hne. unfold create_car. rewrite Hv, (Hother _ Hne). reflexivity.
Qed.

Lemma dealers_fixed_witness :
  dealer_repo state_booked = dealer_repo initial_state.
Proof.
  apply (dealers_fixed example_year state_booked).
  apply (reachable_serve example_year [POST_cars camry; POST_bookings booking_request_A]),
    reachable_init.
Defined.

(** X4: a request that ends in a refusal of its own (an [HTTPException]
    of the handler or a body the request schema rejects) leaves the state
    exactly as it was, and so does every GET, however it ends. *)
Theorem refusals_leave_state (today_year : Z) (st : State) (r : Request) :
  (forall f, failure_of today_year st r = Some f -> refusal f = true ->
             handle today_year st r = st)
  /\ (is_read r = true -> handle today_year st r = st).
Proof.
  split.
  - intros f. destruct r as [d| |k|k d|k|d|c s e|s e|k|k]; simpl.
    + destruct (create_car_cases today_year st d) as [(f' & ->)|(Hvin & _)];
        [reflexivity|].
      unfold create_car.
      destruct (negb (CarCreate.validate today_year d)); [reflexivity|].
      destruct (DealerRepository.get_by_id _ _); [|reflexivity].
      rewrite Hvin.
      destruct (negb (Car.validate today_year _)); [reflexivity|].
      simpl. discriminate.
    + reflexivity.
    + unfold get_car. now destruct (CarRepository.get_by_id _ _).
    + destruct (update_car_cases today_year st k d)
        as [(f' & ->)|(c & Hv & Hget & Hd & Hvin)]; [reflexivity|].
      rewrite (update_car_ok today_year _ _ _ _ Hv Hget Hd Hvin). simpl.
      unfold respond. destruct (CarResponse.model_validate _); simpl.
      * discriminate.
      * intros [= <-]. discriminate.
    + unfold delete_car. destruct (CarRepository.get_by_id _ _); [|reflexivity].
      destruct (BookingRepository.get_by_car_id _ _); [|reflexivity].
      simpl. discriminate.
    + destruct (create_booking_cases st d)
        as [(f' & -> & _)|(car & Hv & Hcar & Hst & Hfree)]; [reflexivity|].
      rewrite (create_booking_ok _ _ _ Hv Hcar Hst Hfree). simpl. discriminate.
    + reflexivity.
    + unfold get_available_cars. now destruct (_ <=? _).
    + unfold get_booking. now destruct (BookingRepository.get_by_id _ _).
    + unfold delete_booking. destruct (BookingRepository.get_by_id _ _); [|reflexivity].
      simpl. discriminate.
  - destruct r; simpl; try discriminate; intros _; try reflexivity.
    + unfold get_car. now destruct (CarRepository.get_by_id _ _).
    + unfold get_available_cars. now destruct (_ <=? _).
    + unfold get_booking. now destruct (BookingRepository.get_by_id _ _).
Qed.

(** [DELETE /cars/1] while the Camry has booking A is refused, and the
    state is the same afterwards. *)
Lemma refusals_leave_state_witness :
  handle example_year state_booked (DELETE_car 1) = state_booked.
Proof.
  apply (proj1 (refusals_leave_state example_year state_booked (DELETE_car 1))
           (HTTPException HTTP_400_BAD_REQUEST (CarHasBookings 1 1)));
    reflexivity.
Defined.

(** * Creating cars and bookings *)

Lemma get_car_stored (st : State) (k : Z) (c : Car.t) :
  CarRepository.get_by_id (car_repo st) k = Some c ->
  get_car st k = (respond CarResponse.model_validate c, st).
Proof. intros Hget. unfold get_car. now rewrite Hget. Qed.

(** X5: [create_car] never ends in an escaped exception.  It either
    refuses (422, 404 or 400) and leaves the state as it was, or it
    answers the payload's fields under the identity the car store's
    counter held, moves the counter by one, touches neither bookings nor
    dealers, and a following [get_car] of that identity answers the same
    car. *)
Theorem create_car_outcome (today_year : Z) (st : State) (d : CarCreate.t) :
  (exists f, refusal f = true /\ create_car today_year st d = (inl f, st))
  \/
  (exists st',
      let k := InMemoryDatabase._next_id (car_repo st) in
      let r := CarResponse.mk k (CarCreate.brand d) (CarCreate.model d)
                 (CarCreate.year d) (CarCreate.color d) (CarCreate.daily_price d)
                 (CarCreate.vin d) (CarCreate.status d) (CarCreate.dealer_id d) in
      create_car today_year st d = (inr r, st') /\
      get_car st' k = (inr r, st') /\
      InMemoryDatabase._next_id (car_repo st') = k + 1 /\
      booking_repo st' = booking_repo st /\ dealer_repo st' = dealer_repo st).
Proof.
  destruct (CarCreate.validate today_year d) eqn:Hv.
  - destruct (DealerRepository.get_by_id (dealer_repo st) (CarCreate.dealer_id d))
      as [dealer|] eqn:Hd.
    + destruct (CarRepository.get_by_vin (car_repo st) (CarCreate.vin d)) as [c|] eqn:Hvin.
      * left. unfold create_car. rewrite Hv, Hd, Hvin. simpl.
        eexists; (split; [|reflexivity]); reflexivity.
      * right. rewrite (create_car_ok _ _ _ _ Hv Hd Hvin).
        eexists. cbv zeta. split; [reflexivity|].
        split; [|repeat split].
        rewrite (get_car_stored _ _ (created_car st d)); [reflexivity|].
        unfold CarRepository.get_by_id, InMemoryDatabase.get_by_id. simpl.
        apply dict_get_set_same.
    + left. unfold create_car. rewrite Hv, Hd. simpl.
        eexists; (split; [|reflexivity]); reflexivity.
  - left. unfold create_car. rewrite Hv. simpl.
        eexists; (split; [|reflexivity]); reflexivity.
Qed.

(** X6: in a state the service reaches, a car that [create_car] accepts
    goes to the end of the catalog: the cars listed afterwards are the
    cars listed before, in the same order, followed by the new one (no
    stored car is ever overwritten by a new one). *)
Theorem create_car_appends (today_year : Z) (st : State) (d : CarCreate.t)
    (r : CarResponse.t) :
  reachable today_year st ->
  fst (create_car today_year st d) = inr r ->
  CarRepository.get_all (car_repo (snd (create_car today_year st d)))
  = CarRepository.get_all (car_repo st) ++ [created_car st d]
  /\ CarResponse.model_validate (created_car st d) = Some r.
Proof.
  intros Hr Hok.
  destruct (Sound_reachable _ _ Hr) as ([_ Hrange] & _).
  destruct (create_car_cases today_year st d) as [(f & Hf)|(Hvin & Hst)].
  { rewrite Hf in Hok. discriminate. }
  rewrite Hst. simpl. unfold CarRepository.get_all, InMemoryDatabase.get_all. simpl.
  assert (Hfresh : dict_get (InMemoryDatabase._next_id (car_repo st))
                            (InMemoryDatabase._storage (car_repo st)) = None).
  { apply dict_get_None_iff_keys. intros Hin. apply Hrange in Hin. lia. }
  destruct (dict_get_None_shape _ _ Hfresh) as (_ & Hset & _).
  rewrite Hset, values_app. split; [reflexivity|].
  unfold create_car in Hok.
  destruct (negb (CarCreate.validate today_year d)); [discriminate|].
  destruct (DealerRepository.get_by_id _ _); [|discriminate].
  rewrite Hvin in Hok.
  destruct (negb (Car.validate today_year _)); [discriminate|].
  simpl in Hok. now injection Hok as <-.
Qed.

Lemma create_car_appends_witness :
  CarRepository.get_all (car_repo state_two_cars)
  = CarRepository.get_all (car_repo state_camry) ++ [created_car state_camry accord].
Proof.
  apply (create_car_appends example_year state_camry accord
           (CarResponse.mk 2 "Honda" "Accord" 2024 "Red" (32000 # 1)%Q
                           "2HGBH41JXMN109187" AVAILABLE 1)).
  - apply (reachable_serve example_year [POST_cars camry]), reachable_init.
  - reflexivity.
Defined.

Lemma get_booking_stored (st : State) (k : Z) (b : Booking.t) :
  BookingRepository.get_by_id (booking_repo st) k = Some b ->
  get_booking st k = (respond BookingResponse.model_validate b, st).
Proof. intros Hget. unfold get_booking. now rewrite Hget. Qed.

(** X7: when [create_booking] answers with a booking, the payload had
    passed validation, the car was there, AVAILABLE and free of
    conflicts for the range; the answer carries the fields of the payload
    under the identity the counter of the booking store held, and the
    counter has moved by one; a following [get_booking] of that identity
    answers the same booking; every other identity holds what it held;
    the catalog and the dealers are as they were. *)
Theorem create_booking_then_get (st : State) (d : BookingCreate.t)
    (r : BookingResponse.t) :
  fst (create_booking st d) = inr r ->
  r = BookingResponse.mk (InMemoryDatabase._next_id (booking_repo st))
        (BookingCreate.car_id d) (BookingCreate.customer_name d)
        (BookingCreate.customer_email d) (BookingCreate.start_datetime d)
        (BookingCreate.end_datetime d)
  /\ get_booking (snd (create_booking st d)) (InMemoryDatabase._next_id (booking_repo st))
     = (inr r, snd (create_booking st d))
  /\ InMemoryDatabase._next_id (booking_repo (snd (create_booking st d)))
     = InMemoryDatabase._next_id (booking_repo st) + 1
  /\ (forall k, k <> InMemoryDatabase._next_id (booking_repo st) ->
                BookingRepository.get_by_id (booking_repo (snd (create_booking st d))) k
                = BookingRepository.get_by_id (booking_repo st) k)
  /\ car_repo (snd (create_booking st d)) = car_repo st
  /\ dealer_repo (snd (create_booking st d)) = dealer_repo st
  /\ BookingCreate.validate d = true
  /\ exists car,
       CarRepository.get_by_id (car_repo st) (BookingCreate.car_id d) = Some car /\
       Car.status car = Some AVAILABLE /\
       BookingRepository.has_conflicting_booking (booking_repo st)
         (BookingCreate.car_id d) (BookingCreate.start_datetime d)
         (BookingCreate.end_datetime d) None = false.
Proof.
  intros Hok.
  destruct (create_booking_cases st d)
    as [(f & Hf & _)|(car & Hv & Hcar & Hst & Hfree)].
  - rewrite Hf in Hok. discriminate.
  - rewrite (create_booking_ok _ _ _ Hv Hcar Hst Hfree) in Hok |- *.
    simpl in Hok. injection Hok as <-. cbn [snd booking_repo car_repo dealer_repo].
    split; [reflexivity|]. split.
    { rewrite (get_booking_stored _ _
                 (Booking.with_id (InMemoryDatabase._next_id (booking_repo st))
                                  (BookingCreate.to_booking d))); [reflexivity|].
      unfold BookingRepository.get_by_id, InMemoryDatabase.get_by_id. simpl.
      apply dict_get_set_same. }
    split; [reflexivity|]. split.
    { intros k Hne. unfold BookingRepository.get_by_id, InMemoryDatabase.get_by_id.
      simpl. apply dict_get_set_other. congruence. }
    split; [reflexivity|]. split; [reflexivity|]. split; [exact Hv|].
    exists car. auto.
Qed.

Lemma create_booking_then_get_witness :
  get_booking state_booked 1
  = (inr (BookingResponse.mk 1 1 "John Doe" "john.doe@example.com"
                             (mk_datetime 2024 1 15 10 0)
                             (mk_datetime 2024 1 20 14 0)), state_booked).
Proof.
  destruct (create_booking_then_get state_camry booking_request_A
              (BookingResponse.mk 1 1 "John Doe" "john.doe@example.com"
                                  (mk_datetime 2024 1 15 10 0)
                                  (mk_datetime 2024 1 20 14 0)))
    as (_ & Hget & _); [reflexivity|].
  exact Hget.
Defined.

(** X8: a booking request that was accepted is refused when it is sent
    again: the second [create_booking] with the same payload ends in the
    400 "already booked" and changes nothing. *)
Theorem create_booking_twice (st : State) (d : BookingCreate.t) (r : BookingResponse.t) :
  fst (create_booking st d) = inr r ->
  create_booking (snd (create_booking st d)) d
  = (inl (HTTPException HTTP_400_BAD_REQUEST
            (CarAlreadyBooked (BookingCreate.car_id d))),
     snd (create_booking st d)).
Proof.
  intros Hok.
  destruct (create_booking_cases st d)
    as [(f & Hf & _)|(car & Hv & Hcar & Hst & Hfree)].
  { rewrite Hf in Hok. discriminate. }
  rewrite (create_booking_ok _ _ _ Hv Hcar Hst Hfree). simpl.
  destruct (BookingCreate_validate_parts _ Hv) as [_ Hlt].
  unfold create_booking. simpl. rewrite Hv, Hcar, Hst. simpl.
  assert (Hc : BookingRepository.has_conflicting_booking
                 (InMemoryDatabase.mk
                    (dict_set (InMemoryDatabase._next_id (booking_repo st))
                       (Booking.with_id (InMemoryDatabase._next_id (booking_repo st))
                                        (BookingCreate.to_booking d))
                       (InMemoryDatabase._storage (booking_repo st)))
                    (InMemoryDatabase._next_id (booking_repo st) + 1))
                 (BookingCreate.car_id d) (BookingCreate.start_datetime d)
                 (BookingCreate.end_datetime d) None = true).
  { unfold BookingRepository.has_conflicting_booking. apply scan_conflicts_true.
    exists (Booking.with_id (InMemoryDatabase._next_id (booking_repo st))
                            (BookingCreate.to_booking d)).
    split.
    - apply get_by_car_id_In. split; [|reflexivity].
      unfold BookingRepository.get_all, InMemoryDatabase.get_all. simpl.
      apply (get_In_values (InMemoryDatabase._next_id (booking_repo st))).
      apply dict_get_set_same.
    - split; [discriminate|]. simpl. lia. }
  now rewrite Hc.
Qed.

Lemma create_booking_twice_witness :
  create_booking state_booked booking_request_A
  = (inl (HTTPException HTTP_400_BAD_REQUEST (CarAlreadyBooked 1)), state_booked).
Proof.
  apply (create_booking_twice state_camry booking_request_A
           (BookingResponse.mk 1 1 "John Doe" "john.doe@example.com"
                               (mk_datetime 2024 1 15 10 0)
                               (mk_datetime 2024 1 20 14 0))).
  reflexivity.
Defined.

(** * Availability and booking *)

Lemma model_validate_fields (c : Car.t) (r : CarResponse.t) :
  CarResponse.model_validate c = Some r ->
  Car.id c = Some (CarResponse.id r) /\ Car.status c = Some (CarResponse.status r).
Proof.
  unfold CarResponse.model_validate.
  destruct (Car.id c), (Car.brand c), (Car.model c), (Car.year c), (Car.color c),
    (Car.daily_price c), (Car.vin c), (Car.status c), (Car.dealer_id c);
    try discriminate.
  intros [= <-]. auto.
Qed.

(** In a store whose items carry their keys, a listed car is found under
    its own identity. *)
Lemma listed_car_by_id (self : CarRepository.t) (car : Car.t) (k : Z) :
  InMemoryDatabase.wf self ->
  In car (CarRepository.get_all self) -> Car.id car = Some k ->
  CarRepository.get_by_id self k = Some car /\
  In k (keys (InMemoryDatabase._storage self)).
Proof.
  intros [Hnd Hid] Hin Hk.
  unfold CarRepository.get_all, InMemoryDatabase.get_all, values in Hin.
  apply in_map_iff in Hin. destruct Hin as ([k' c'] & Hc & Hin). simpl in Hc. subst c'.
  pose proof (Hid _ _ Hin eq_refl) as Hkey. simpl in Hkey.
  assert (k' = k) by congruence. subst k'.
  split; [now apply In_dict_get | eapply In_keys; eauto].
Qed.

Lemma conflict_widens (self : BookingRepository.t) (car_id : Z)
    (s e s' e' : datetime) (x : option Z) :
  s <= s' -> e' <= e ->
  BookingRepository.has_conflicting_booking self car_id s' e' x = true ->
  BookingRepository.has_conflicting_booking self car_id s e x = true.
Proof.
  unfold BookingRepository.has_conflicting_booking. rewrite !scan_conflicts_true.
  intros Hs He (b & Hin & Hx & Hov). exists b. repeat split; auto; lia.
Qed.

Lemma conflict_after_create (self : BookingRepository.t) (d : BookingCreate.t) :
  BookingCreate.start_datetime d < BookingCreate.end_datetime d ->
  BookingRepository.has_conflicting_booking
    (InMemoryDatabase.mk
       (dict_set (InMemoryDatabase._next_id self)
                 (Booking.with_id (InMemoryDatabase._next_id self)
                                  (BookingCreate.to_booking d))
                 (InMemoryDatabase._storage self))
       (InMemoryDatabase._next_id self + 1))
    (BookingCreate.car_id d) (BookingCreate.start_datetime d)
    (BookingCreate.end_datetime d) None = true.
Proof.
  intros Hlt. unfold BookingRepository.has_conflicting_booking.
  apply scan_conflicts_true.
  exists (Booking.with_id (InMemoryDatabase._next_id self) (BookingCreate.to_booking d)).
  split.
  - apply get_by_car_id_In. split; [|reflexivity].
    unfold BookingRepository.get_all, InMemoryDatabase.get_all. simpl.
    apply (get_In_values (InMemoryDatabase._next_id self)).
    apply dict_get_set_same.
  - split; [discriminate|]. simpl. lia.
Qed.

(** X9: what the availability query offers can be booked.  In a state
    the service reaches, for every car the query returns for a range and
    every customer name and e-mail address the schema accepts,
    [create_booking] for that car and that very range succeeds; after it
    the car has a conflict for the range. *)
Theorem available_then_bookable (today_year : Z) (st : State) (s e : datetime)
    (rs : list CarResponse.t) (r : CarResponse.t) (name email : string) :
  reachable today_year st ->
  fst (get_available_cars st s e) = inr rs -> In r rs ->
  min_length_1 name = true -> email_pattern email = true ->
  fst (create_booking st (BookingCreate.mk (CarResponse.id r) name email s e))
  = inr (BookingResponse.mk (InMemoryDatabase._next_id (booking_repo st))
                            (CarResponse.id r) name email s e)
  /\
  BookingRepository.has_conflicting_booking
    (booking_repo (snd (create_booking st
                          (BookingCreate.mk (CarResponse.id r) name email s e))))
    (CarResponse.id r) s e None = true.
Proof.
  intros Hr Hok Hin Hname Hmail.
  destruct (Inv_reachable _ _ Hr) as (Hwf & _ & _).
  destruct (Sound_reachable _ _ Hr) as ([_ Hrange] & _).
  unfold get_available_cars in Hok.
  destruct (e <=? s) eqn:Hes; [discriminate|]. apply Z.leb_gt in Hes.
  simpl in Hok. rewrite collect_filter in Hok. unfold respond in Hok.
  destruct (validate_each _ _) as [rs'|] eqn:Hall; [|discriminate].
  injection Hok as ->. apply validate_each_In in Hall.
  destruct (Forall2_In_r _ _ _ _ Hall Hin) as (car & Hcar & Hresp).
  apply filter_In in Hcar. destruct Hcar as [Hlisted Havail].
  apply is_available_iff in Havail. destruct Havail as [Hst Hfree].
  destruct (model_validate_fields _ _ Hresp) as [Hid _].
  destruct (listed_car_by_id _ _ _ Hwf Hlisted Hid) as [Hget Hkey].
  apply Hrange in Hkey.
  set (d := BookingCreate.mk (CarResponse.id r) name email s e).
  assert (Hv : BookingCreate.validate d = true).
  { unfold BookingCreate.validate, BookingCreate.validate_datetimes. simpl.
    rewrite Hname, Hmail.
    replace (0 <? CarResponse.id r) with true by (symmetry; apply Z.ltb_lt; lia).
    replace (e <=? s) with false by (symmetry; apply Z.leb_gt; lia).
    reflexivity. }
  rewrite (create_booking_ok st d car Hv Hget Hst (Hfree _ Hid)). simpl.
  split; [reflexivity|].
  apply (conflict_after_create (booking_repo st) d). exact Hes.
Qed.

Lemma available_then_bookable_witness :
  fst (create_booking state_booked
         (BookingCreate.mk 1 "Jane Smith" "jane.smith@example.com"
                           (mk_datetime 2024 1 20 14 0) (mk_datetime 2024 1 25 0 0)))
  = inr (BookingResponse.mk 2 1 "Jane Smith" "jane.smith@example.com"
                            (mk_datetime 2024 1 20 14 0) (mk_datetime 2024 1 25 0 0)).
Proof.
  apply (available_then_bookable example_year state_booked
           (mk_datetime 2024 1 20 14 0) (mk_datetime 2024 1 25 0 0)
           [CarResponse.mk 1 "Toyota" "Camry" 2023 "Blue" (35000 # 1)%Q
                           "1HGBH41JXMN109186" AVAILABLE 1]
           (CarResponse.mk 1 "Toyota" "Camry" 2023 "Blue" (35000 # 1)%Q
                           "1HGBH41JXMN109186" AVAILABLE 1)
           "Jane Smith" "jane.smith@example.com").
  - apply (reachable_serve example_year [POST_cars camry; POST_bookings booking_request_A]),
      reachable_init.
  - reflexivity.
  - simpl. now left.
  - reflexivity.
  - reflexivity.
Defined.

(** X10: availability is inherited by sub-ranges: a car that passes the
    test of [get_available_cars] for a range passes it for every range
    inside it. *)
Theorem availability_subrange (st : State) (s e s' e' : datetime) (car : Car.t) :
  is_available st s e car = true -> s <= s' -> e' <= e ->
  is_available st s' e' car = true.
Proof.
  intros Hav Hs He. apply is_available_iff in Hav. destruct Hav as [Hst Hfree].
  apply is_available_iff. split; [exact Hst|].
  intros k Hk. apply not_true_is_false. intros Hc.
  apply (conflict_widens _ _ s e) in Hc; [|exact Hs|exact He].
  rewrite (Hfree k Hk) in Hc. discriminate.
Qed.

Lemma availability_subrange_witness :
  is_available state_booked (mk_datetime 2024 1 21 0 0) (mk_datetime 2024 1 22 0 0)
               (created_car initial_state camry) = true.
Proof.
  apply (availability_subrange state_booked
           (mk_datetime 2024 1 20 14 0) (mk_datetime 2024 1 25 0 0)).
  - reflexivity.
  - now vm_compute.
  - now vm_compute.
Defined.

(** * Listing the catalog *)

Lemma validate_each_None {A B} (f : A -> option B) (items : list A) :
  validate_each f items = None <-> exists x, In x items /\ f x = None.
Proof.
  induction items as [|x items IH]; simpl.
  - split; [discriminate | intros (x & [] & _)].
  - destruct (f x) as [y|] eqn:Hfx.
    + destruct (validate_each f items) as [ys|].
      * split; [discriminate|]. intros (x' & [<-|Hin] & Hn); [congruence|].
        assert (Hex : exists x, In x items /\ f x = None) by eauto.
        apply IH in Hex. discriminate.
      * split; [|reflexivity]. intros _.
        destruct (proj1 IH eq_refl) as (x' & Hin & Hn). eauto.
    + split; [|reflexivity]. intros _. exists x. auto.
Qed.

Lemma model_validate_None (c : Car.t) :
  Car.id c <> None ->
  (CarResponse.model_validate c = None <->
   exists f, holds_none (car_field f c) = true).
Proof.
  intros Hid. split.
  - unfold CarResponse.model_validate.
    destruct (Car.id c); [|congruence].
    destruct (Car.brand c) eqn:E1; [|exists F_brand; simpl; now rewrite E1].
    destruct (Car.model c) eqn:E2; [|exists F_model; simpl; now rewrite E2].
    destruct (Car.year c) eqn:E3; [|exists F_year; simpl; now rewrite E3].
    destruct (Car.color c) eqn:E4; [|exists F_color; simpl; now rewrite E4].
    destruct (Car.daily_price c) eqn:E5; [|exists F_daily_price; simpl; now rewrite E5].
    destruct (Car.vin c) eqn:E6; [|exists F_vin; simpl; now rewrite E6].
    destruct (Car.status c) eqn:E7; [|exists F_status; simpl; now rewrite E7].
    destruct (Car.dealer_id c) eqn:E8; [|exists F_dealer_id; simpl; now rewrite E8].
    discriminate.
  - intros (f & Hf). now apply (holds_none_invalid 0 f).
Qed.

(** X11: in a state the service reaches, [get_cars] ends in an escaped
    validation error exactly when some car of the catalog holds a [None]
    in one of its fields; otherwise it answers one response per car, in
    the order of the catalog.  The state is as it was either way. *)
Theorem get_cars_listing (today_year : Z) (st : State) :
  reachable today_year st ->
  (fst (get_cars st) = inl (Unhandled ValidationError) <->
   exists car f, In car (CarRepository.get_all (car_repo st)) /\
                 holds_none (car_field f car) = true)
  /\
  ((forall car f, In car (CarRepository.get_all (car_repo st)) ->
                  holds_none (car_field f car) = false) ->
   exists rs, get_cars st = (inr rs, st) /\
              Forall2 (fun car r => CarResponse.model_validate car = Some r)
                      (CarRepository.get_all (car_repo st)) rs)
  /\ snd (get_cars st) = st.
Proof.
  intros Hr. destruct (Inv_reachable _ _ Hr) as ([Hnd Hid] & _ & _).
  assert (Hhas : forall car, In car (CarRepository.get_all (car_repo st)) ->
                             Car.id car <> None).
  { intros car Hin.
    unfold CarRepository.get_all, InMemoryDatabase.get_all, values in Hin.
    apply in_map_iff in Hin. destruct Hin as ([k c] & Hc & Hin). simpl in Hc. subst c.
    pose proof (Hid _ _ Hin eq_refl) as Hk. simpl in Hk. congruence. }
  unfold get_cars, respond. simpl. split; [|split; [|reflexivity]].
  - destruct (validate_each _ _) as [rs|] eqn:Hall.
    + split; [discriminate|]. intros (car & f & Hin & Hf). exfalso.
      assert (Hex : exists x, In x (CarRepository.get_all (car_repo st)) /\
                              CarResponse.model_validate x = None).
      { exists car. split; [exact Hin|]. apply model_validate_None; eauto. }
      apply validate_each_None in Hex. congruence.
    + split; [intros _ | reflexivity]. apply validate_each_None in Hall.
      destruct Hall as (car & Hin & Hn). exists car.
      apply model_validate_None in Hn; [|auto]. destruct Hn as (f & Hf). eauto.
  - intros Hfull.
    destruct (validate_each_Some CarResponse.model_validate
                (CarRepository.get_all (car_repo st))) as (rs & Heq & Hall).
    { intros car Hin Hn. apply model_validate_None in Hn; [|auto].
      destruct Hn as (f & Hf). rewrite (Hfull car f Hin) in Hf. discriminate. }
    exists rs. rewrite Heq. auto.
Qed.

Lemma get_cars_listing_witness :
  fst (get_cars state_color_null) = inl (Unhandled ValidationError).
Proof.
  apply (proj1 (get_cars_listing example_year state_color_null
                  (reachable_serve example_year [POST_cars camry; PUT_car 1 color_null]
                     initial_state (reachable_init example_year)))).
  exists (updated_car 1 (created_car initial_state camry) color_null), F_color.
  split; [simpl; now left | reflexivity].
Defined.

(** * Cancelling a booking, deleting and updating a car *)

(** The items a store lists after a key was removed: the ones it listed
    before, except the one under that key. *)
Lemma get_del_iff {V} (k k' : Z) (v : V) (d : dict V) :
  NoDup (keys d) ->
  (dict_get k' (dict_del k d) = Some v <-> k' <> k /\ dict_get k' d = Some v).
Proof.
  intros Hnd. destruct (Z.eq_dec k' k) as [->|Hne].
  - rewrite (dict_get_del_same _ _ Hnd). split; [discriminate | tauto].
  - rewrite (dict_get_del_other _ _ _ Hne). tauto.
Qed.

Lemma listed_booking_key (self : BookingRepository.t) (b : Booking.t) :
  InMemoryDatabase.wf self ->
  In b (BookingRepository.get_all self) ->
  exists k, BookingRepository.get_by_id self k = Some b /\ Booking.id b = Some k.
Proof.
  intros [Hnd Hid] Hin.
  destruct (In_values_get _ _ Hnd Hin) as (k & Hget). exists k. split; [exact Hget|].
  apply (Hid k b); [now apply dict_get_In | reflexivity].
Qed.

(** X12: [delete_booking] of an identity that is no booking fails with
    404 and changes nothing.  In a state the service reaches, cancelling
    booking [k] succeeds, a following [get_booking k] fails with 404,
    every other booking and the catalog stay as they were, and from then
    on a conflict check answers what the check with
    [exclude_booking_id = k] answered before: the interval is free again
    at once. *)
Theorem delete_booking_effects (today_year : Z) (st : State) (k : Z) :
  (BookingRepository.get_by_id (booking_repo st) k = None ->
   delete_booking st k
   = (inl (HTTPException HTTP_404_NOT_FOUND (BookingNotFound k)), st))
  /\
  (reachable today_year st ->
   BookingRepository.get_by_id (booking_repo st) k <> None ->
   fst (delete_booking st k) = inr tt /\
   fst (get_booking (snd (delete_booking st k)) k)
   = inl (HTTPException HTTP_404_NOT_FOUND (BookingNotFound k)) /\
   (forall k', k' <> k ->
               BookingRepository.get_by_id (booking_repo (snd (delete_booking st k))) k'
               = BookingRepository.get_by_id (booking_repo st) k') /\
   car_repo (snd (delete_booking st k)) = car_repo st /\
   (forall car_id s e,
       BookingRepository.has_conflicting_booking
         (booking_repo (snd (delete_booking st k))) car_id s e None
       = BookingRepository.has_conflicting_booking
           (booking_repo st) car_id s e (Some k))).
Proof.
  split.
  - intros Hget. unfold delete_booking. now rewrite Hget.
  - intros Hr Hsome.
    destruct (Inv_reachable _ _ Hr) as (_ & Hwf & _).
    destruct (Sound_reachable _ _ Hr) as (_ & [_ Hrange] & _).
    destruct (BookingRepository.get_by_id (booking_repo st) k) as [b|] eqn:Hget;
      [clear Hsome | congruence].
    assert (Hst : delete_booking st k
                  = (inr tt,
                     mkState (car_repo st)
                       (InMemoryDatabase.mk
                          (dict_del k (InMemoryDatabase._storage (booking_repo st)))
                          (InMemoryDatabase._next_id (booking_repo st)))
                       (dealer_repo st))).
    { unfold delete_booking. rewrite Hget. unfold BookingRepository.delete.
      now rewrite (store_delete_present _ _ _ Hget). }
    rewrite Hst. simpl. destruct Hwf as [Hnd Hid].
    split; [reflexivity|]. split; [|split; [|split; [reflexivity|]]].
    + unfold get_booking, BookingRepository.get_by_id, InMemoryDatabase.get_by_id.
      simpl. now rewrite (dict_get_del_same _ _ Hnd).
    + intros k' Hne. unfold BookingRepository.get_by_id, InMemoryDatabase.get_by_id.
      simpl. now apply dict_get_del_other.
    + intros car_id s e. apply eq_true_iff_eq.
      unfold BookingRepository.has_conflicting_booking.
      rewrite !scan_conflicts_true.
      assert (Hk : truthy_int (Some k) = true).
      { simpl. apply negb_true_iff, Z.eqb_neq.
        assert (Hin : In k (keys (InMemoryDatabase._storage (booking_repo st))))
          by (eapply In_keys; eapply dict_get_In; exact Hget).
        apply Hrange in Hin. lia. }
      assert (Hnd' : NoDup (keys (dict_del k (InMemoryDatabase._storage (booking_repo st)))))
        by now apply NoDup_keys_dict_del.
      split.
      * intros (b' & Hin & _ & Hov). apply get_by_car_id_In in Hin.
        destruct Hin as [Hin Hcar].
        unfold BookingRepository.get_all, InMemoryDatabase.get_all in Hin. simpl in Hin.
        destruct (In_values_get _ _ Hnd' Hin) as (k' & Hg).
        apply (get_del_iff _ _ _ _ Hnd) in Hg. destruct Hg as [Hne Hg].
        exists b'. split.
        -- apply get_by_car_id_In. split; [|exact Hcar]. eapply get_In_values; eauto.
        -- split; [|exact Hov]. intros _ Heq.
           pose proof (Hid _ _ (dict_get_In _ _ _ Hg) eq_refl) as Hkey. simpl in Hkey.
           congruence.
      * intros (b' & Hin & Hx & Hov). apply get_by_car_id_In in Hin.
        destruct Hin as [Hin Hcar].
        destruct (listed_booking_key _ _ (conj Hnd Hid) Hin) as (k' & Hg & Hkey).
        exists b'. split.
        -- apply get_by_car_id_In. split; [|exact Hcar].
           unfold BookingRepository.get_all, InMemoryDatabase.get_all. simpl.
           apply (get_In_values k'). apply (get_del_iff _ _ _ _ Hnd).
           split; [|exact Hg]. intros ->. now apply (Hx Hk).
        -- split; [discriminate | exact Hov].
Qed.

(** After booking A is cancelled, a request for the days of booking A has
    no conflict any more. *)
Lemma delete_booking_effects_witness :
  fst (delete_booking state_booked 1) = inr tt
  /\ BookingRepository.has_conflicting_booking
       (booking_repo (snd (delete_booking state_booked 1))) 1
       (mk_datetime 2024 1 16 0 0) (mk_datetime 2024 1 18 0 0) None
     = BookingRepository.has_conflicting_booking
         (booking_repo state_booked) 1
         (mk_datetime 2024 1 16 0 0) (mk_datetime 2024 1 18 0 0) (Some 1).
Proof.
  destruct (proj2 (delete_booking_effects example_year state_booked 1)
              (reachable_serve example_year
                 [POST_cars camry; POST_bookings booking_request_A]
                 initial_state (reachable_init example_year))
              ltac:(discriminate))
    as (H1 & _ & _ & _ & H5).
  split; [exact H1 | apply H5].
Defined.

(** X13: in a state the service reaches, [delete_car] of a car without
    bookings succeeds, a following [get_car] of its identity fails with
    404, every other car stays as it was, and the VIN the car held is
    held by no car afterwards, so it can be given to a new car. *)
Theorem delete_car_frees_vin (today_year : Z) (st : State) (k : Z) (car : Car.t) :
  reachable today_year st ->
  CarRepository.get_by_id (car_repo st) k = Some car ->
  BookingRepository.get_by_car_id (booking_repo st) k = [] ->
  fst (delete_car st k) = inr tt /\
  fst (get_car (snd (delete_car st k)) k)
  = inl (HTTPException HTTP_404_NOT_FOUND (CarNotFound k)) /\
  (forall k', k' <> k ->
              CarRepository.get_by_id (car_repo (snd (delete_car st k))) k'
              = CarRepository.get_by_id (car_repo st) k') /\
  (forall v, Car.vin car = Some v ->
             CarRepository.get_by_vin (car_repo (snd (delete_car st k))) v = None).
Proof.
  intros Hr Hget Hnone.
  destruct (Inv_reachable _ _ Hr) as ([Hnd Hid] & _ & Hvins).
  assert (Hst : delete_car st k
                = (inr tt,
                   mkState (InMemoryDatabase.mk
                              (dict_del k (InMemoryDatabase._storage (car_repo st)))
                              (InMemoryDatabase._next_id (car_repo st)))
                           (booking_repo st) (dealer_repo st))).
  { unfold delete_car. rewrite Hget, Hnone. unfold CarRepository.delete.
    now rewrite (store_delete_present _ _ _ Hget). }
  rewrite Hst. simpl. split; [reflexivity|]. split; [|split].
  - unfold get_car, CarRepository.get_by_id, InMemoryDatabase.get_by_id. simpl.
    now rewrite (dict_get_del_same _ _ Hnd).
  - intros k' Hne. unfold CarRepository.get_by_id, InMemoryDatabase.get_by_id. simpl.
    now apply dict_get_del_other.
  - intros v Hv. apply get_by_vin_None. rewrite In_held_vins.
    intros (car' & Hin & Hv').
    unfold CarRepository.get_all, InMemoryDatabase.get_all in Hin. simpl in Hin.
    assert (Hnd' : NoDup (keys (dict_del k (InMemoryDatabase._storage (car_repo st)))))
      by now apply NoDup_keys_dict_del.
    destruct (In_values_get _ _ Hnd' Hin) as (k' & Hg).
    apply (get_del_iff _ _ _ _ Hnd) in Hg. destruct Hg as [Hne Hg].
    apply Hne.
    exact (held_vins_by_key _ _ _ _ _ _ Hvins Hg Hget Hv' Hv).
Qed.

Lemma delete_car_frees_vin_witness :
  fst (delete_car state_camry 1) = inr tt /\
  CarRepository.get_by_vin (car_repo (snd (delete_car state_camry 1)))
                           "1HGBH41JXMN109186" = None.
Proof.
  destruct (delete_car_frees_vin example_year state_camry 1
              (created_car initial_state camry)
              (reachable_serve example_year [POST_cars camry]
                 initial_state (reachable_init example_year))
              eq_refl eq_refl)
    as (H1 & _ & _ & H4).
  split; [exact H1 | now apply H4].
Defined.

(** X14: an [update_car] that goes through (valid payload, existing car,
    dealer and VIN checks passed) answers exactly what a following
    [get_car] of the same identity answers, leaves every other car as it
    was and touches neither the bookings nor the dealers nor the car
    store's counter; every field the payload supplies with a value holds
    that value in the stored car. *)
Theorem update_car_then_get (today_year : Z) (st : State) (k : Z) (d : CarUpdate.t)
    (c : Car.t) :
  CarUpdate.validate today_year d = true ->
  CarRepository.get_by_id (car_repo st) k = Some c ->
  check_dealer st c d = None ->
  check_vin st c d = None ->
  fst (get_car (snd (update_car today_year st k d)) k)
  = fst (update_car today_year st k d)
  /\ (forall k', k' <> k ->
        CarRepository.get_by_id (car_repo (snd (update_car today_year st k d))) k'
        = CarRepository.get_by_id (car_repo st) k')
  /\ booking_repo (snd (update_car today_year st k d)) = booking_repo st
  /\ dealer_repo (snd (update_car today_year st k d)) = dealer_repo st
  /\ InMemoryDatabase._next_id (car_repo (snd (update_car today_year st k d)))
     = InMemoryDatabase._next_id (car_repo st)
  /\ (forall f, payload_field f d = SuppliedValue ->
                holds_none (car_field f (updated_car k c d)) = false).
Proof.
  intros Hv Hget Hd Hvin.
  rewrite (update_car_ok today_year _ _ _ _ Hv Hget Hd Hvin). simpl.
  split; [|split; [|repeat split]].
  - rewrite (get_car_stored _ _ (updated_car k c d)); [reflexivity|].
    unfold CarRepository.get_by_id, InMemoryDatabase.get_by_id. simpl.
    apply dict_get_set_same.
  - intros k' Hne. unfold CarRepository.get_by_id, InMemoryDatabase.get_by_id. simpl.
    now apply dict_get_set_other.
  - intros f. destruct d as [b m y co p v s de].
    destruct f; simpl;
      match goal with |- presence_of ?x = _ -> _ => destruct x end;
      simpl; congruence.
Qed.

Lemma update_car_then_get_witness :
  fst (get_car (snd (update_car example_year state_camry 1 red_36000)) 1)
  = fst (update_car example_year state_camry 1 red_36000).
Proof.
  apply (update_car_then_get example_year state_camry 1 red_36000
           (created_car initial_state camry)); reflexivity.
Defined.

(** X15: in a state the service reaches, [update_car] of an existing car
    with a valid payload that names a dealer other than dealer 1 and
    other than the car's own fails with 404 for that dealer and changes
    nothing, before the VIN of the payload is looked at. *)
Theorem update_car_unknown_dealer (today_year : Z) (st : State) (k dealer : Z)
    (d : CarUpdate.t) (c : Car.t) :
  reachable today_year st ->
  CarUpdate.validate today_year d = true ->
  CarRepository.get_by_id (car_repo st) k = Some c ->
  CarUpdate.dealer_id d = Value dealer ->
  dealer <> 1 -> Car.dealer_id c <> Some dealer ->
  update_car today_year st k d
  = (inl (HTTPException HTTP_404_NOT_FOUND (DealerNotFound dealer)), st).
Proof.
  intros Hr Hv Hget Hdealer Hne1 Hnec.
  destruct (Sound_reachable _ _ Hr) as (_ & _ & Hd & _).
  assert (Hpos : 0 < dealer).
  { unfold CarUpdate.validate in Hv. rewrite Hdealer in Hv. simpl in Hv.
    rewrite !andb_true_iff, Z.ltb_lt in Hv. tauto. }
  assert (Hcheck : check_dealer st c d = Some (DealerNotFound dealer)).
  { unfold check_dealer, dealer_changes. rewrite Hdealer. cbn [attr truthy_int].
    replace (dealer =? 0) with false by (symmetry; apply Z.eqb_neq; lia).
    destruct (opt_int_eqb (Some dealer) (Car.dealer_id c)) eqn:Heq.
    - apply opt_int_eqb_eq in Heq. congruence.
    - simpl. rewrite Hd.
      change (DealerRepository.get_by_id (dealer_repo initial_state) dealer)
        with (if 1 =? dealer then Some (Dealer.with_id 1 initial_dealer) else None).
      destruct (Z.eqb_spec 1 dealer); [congruence | reflexivity]. }
  unfold update_car. now rewrite Hv, Hget, Hcheck.
Qed.

Lemma update_car_unknown_dealer_witness :
  update_car example_year state_camry 1 dealer_999
  = (inl (HTTPException HTTP_404_NOT_FOUND (DealerNotFound 999)), state_camry).
Proof.
  apply (update_car_unknown_dealer example_year state_camry 1 999 dealer_999
           (created_car initial_state camry)).
  - apply (reachable_serve example_year [POST_cars camry]), reachable_init.
  - reflexivity.
  - reflexivity.
  - reflexivity.
  - discriminate.
  - discriminate.
Defined.

(** * The entity store: lookups after writes *)

Section StoreLaws.
Context {T : Type} `{Entity T}.
Import InMemoryDatabase.

(** X16: when [create] returns, the item it returns is found under one
    key, it carries that key as its [id] (if it has one), and every other
    key answers as before.  The key is the counter, which then moves by
    one, for an item that came without identity, and the item's own
    identity, free until then, with the counter unmoved, otherwise. *)
Theorem create_then_get (self self' : t T) (item item' : T) :
  create self item = (inr item', self') ->
  exists k,
    get_by_id self' k = Some item' /\ exists_ self' k = true /\
    (hasattr_id item = true -> get_id item' = Some k) /\
    (forall k', k' <> k -> get_by_id self' k' = get_by_id self k') /\
    ((k = _next_id self /\ _next_id self' = _next_id self + 1 /\
      (hasattr_id item = true -> get_id item = None))
     \/
     (get_id item = Some k /\ get_by_id self k = None /\
      _next_id self' = _next_id self)).
Proof.
  unfold create, get_by_id, exists_, dict_mem.
  destruct (hasattr_id item) eqn:Hattr; [destruct (get_id item) as [k|] eqn:Hid|].
  - destruct (dict_get k (_storage self)) eqn:Hget; [discriminate|].
    intros [= <- <-]. exists k. simpl. rewrite dict_get_set_same.
    repeat split; auto.
    intros k' Hne. now apply dict_get_set_other.
  - intros [= <- <-]. exists (_next_id self). simpl. rewrite dict_get_set_same.
    repeat split; auto.
    + intros _. apply get_set_id.
    + intros k' Hne. now apply dict_get_set_other.
  - intros [= <- <-]. exists (_next_id self). simpl. rewrite dict_get_set_same.
    repeat split; auto; try discriminate.
    + intros k' Hne. now apply dict_get_set_other.
    + left. repeat split; auto. discriminate.
Qed.

(** X17: [update] of a key that is absent returns [None] and changes
    nothing.  [update] of a key that is present, with an item that is not
    one of the items stored under another key, stores the item under that
    key with its [id] overwritten by the key, whatever [id] it carried;
    the keys keep their order, every other key answers as before and the
    counter does not move.  (The code writes [item.id] on the object it is
    handed: an object that is also stored under another key would change
    there too, which is why such an item is excluded.) *)
Theorem update_replaces (self : t T) (k : Z) (item : T) :
  (get_by_id self k = None -> update self k item = (None, self))
  /\
  (get_by_id self k <> None ->
   (forall k', k' <> k -> get_by_id self k' <> Some item) ->
   exists item',
     fst (update self k item) = Some item' /\
     (hasattr_id item = true -> item' = set_id k item /\ get_id item' = Some k) /\
     (hasattr_id item = false -> item' = item) /\
     get_by_id (snd (update self k item)) k = Some item' /\
     (forall k', k' <> k ->
                 get_by_id (snd (update self k item)) k' = get_by_id self k') /\
     keys (_storage (snd (update self k item))) = keys (_storage self) /\
     _next_id (snd (update self k item)) = _next_id self).
Proof.
  unfold update, get_by_id, dict_mem. split.
  - now intros ->.
  - intros Hsome _. destruct (dict_get k (_storage self)) as [old|] eqn:Hget;
      [clear Hsome | congruence].
    simpl. eexists. split; [reflexivity|].
    split; [|split; [|split; [|split; [|split]]]].
    + intros ->. split; [reflexivity | apply get_set_id].
    + now intros ->.
    + apply dict_get_set_same.
    + intros k' Hne. now apply dict_get_set_other.
    + now apply keys_dict_set_present with (v := old).
    + reflexivity.
Qed.

(** X18: [delete] answers whether the key was present; an absent key
    leaves the store as it is; every other key answers as before and the
    counter does not move; in a store with distinct keys the deleted key
    is absent afterwards and a second [delete] of it answers [False]. *)
Theorem delete_removes (self : t T) (k : Z) :
  fst (delete self k) = exists_ self k
  /\ (exists_ self k = false -> snd (delete self k) = self)
  /\ (forall k', k' <> k -> get_by_id (snd (delete self k)) k' = get_by_id self k')
  /\ _next_id (snd (delete self k)) = _next_id self
  /\ (NoDup (keys (_storage self)) ->
      get_by_id (snd (delete self k)) k = None /\
      exists_ (snd (delete self k)) k = false /\
      fst (delete (snd (delete self k)) k) = false).
Proof.
  unfold delete, exists_, get_by_id.
  destruct (dict_mem k (_storage self)) eqn:Hmem; simpl.
  - split; [reflexivity|]. split; [discriminate|].
    split; [intros k' Hne; now apply dict_get_del_other|].
    split; [reflexivity|]. intros Hnd.
    pose proof (dict_get_del_same k _ Hnd) as Hgone.
    unfold dict_mem. rewrite Hgone. auto.
  - split; [reflexivity|]. split; [reflexivity|].
    split; [reflexivity|]. split; [reflexivity|]. intros _.
    rewrite Hmem. split; [now apply dict_mem_false | auto].
Qed.

(** X19: the counter is not checked against the keys.  When an item
    that came with its own identity sits under the key the counter
    holds, [create] of an item without identity raises nothing and
    replaces it: the new item is found under that key, the keys and the
    number of stored items are as before, and the old item is in the
    store no more. *)
Theorem create_overwrites_at_counter (self : t T) (item old : T) :
  hasattr_id item = true -> get_id item = None ->
  get_by_id self (_next_id self) = Some old ->
  fst (create self item) = inr (set_id (_next_id self) item)
  /\ get_by_id (snd (create self item)) (_next_id self)
     = Some (set_id (_next_id self) item)
  /\ keys (_storage (snd (create self item))) = keys (_storage self)
  /\ length (get_all (snd (create self item))) = length (get_all self).
Proof.
  intros Hattr Hid Hget. unfold create, get_by_id, get_all in *.
  rewrite Hattr, Hid. simpl.
  split; [reflexivity|]. split; [apply dict_get_set_same|].
  assert (Hkeys : keys (dict_set (_next_id self) (set_id (_next_id self) item)
                                 (_storage self)) = keys (_storage self))
    by now apply keys_dict_set_present with (v := old).
  split; [exact Hkeys|].
  unfold values. rewrite !length_map.
  rewrite <- (length_map fst), <- (length_map fst (_storage self)).
  fold (keys (_storage self)). unfold keys in Hkeys. now rewrite Hkeys.
Qed.

Lemma ids_in_range_run (ops : list op) (self : t T) :
  ids_in_range self ->
  (forall item, In (Create item) ops -> hasattr_id item = true /\ get_id item = None) ->
  ids_in_range (fst (run self ops)).
Proof.
  revert self. induction ops as [|o ops IH]; intros self Hr Hall; simpl; [exact Hr|].
  assert (Hstep : ids_in_range (fst (step self o))).
  { destruct o as [item|k]; simpl.
    - destruct (Hall item (or_introl eq_refl)) as [Hattr Hid].
      unfold create. rewrite Hattr, Hid. simpl. now apply ids_in_range_set_next.
    - unfold delete. destruct (dict_mem k (_storage self)); simpl; [|exact Hr].
      now apply ids_in_range_del. }
  destruct (step self o) as [self1 e]. simpl in Hstep.
  specialize (IH self1 Hstep (fun item Hin => Hall item (or_intror Hin))).
  destruct (run self1 ops) as [self2 es]. exact IH.
Qed.

(** X20: a store that is only handed items without identity never
    overwrites: after any sequence of [delete] calls and [create] calls
    of such items on a fresh store every key lies between 1 and the
    counter, and in such a store [create] of an item without identity
    puts it at the end of [get_all], behind the items that were there. *)
Theorem idless_creates_append :
  (forall ops : list op,
      (forall item, In (Create item) ops ->
                    hasattr_id item = true /\ get_id item = None) ->
      ids_in_range (fst (run init ops)))
  /\
  (forall (self : t T) (item : T),
      ids_in_range self -> hasattr_id item = true -> get_id item = None ->
      get_all (snd (create self item))
      = get_all self ++ [set_id (_next_id self) item]
      /\ ids_in_range (snd (create self item))).
Proof.
  split.
  - intros ops Hall. apply ids_in_range_run; [|exact Hall].
    split; simpl; [lia | tauto].
  - intros self item Hr Hattr Hid. unfold create, get_all.
    rewrite Hattr, Hid. simpl. split; [|now apply ids_in_range_set_next].
    assert (Hfresh : dict_get (_next_id self) (_storage self) = None).
    { apply dict_get_None_iff_keys. intros Hin. apply Hr in Hin. lia. }
    destruct (dict_get_None_shape _ _ Hfresh) as (_ & Hset & _).
    now rewrite Hset, values_app.
Qed.

(** X29: the identities of a store that is only handed items without
    identity.  Over any sequence of [delete] calls and [create] calls of
    such items on a fresh store, the identities carried by the items that
    the [create] calls returned are 1, 2, 3, ... in the order of the
    calls, one for each [create], whatever was deleted in between; so
    each is larger than the ones before it and none is given twice; the
    counter ends one past the last of them. *)
Theorem idless_identities (ops : list op) :
  (forall item, In (Create item) ops ->
                hasattr_id item = true /\ get_id item = None) ->
  created_ids (snd (run init ops)) = count_from 1 (length (filter is_create ops))
  /\ NoDup (created_ids (snd (run init ops)))
  /\ _next_id (fst (run init ops)) = 1 + Z.of_nat (length (filter is_create ops)).
Proof.
  intros Hall. destruct (run_created ops init Hall) as [Hc Hn]. simpl in Hc, Hn.
  split; [exact Hc|]. split; [rewrite Hc; apply NoDup_count_from | exact Hn].
Qed.

End StoreLaws.

(** Bookings A, B and C created in turn, B deleted before C: the
    identities are 1, 2 and 3. *)
Lemma idless_identities_witness :
  InMemoryDatabase.created_ids
    (snd (InMemoryDatabase.run InMemoryDatabase.init
            [InMemoryDatabase.Create booking_A; InMemoryDatabase.Create booking_B;
             InMemoryDatabase.Delete 2; InMemoryDatabase.Create booking_C]))
  = [1; 2; 3].
Proof.
  apply (proj1 (idless_identities
                  [InMemoryDatabase.Create booking_A; InMemoryDatabase.Create booking_B;
                   InMemoryDatabase.Delete 2; InMemoryDatabase.Create booking_C]
                  ltac:(intros item [[= <-]|[[= <-]|[[=]|[[= <-]|[]]]]];
                        split; reflexivity))).
Defined.

Lemma create_then_get_witness :
  exists k, InMemoryDatabase.get_by_id ledger_A k = Some (Booking.with_id 1 booking_A).
Proof.
  destruct (create_then_get InMemoryDatabase.init ledger_A booking_A
              (Booking.with_id 1 booking_A)) as (k & Hget & _); [reflexivity|].
  exists k. exact Hget.
Defined.

(** Booking C, handed over with the identity 9, replaces booking B under
    the key 2 and is stored with the identity 2; booking A stays under the
    key 1. *)
Lemma update_replaces_witness :
  InMemoryDatabase.get_by_id
    (snd (InMemoryDatabase.update ledger_ABC 2 (Booking.with_id 9 booking_C))) 2
  = Some (Booking.with_id 2 booking_C)
  /\ InMemoryDatabase.get_by_id
       (snd (InMemoryDatabase.update ledger_ABC 2 (Booking.with_id 9 booking_C))) 1
     = Some (Booking.with_id 1 booking_A).
Proof.
  destruct (proj2 (update_replaces ledger_ABC 2 (Booking.with_id 9 booking_C)))
    as (item' & _ & Hid & _ & Hget & Hother & _).
  - discriminate.
  - intros k' Hne Hget. apply dict_get_In in Hget.
    destruct Hget as [Hin|[Hin|[Hin|[]]]]; discriminate.
  - destruct (Hid eq_refl) as [-> _]. split; [exact Hget|].
    rewrite Hother; [reflexivity | discriminate].
Defined.

Lemma delete_removes_witness :
  InMemoryDatabase.get_by_id (snd (InMemoryDatabase.delete ledger_ABC 2)) 2 = None.
Proof.
  apply (proj2 (proj2 (proj2 (proj2 (delete_removes ledger_ABC 2))))).
  repeat constructor; simpl; intuition discriminate.
Defined.

(** Booking A was stored with the identity 1 of its own; the next booking
    without identity takes its place. *)
Lemma create_overwrites_at_counter_witness :
  InMemoryDatabase.get_by_id
    (snd (InMemoryDatabase.create ledger_preset_one booking_B)) 1
  = Some (Booking.with_id 1 booking_B)
  /\ length (InMemoryDatabase.get_all
               (snd (InMemoryDatabase.create ledger_preset_one booking_B))) = 1%nat.
Proof.
  destruct (create_overwrites_at_counter ledger_preset_one booking_B
              (Booking.with_id 1 booking_A))
    as (_ & Hget & _ & Hlen); [reflexivity | reflexivity | reflexivity |].
  split; [exact Hget | exact Hlen].
Defined.

Lemma idless_creates_append_witness :
  InMemoryDatabase.get_all (snd (InMemoryDatabase.create ledger_A booking_B))
  = InMemoryDatabase.get_all ledger_A ++ [Booking.with_id 2 booking_B].
Proof.
  destruct (proj2 (idless_creates_append (T:=Booking.t)) ledger_A booking_B)
    as [Hall _]; [|reflexivity|reflexivity|exact Hall].
  split; simpl; [lia|]. intros k [<-|[]]. lia.
Defined.

(** * Lookups by VIN, listings of bookings *)

Lemma find_first {A} (f : A -> bool) (l : list A) (x : A) :
  find f l = Some x ->
  exists l1 l2, l = l1 ++ x :: l2 /\ f x = true /\ forall y, In y l1 -> f y = false.
Proof.
  induction l as [|a l IH]; simpl; [discriminate|].
  destruct (f a) eqn:Hfa.
  - intros [= <-]. exists [], l. simpl. repeat split; auto. intros y [].
  - intros Hfind. destruct (IH Hfind) as (l1 & l2 & -> & Hx & Hl1).
    exists (a :: l1), l2. simpl. repeat split; auto.
    intros y [<-|Hin]; auto.
Qed.

Lemma vin_test (car : Car.t) (v : string) :
  opt_str_eqb (Car.vin car) (Some v) = false <-> Car.vin car <> Some v.
Proof.
  rewrite <- opt_str_eqb_eq. destruct (opt_str_eqb _ _); split; congruence.
Qed.

(** X21: [get_by_vin] answers [None] exactly when no car of the store
    holds the VIN, and otherwise the first car in the order of the store
    that holds it: no car before it does. *)
Theorem get_by_vin_first_match (self : CarRepository.t) (v : string) :
  (CarRepository.get_by_vin self v = None <->
   forall car, In car (CarRepository.get_all self) -> Car.vin car <> Some v)
  /\
  (forall car, CarRepository.get_by_vin self v = Some car ->
     exists l1 l2,
       CarRepository.get_all self = l1 ++ car :: l2 /\ Car.vin car = Some v /\
       forall c, In c l1 -> Car.vin c <> Some v).
Proof.
  unfold CarRepository.get_by_vin. split.
  - split.
    + intros Hnone car Hin. apply vin_test. exact (find_none _ _ Hnone car Hin).
    + intros Hall. destruct (find _ _) as [car|] eqn:Hfind; [|reflexivity].
      apply find_some in Hfind. destruct Hfind as [Hin Heq].
      apply opt_str_eqb_eq in Heq. exfalso. exact (Hall car Hin Heq).
  - intros car Hfind. destruct (find_first _ _ _ Hfind) as (l1 & l2 & Hl & Hx & Hl1).
    exists l1, l2. split; [exact Hl|]. split; [now apply opt_str_eqb_eq|].
    intros c Hin. apply vin_test. auto.
Qed.

Lemma get_by_vin_first_match_witness :
  exists l1 l2,
    CarRepository.get_all (car_repo state_two_cars)
    = l1 ++ created_car state_camry accord :: l2
    /\ Car.vin (created_car state_camry accord) = Some "2HGBH41JXMN109187"%string
    /\ forall c, In c l1 -> Car.vin c <> Some "2HGBH41JXMN109187"%string.
Proof.
  apply (proj2 (get_by_vin_first_match (car_repo state_two_cars) "2HGBH41JXMN109187")).
  reflexivity.
Defined.

Lemma selected_bookings_incl (st : State) (c : option Z) (s e : option datetime)
    (b : Booking.t) :
  In b (selected_bookings st c s e) ->
  In b (BookingRepository.get_all (booking_repo st)).
Proof.
  unfold selected_bookings.
  assert (Hcar : forall k, In b (BookingRepository.get_by_car_id (booking_repo st) k) ->
                           In b (BookingRepository.get_all (booking_repo st))).
  { intros k Hin. now apply get_by_car_id_In in Hin. }
  assert (Hdate : In b (BookingRepository.get_by_datetime_range (booking_repo st) s e) ->
                  In b (BookingRepository.get_all (booking_repo st))).
  { unfold BookingRepository.get_by_datetime_range.
    destruct s, e; try rewrite collect_filter; try rewrite filter_In; tauto. }
  destruct (is_some s || is_some e), (truthy_int c) eqn:Hc, c as [k|];
    simpl; try rewrite filter_In; try discriminate; intuition eauto.
Qed.

(** X22: in a state the service reaches, [get_bookings] without date
    bounds never ends in an error: with a car identity other than [0] it
    answers the bookings of that car, and without one, or with [0], every
    booking; one response per booking, in the order of the store; the
    state is as it was. *)
Theorem get_bookings_without_dates (today_year : Z) (st : State) (c : option Z) :
  reachable today_year st ->
  selected_bookings st c None None
  = match c with
    | Some k => if k =? 0
                then BookingRepository.get_all (booking_repo st)
                else BookingRepository.get_by_car_id (booking_repo st) k
    | None => BookingRepository.get_all (booking_repo st)
    end
  /\ exists rs,
       get_bookings st c None None = (inr rs, st) /\
       Forall2 (fun b r => BookingResponse.model_validate b = Some r)
               (selected_bookings st c None None) rs.
Proof.
  intros Hr. split.
  - unfold selected_bookings. simpl. destruct c as [k|]; [|reflexivity].
    simpl. now destruct (k =? 0).
  - destruct (Inv_reachable _ _ Hr) as (_ & Hwf & _).
    destruct (validate_each_Some BookingResponse.model_validate
                (selected_bookings st c None None)) as (rs & Heq & Hall).
    { intros b Hin. apply selected_bookings_incl in Hin.
      destruct (listed_booking_key _ _ Hwf Hin) as (k & _ & Hid).
      unfold BookingResponse.model_validate. rewrite Hid. discriminate. }
    exists rs. unfold get_bookings, respond. rewrite Heq. auto.
Qed.

Lemma get_bookings_without_dates_witness :
  exists rs, get_bookings state_two_bookings (Some 1) None None
             = (inr rs, state_two_bookings)
             /\ length rs = 2%nat.
Proof.
  destruct (get_bookings_without_dates example_year state_two_bookings (Some 1)
              (reachable_serve example_year
                 [POST_cars camry; POST_bookings booking_request_A;
                  POST_bookings booking_request_B]
                 initial_state (reachable_init example_year)))
    as (_ & rs & Heq & Hall).
  exists rs. split; [exact Heq|].
  apply Forall2_length in Hall. rewrite <- Hall. reflexivity.
Defined.

(** * The availability query, in terms of the bookings *)





(** * The e-mail pattern *)

Lemma count_at_app (x y : string) :
  count_at (x ++ y) = (count_at x + count_at y)%nat.
Proof.
  induction x as [|c x IH]; simpl; [reflexivity|]. rewrite IH. lia.
Qed.

Lemma after_at_app (l r : string) :
  count_at l = 0%nat -> after_at (l ++ String at_sign r) = r.
Proof.
  induction l as [|c l IH]; simpl.
  - reflexivity.
  - destruct (Ascii.eqb c at_sign); [discriminate|]. simpl. exact IH.
Qed.

Lemma before_after_at (s : string) :
  (1 <= count_at s)%nat ->
  s = (before_at s ++ String at_sign (after_at s))%string
  /\ count_at (before_at s) = 0%nat.
Proof.
  induction s as [|c s IH]; simpl; [lia|].
  destruct (Ascii.eqb_spec c at_sign) as [->|Hne]; simpl.
  - auto.
  - intros Hc. destruct (IH Hc) as [Heq Hz]. split.
    + now rewrite <- Heq.
    + destruct (Ascii.eqb_spec c at_sign); [contradiction | exact Hz].
Qed.

Lemma dot_before_last_app (a b : string) :
  b <> EmptyString -> dot_before_last (a ++ String dot b) = true.
Proof.
  intros Hb. induction a as [|c a IH]; simpl.
  - destruct b; [contradiction|]. reflexivity.
  - destruct (a ++ String dot b)%string eqn:Hab.
    + destruct a; discriminate.
    + rewrite IH. apply orb_true_r.
Qed.

Lemma dot_before_last_split (r : string) :
  dot_before_last r = true ->
  exists a b, r = (a ++ String dot b)%string /\ b <> EmptyString.
Proof.
  induction r as [|c r IH]; simpl; [discriminate|].
  destruct r as [|c' r']; [discriminate|].
  destruct (Ascii.eqb_spec c dot) as [->|Hne]; simpl.
  - intros _. exists EmptyString, (String c' r'). split; [reflexivity | discriminate].
  - intros Hd. destruct (IH Hd) as (a & b & Heq & Hb).
    exists (String c a), b. simpl. now rewrite <- Heq.
Qed.

(** X23: the test that embeds the pattern of [customer_email] accepts
    exactly the strings made of a non-empty part without [@], one [@],
    and a part without [@] that has a dot with at least one character
    before it and one after it. *)
Theorem email_pattern_shape (s : string) :
  email_pattern s = true <->
  exists l a b,
    s = (l ++ String at_sign (a ++ String dot b))%string /\
    l <> EmptyString /\ a <> EmptyString /\ b <> EmptyString /\
    count_at l = 0%nat /\ count_at a = 0%nat /\ count_at b = 0%nat.
Proof.
  unfold email_pattern. rewrite !andb_true_iff, Nat.eqb_eq. split.
  - intros [[Hone Hfirst] Hdom].
    destruct s as [|c s0]; [discriminate|].
    apply negb_true_iff in Hfirst.
    destruct (before_after_at (String c s0)) as [Heq Hz]; [lia|].
    destruct (after_at (String c s0)) as [|c1 rest] eqn:Hafter; [discriminate|].
    destruct (dot_before_last_split _ Hdom) as (a' & b & Hrest & Hb).
    exists (before_at (String c s0)), (String c1 a'), b.
    assert (Hcount : count_at (String c1 rest) = 0%nat).
    { rewrite Heq, count_at_app in Hone. simpl in Hone. simpl. simpl in Hz. lia. }
    rewrite Hrest in Hcount.
    change (String c1 (a' ++ String dot b))%string
      with (String c1 a' ++ String dot b)%string in Hcount.
    rewrite count_at_app in Hcount. simpl in Hcount.
    split; [now rewrite Heq at 1; rewrite Hrest|].
    split; [simpl; rewrite Hfirst; discriminate|].
    split; [discriminate|]. split; [exact Hb|].
    split; [exact Hz|]. simpl. split; lia.
  - intros (l & a & b & -> & Hl & Ha & Hb & Hcl & Hca & Hcb).
    split; [split|].
    + rewrite count_at_app. simpl. rewrite count_at_app. simpl. lia.
    + destruct l as [|c l]; [contradiction|]. simpl in *.
      destruct (Ascii.eqb c at_sign); [discriminate | reflexivity].
    + rewrite (after_at_app _ _ Hcl).
      destruct a as [|c a]; [contradiction|]. simpl.
      now apply dot_before_last_app.
Qed.

Lemma email_pattern_shape_witness :
  email_pattern "john.doe@example.com" = true.
Proof.
  apply (proj2 (email_pattern_shape "john.doe@example.com")).
  exists "john.doe"%string, "example"%string, "com"%string.
  repeat split; try discriminate; reflexivity.
Defined.

(** * Instances of the general facts *)

Lemma has_conflicting_booking_reachable_witness :
  BookingRepository.has_conflicting_booking (booking_repo state_booked) 1
    (mk_datetime 2024 1 16 0 0) (mk_datetime 2024 1 18 0 0) (Some 0) = true
  <->
  exists b, In b (BookingRepository.get_all (booking_repo state_booked)) /\
            Booking.car_id b = 1 /\ Booking.id b <> Some 0 /\
            mk_datetime 2024 1 16 0 0 < Booking.end_datetime b /\
            Booking.start_datetime b < mk_datetime 2024 1 18 0 0.
Proof.
  apply (has_conflicting_booking_reachable example_year state_booked).
  apply (reachable_serve example_year [POST_cars camry; POST_bookings booking_request_A]),
    reachable_init.
Defined.

Lemma selected_bookings_intersection_witness :
  selected_bookings state_two_bookings (Some 1) (Some (mk_datetime 2024 2 1 0 0)) None
  = filter (BookingRepository.in_datetime_range (Some (mk_datetime 2024 2 1 0 0)) None)
           (BookingRepository.get_by_car_id (booking_repo state_two_bookings) 1).
Proof.
  assert (Hr : reachable example_year state_two_bookings).
  { apply (reachable_serve example_year
             [POST_cars camry; POST_bookings booking_request_A;
              POST_bookings booking_request_B]), reachable_init. }
  assert (Hne : 1 <> 0) by discriminate.
  exact (proj1 (selected_bookings_intersection state_two_bookings 1
                  (Some (mk_datetime 2024 2 1 0 0)) None
                  (proj1 (proj2 (Inv_reachable example_year _ Hr))) Hne eq_refl)).
Defined.

Lemma update_car_frame_witness :
  exists stored,
    CarRepository.get_by_id
      (car_repo (snd (update_car example_year state_camry 1 red_36000))) 1
    = Some stored /\
    forall f, payload_field f red_36000 = Absent ->
              car_field f stored = car_field f (created_car initial_state camry).
Proof.
  apply (update_car_frame example_year state_camry 1 red_36000
           (created_car initial_state camry)).
  reflexivity.
Defined.

Lemma update_car_empty_witness :
  update_car example_year state_camry 1 CarUpdate.empty
  = (inr (CarResponse.mk 1 "Toyota" "Camry" 2023 "Blue" (35000 # 1)%Q
                         "1HGBH41JXMN109186" AVAILABLE 1), state_camry).
Proof.
  apply (update_car_empty example_year state_camry 1 (created_car initial_state camry)).
  - apply (Inv_reachable example_year).
    apply (reachable_serve example_year [POST_cars camry]), reachable_init.
  - reflexivity.
  - reflexivity.
Defined.
